(** * Flugzeug server: read service, write service and query builder

    A shallow embedding of the application core of the Flugzeug server
    (TypeScript, NestJS + TypeORM):

    - [FlugzeugReadService]     ([findById], [find], [checkKeys]),
    - [QueryBuilder]            ([buildId], [build]),
    - [FlugzeugWriteService]    ([create], [update], [validateUpdate], [delete]),
    - [FlugzeugWriteController] ([post], [put], [delete]),

    together with the pieces of the JavaScript runtime they rely on
    (regular expressions, [slice], [parseInt], template literals) and an
    in-memory model of the relational store behind the TypeORM repository.

    Asynchronous functions are embedded in a state-and-exception monad: the
    state is the database plus the log of the statements sent to it, an
    exception is a rejected promise.  Logger calls are left out. *)

From Stdlib Require Import List String Ascii ZArith Bool Lia.
Import ListNotations.
Open Scope string_scope.
Open Scope Z_scope.

(* ================================================================== *)
(** * The JavaScript runtime used by the services *)
(* ================================================================== *)

Module JS.

(** JavaScript values that occur as search criteria and column values. *)
Inductive Value : Type :=
| VUndefined
| VNull
| VBool (b : bool)
| VNumber (n : Z)
| VString (s : string).

Definition value_eqb (a b : Value) : bool :=
  match a, b with
  | VUndefined, VUndefined => true
  | VNull, VNull => true
  | VBool x, VBool y => Bool.eqb x y
  | VNumber x, VNumber y => Z.eqb x y
  | VString x, VString y => String.eqb x y
  | _, _ => false
  end.

(** ** Regular expressions

    The two patterns of the services only use literal characters, the class
    [\d], a character range and bounded repetition, with optional anchors.
    A pattern is a sequence of pieces, each an atom with a repetition
    interval. *)

Inductive Atom : Type :=
| Lit (c : ascii)            (* a literal character *)
| Digit                      (* \d *)
| Range (lo hi : ascii).     (* [lo-hi] *)

Record Piece : Type := mkPiece { atom : Atom; rmin : nat; rmax : nat }.

Record RegExp : Type := mkRegExp {
  anchorStart : bool;        (* the pattern begins with ^ *)
  pieces : list Piece;
  anchorEnd : bool           (* the pattern ends with $ *)
}.

Definition isDigit (c : ascii) : bool :=
  let n := nat_of_ascii c in (48 <=? n)%nat && (n <=? 57)%nat.

Definition atomMatch (a : Atom) (c : ascii) : bool :=
  match a with
  | Lit l => Ascii.eqb l c
  | Digit => isDigit c
  | Range lo hi =>
      let n := nat_of_ascii c in
      (nat_of_ascii lo <=? n)%nat && (n <=? nat_of_ascii hi)%nat
  end.

(** [matchRep a must may s k]: consume [must] mandatory and up to [may]
    optional characters matching [a] (greedily, with backtracking), then
    continue with [k] on the rest. *)
Fixpoint matchRep (a : Atom) (must may : nat) (s : string)
         (k : string -> bool) {struct s} : bool :=
  match s with
  | EmptyString => match must with O => k EmptyString | S _ => false end
  | String c s' =>
      match must with
      | S m => atomMatch a c && matchRep a m may s' k
      | O =>
          match may with
          | S e => (atomMatch a c && matchRep a O e s' k) || k s
          | O => k s
          end
      end
  end.

Fixpoint matchPieces (ps : list Piece) (s : string) (k : string -> bool) : bool :=
  match ps with
  | [] => k s
  | p :: ps' =>
      matchRep (atom p) (rmin p) (rmax p - rmin p) s
               (fun rest => matchPieces ps' rest k)
  end.

Definition atEnd (re : RegExp) (rest : string) : bool :=
  if anchorEnd re then
    match rest with EmptyString => true | _ => false end
  else true.

Definition matchHere (re : RegExp) (s : string) : bool :=
  matchPieces (pieces re) s (atEnd re).

Fixpoint matchAnywhere (re : RegExp) (s : string) : bool :=
  matchHere re s ||
  match s with
  | EmptyString => false
  | String _ s' => matchAnywhere re s'
  end.

(** [re.test(s)] *)
Definition test (re : RegExp) (s : string) : bool :=
  if anchorStart re then matchHere re s else matchAnywhere re s.

(** ** [String.prototype.slice] *)

Definition clampIndex (len i : Z) : Z :=
  if i <? 0 then Z.max (len + i) 0 else Z.min i len.

Definition slice (s : string) (from to : Z) : string :=
  let len := Z.of_nat (String.length s) in
  let a := clampIndex len from in
  let b := clampIndex len to in
  substring (Z.to_nat a) (Z.to_nat (Z.max (b - a) 0)) s.

(** ** [Number.parseInt(s, 10)]

    Leading white space is skipped, an optional sign is read, then the
    longest run of decimal digits; [None] stands for [NaN].  The value is
    exact, as it is in JavaScript below 2^53. *)

Definition isWhiteSpace (c : ascii) : bool :=
  let n := nat_of_ascii c in
  (n =? 32)%nat || ((9 <=? n)%nat && (n <=? 13)%nat).

Fixpoint skipWhiteSpace (s : string) : string :=
  match s with
  | String c s' => if isWhiteSpace c then skipWhiteSpace s' else s
  | EmptyString => s
  end.

Definition digitValue (c : ascii) : Z := Z.of_nat (nat_of_ascii c) - 48.

(** Reads digits, [acc] is [None] until the first digit has been seen. *)
Fixpoint readDigits (acc : option Z) (s : string) : option Z :=
  match s with
  | String c s' =>
      if isDigit c then
        readDigits (Some (10 * match acc with Some n => n | None => 0 end
                          + digitValue c)) s'
      else acc
  | EmptyString => acc
  end.

Definition parseInt (s : string) : option Z :=
  match skipWhiteSpace s with
  | String "-" s' => option_map Z.opp (readDigits None s')
  | String "+" s' => readDigits None s'
  | s' => readDigits None s'
  end.

(** [a < b] on numbers: false as soon as one side is [NaN]/[undefined]. *)
Definition lt (a b : option Z) : bool :=
  match a, b with
  | Some x, Some y => x <? y
  | _, _ => false
  end.

(** [s.charAt(0).toLowerCase() + s.slice(1)], on ASCII letters *)
Definition toLowerCase (c : ascii) : ascii :=
  let n := nat_of_ascii c in
  if (65 <=? n)%nat && (n <=? 90)%nat then ascii_of_nat (n + 32) else c.

Definition lowerFirst (s : string) : string :=
  match s with
  | String c s' => String (toLowerCase c) s'
  | EmptyString => EmptyString
  end.

(** The double quote character, and a string put between double quotes. *)
Definition dquote : ascii := ascii_of_nat 34.

Definition quoted (s : string) : string :=
  String dquote (s ++ String dquote EmptyString).

(** [Array.prototype.includes] on strings *)
Definition includes (l : list string) (x : string) : bool :=
  existsb (String.eqb x) l.

(** ** Numbers in template literals

    [`${n}`] for an integer [n] is its decimal notation (as it is in
    JavaScript for integers below 10^21), with a minus sign for a negative
    one; for [undefined] it is the word itself.  The digits are produced from
    the last one on; [fuel] bounds the number of further digits. *)

Definition digitChar (d : Z) : ascii := ascii_of_nat (48 + Z.to_nat d).

Fixpoint digitsOf (fuel : nat) (n : Z) (acc : string) : string :=
  let acc' := String (digitChar (n mod 10)) acc in
  match fuel with
  | O => acc'
  | S fuel' => if n <? 10 then acc' else digitsOf fuel' (n / 10) acc'
  end.

Definition numberToString (n : Z) : string :=
  if n <? 0
  then String "-" (digitsOf (Z.to_nat (Z.log2 (- n))) (- n) EmptyString)
  else digitsOf (Z.to_nat (Z.log2 n)) n EmptyString.

Definition interpolate (v : option Z) : string :=
  match v with
  | Some n => numberToString n
  | None => "undefined"
  end.

End JS.


(* ================================================================== *)
(** * Entities *)
(* ================================================================== *)

(** A property of an entity is [None] when it is [undefined] (not loaded,
    or not given in a patch).  The back references [modell.flugzeug] and
    [sitzplatz.flugzeug] are kept as foreign keys in the rows of the store
    only. *)

Definition Decimal := Z.      (* an amount in hundredths *)
Definition Timestamp := Z.    (* a [Date] *)

Module Modell.
Record t : Type := mk { id : option Z; modell : option string }.
End Modell.

Module Sitzplatz.
Record t : Type := mk { id : option Z; sitzplatzklasse : option string }.
End Sitzplatz.

Module Flugzeug.
Record t : Type := mk {
  id : option Z;
  version : option Z;
  preis : option Decimal;
  einsatzbereit : option bool;
  baujahr : option string;
  modell : option Modell.t;
  sitzplaetze : option (list Sitzplatz.t);
  erzeugt : option Timestamp;
  aktualisiert : option Timestamp
}.
End Flugzeug.

(** Search criteria: the own enumerable properties of the object, in the
    order of [Object.keys]. *)
Definition Suchkriterien := list (string * JS.Value).

Fixpoint lookup (key : string) (o : Suchkriterien) : option JS.Value :=
  match o with
  | [] => None
  | (k, v) :: o' => if String.eqb k key then Some v else lookup key o'
  end.

(** The rest of an object after one property has been taken out by
    destructuring. *)
Definition without (key : string) (o : Suchkriterien) : Suchkriterien :=
  filter (fun kv => negb (String.eqb (fst kv) key)) o.

Definition keys (o : Suchkriterien) : list string := map fst o.

(** The transfer object of a PUT request (class [FlugzeugDtoOhneRef]). *)
Module FlugzeugDtoOhneRef.
Record t : Type := mk {
  preis : Decimal;
  einsatzbereit : option bool;
  baujahr : option string
}.
End FlugzeugDtoOhneRef.

(** [#flugzeugDtoOhneRefToFlugzeug] of the write controller; [now] is the
    value of [new Date()]. *)
Definition flugzeugDtoOhneRefToFlugzeug
           (flugzeugDTO : FlugzeugDtoOhneRef.t) (now : Timestamp) : Flugzeug.t :=
  {| Flugzeug.id := None;
     Flugzeug.version := None;
     Flugzeug.preis := Some (FlugzeugDtoOhneRef.preis flugzeugDTO);
     Flugzeug.einsatzbereit := FlugzeugDtoOhneRef.einsatzbereit flugzeugDTO;
     Flugzeug.baujahr := FlugzeugDtoOhneRef.baujahr flugzeugDTO;
     Flugzeug.modell := None;
     Flugzeug.sitzplaetze := None;
     Flugzeug.erzeugt := None;
     Flugzeug.aktualisiert := Some now |}.

(* ================================================================== *)
(** * The relational store *)
(* ================================================================== *)

(** Three tables.  A model row and a seat row carry the identifier of the
    aircraft that owns them.  Nullable columns are options.  Each table has
    the sequence of its generated primary key: the last value handed out. *)

Module DB.

Record FlugzeugRow : Type := mkFlugzeugRow {
  f_id : Z;
  f_version : Z;
  f_preis : Decimal;
  f_einsatzbereit : option bool;
  f_baujahr : option string;
  f_erzeugt : Timestamp;
  f_aktualisiert : Timestamp
}.

Record ModellRow : Type := mkModellRow {
  m_id : Z;
  m_modell : string;
  m_flugzeug_id : option Z
}.

Record SitzplatzRow : Type := mkSitzplatzRow {
  s_id : Z;
  s_sitzplatzklasse : string;
  s_flugzeug_id : option Z
}.

Record t : Type := mk {
  flugzeug : list FlugzeugRow;
  modell : list ModellRow;
  sitzplatz : list SitzplatzRow;
  flugzeug_id_seq : Z;
  modell_id_seq : Z;
  sitzplatz_id_seq : Z
}.

Definition refers (fk : option Z) (id : Z) : bool :=
  match fk with Some i => i =? id | None => false end.

Definition modelleOf (db : t) (id : Z) : list ModellRow :=
  filter (fun m => refers (m_flugzeug_id m) id) (modell db).

Definition sitzplaetzeOf (db : t) (id : Z) : list SitzplatzRow :=
  filter (fun s => refers (s_flugzeug_id s) id) (sitzplatz db).

Definition flugzeugeWithId (db : t) (id : Z) : list FlugzeugRow :=
  filter (fun f => f_id f =? id) (flugzeug db).

End DB.

(* ================================================================== *)
(** * Exceptions, and the monad of asynchronous operations *)
(* ================================================================== *)

(** The message of a [NotFoundException], kept as the template used and the
    value interpolated into it. *)
Inductive NotFoundMessage : Type :=
| KeinFlugzeugMitId (id : option Z)
    (* `Es gibt kein Flugzeug mit der ID ${id}.` *)
| UngueltigeSuchkriterien
    (* 'Ungueltige Suchkriterien' *)
| KeineFlugzeugeGefunden (suchkriterien : Suchkriterien).
    (* `Keine Flugzeuge gefunden: ${JSON.stringify(suchkriterien)}` *)

Inductive Exception : Type :=
| NotFoundException (message : NotFoundMessage)
| VersionInvalidException (version : string)
| VersionOutdatedException (version : option Z)
| QueryFailedError (sql : string)      (* raised by the database driver *)
| TypeORMError (message : string).     (* raised by the mapper itself *)

Inductive Result (A : Type) : Type :=
| Ok (a : A)
| Throw (e : Exception).
Arguments Ok {A} a.
Arguments Throw {A} e.

Module TypeORM.

(** ** Select query builders *)

Inductive JoinKind : Type := InnerJoin | LeftJoin.

Record Join : Type := mkJoin {
  joinKind : JoinKind;
  joinProperty : string;      (* e.g. flugzeug.modell *)
  joinAlias : string
}.

Inductive WhereType : Type := Simple | And.

Record Where : Type := mkWhere { whereType : WhereType; condition : string }.

Definition Parameters := list (string * JS.Value).

Record SelectQueryBuilder : Type := mkQuery {
  alias : string;
  joins : list Join;
  wheres : list Where;
  parameters : Parameters
}.

Definition setParameter (ps : Parameters) (kv : string * JS.Value) : Parameters :=
  (filter (fun p => negb (String.eqb (fst p) (fst kv))) ps ++ [kv])%list.

Definition setParameters (ps new : Parameters) : Parameters :=
  fold_left setParameter new ps.

Definition createQueryBuilder (alias : string) : SelectQueryBuilder :=
  {| alias := alias; joins := []; wheres := []; parameters := [] |}.

Definition innerJoinAndSelect (property alias' : string)
           (qb : SelectQueryBuilder) : SelectQueryBuilder :=
  {| alias := alias qb;
     joins := (joins qb ++ [mkJoin InnerJoin property alias'])%list;
     wheres := wheres qb;
     parameters := parameters qb |}.

Definition leftJoinAndSelect (property alias' : string)
           (qb : SelectQueryBuilder) : SelectQueryBuilder :=
  {| alias := alias qb;
     joins := (joins qb ++ [mkJoin LeftJoin property alias'])%list;
     wheres := wheres qb;
     parameters := parameters qb |}.

(** [where] replaces the conditions set so far, [andWhere] adds one. *)
Definition where_ (cond : string) (params : Parameters)
           (qb : SelectQueryBuilder) : SelectQueryBuilder :=
  {| alias := alias qb;
     joins := joins qb;
     wheres := [mkWhere Simple cond];
     parameters := setParameters (parameters qb) params |}.

Definition andWhere (cond : string) (params : Parameters)
           (qb : SelectQueryBuilder) : SelectQueryBuilder :=
  {| alias := alias qb;
     joins := joins qb;
     wheres := (wheres qb ++ [mkWhere And cond])%list;
     parameters := setParameters (parameters qb) params |}.

(** ** Statements and the state of the world *)

Inductive Table : Type := TFlugzeug | TModell | TSitzplatz.

Inductive Statement : Type :=
| Select (qb : SelectQueryBuilder)
| Delete (target : Table) (id : Z)
| Save (entity : Flugzeug.t)          (* a call of [repo.save] *)
| StartTransaction
| Commit
| Rollback.

Record World : Type := mkWorld { db : DB.t; log : list Statement }.

Definition M (A : Type) : Type := World -> Result A * World.

Definition ret {A} (a : A) : M A := fun w => (Ok a, w).

Definition throw {A} (e : Exception) : M A := fun w => (Throw e, w).

Definition bind {A B} (m : M A) (k : A -> M B) : M B :=
  fun w =>
    match m w with
    | (Ok a, w') => k a w'
    | (Throw e, w') => (Throw e, w')
    end.

Definition logged (s : Statement) (w : World) : World :=
  {| db := db w; log := (log w ++ [s])%list |}.

End TypeORM.

Notation "x <- m ;; k" := (TypeORM.bind m (fun x => k))
  (at level 61, m at next level, right associativity).
Notation "m ;;; k" := (TypeORM.bind m (fun _ => k))
  (at level 61, right associativity).

(* ================================================================== *)
(** * Executing a select query *)
(* ================================================================== *)

(** The database engine evaluates the conditions that the query builder of
    this application emits: [<alias>.<column> <op> :<parameter>] with [=],
    [like] or [ilike] as operator.  Anything else is a failed query.
    Comparison is typed, the literal coercions of a driver are not part of
    the model. *)

Module SQL.
Import TypeORM.

Fixpoint splitOn (sep : ascii) (s : string) : list string :=
  match s with
  | EmptyString => [EmptyString]
  | String c s' =>
      let r := splitOn sep s' in
      if Ascii.eqb c sep then EmptyString :: r
      else match r with
           | h :: t => String c h :: t
           | [] => [String c EmptyString]
           end
  end.

(** A row of the join: an aircraft and, when the join has one, its model. *)
Definition Row : Type := DB.FlugzeugRow * option DB.ModellRow.

Definition ofOption {A} (f : A -> JS.Value) (o : option A) : JS.Value :=
  match o with Some a => f a | None => JS.VNull end.

Definition flugzeugColumn (col : string) : option (DB.FlugzeugRow -> JS.Value) :=
  if String.eqb col "id" then Some (fun f => JS.VNumber (DB.f_id f))
  else if String.eqb col "version" then Some (fun f => JS.VNumber (DB.f_version f))
  else if String.eqb col "preis" then Some (fun f => JS.VNumber (DB.f_preis f))
  else if String.eqb col "einsatzbereit" then
    Some (fun f => ofOption JS.VBool (DB.f_einsatzbereit f))
  else if String.eqb col "baujahr" then
    Some (fun f => ofOption JS.VString (DB.f_baujahr f))
  else if String.eqb col "erzeugt" then Some (fun f => JS.VNumber (DB.f_erzeugt f))
  else if String.eqb col "aktualisiert" then
    Some (fun f => JS.VNumber (DB.f_aktualisiert f))
  else None.

Definition modellColumn (col : string) : option (DB.ModellRow -> JS.Value) :=
  if String.eqb col "id" then Some (fun m => JS.VNumber (DB.m_id m))
  else if String.eqb col "modell" then Some (fun m => JS.VString (DB.m_modell m))
  else None.

(** The join of a relation of the root entity, if the query has one. *)
Definition relationOf (qb : SelectQueryBuilder) (property : string) : option Join :=
  find (fun j => String.eqb (joinProperty j) (alias qb ++ "." ++ property))
       (joins qb).

Definition knownJoin (qb : SelectQueryBuilder) (j : Join) : bool :=
  String.eqb (joinProperty j) (alias qb ++ ".modell")
  || String.eqb (joinProperty j) (alias qb ++ ".sitzplaetze").

Definition columnOf (qb : SelectQueryBuilder) (a col : string)
  : option (Row -> JS.Value) :=
  if String.eqb a (alias qb) then
    option_map (fun get (r : Row) => get (fst r)) (flugzeugColumn col)
  else
    match relationOf qb "modell" with
    | Some j =>
        if String.eqb a (joinAlias j) then
          option_map (fun get (r : Row) => ofOption get (snd r)) (modellColumn col)
        else None
    | None => None
    end.

Fixpoint likeMatch (pattern : string) : string -> bool :=
  match pattern with
  | EmptyString => fun s => match s with EmptyString => true | _ => false end
  | String c pattern' =>
      if Ascii.eqb c "%" then
        fix anySuffix (s : string) : bool :=
          likeMatch pattern' s ||
          match s with
          | EmptyString => false
          | String _ s' => anySuffix s'
          end
      else
        fun s =>
          match s with
          | EmptyString => false
          | String d s' =>
              (Ascii.eqb c "_" || Ascii.eqb c d) && likeMatch pattern' s'
          end
  end.

Fixpoint lower (s : string) : string :=
  match s with
  | EmptyString => EmptyString
  | String c s' => String (JS.toLowerCase c) (lower s')
  end.

Definition compare (op : string) : option (JS.Value -> JS.Value -> bool) :=
  if String.eqb op "=" then
    Some (fun c p =>
            match c, p with
            | JS.VNull, _ | _, JS.VNull => false
            | JS.VUndefined, _ | _, JS.VUndefined => false
            | _, _ => JS.value_eqb c p
            end)
  else if String.eqb op "like" then
    Some (fun c p =>
            match c, p with
            | JS.VString s, JS.VString pat => likeMatch pat s
            | _, _ => false
            end)
  else if String.eqb op "ilike" then
    Some (fun c p =>
            match c, p with
            | JS.VString s, JS.VString pat => likeMatch (lower pat) (lower s)
            | _, _ => false
            end)
  else None.

Definition compileCondition (qb : SelectQueryBuilder) (cond : string)
  : option (Row -> bool) :=
  match splitOn " " cond with
  | [lhs; op; String ":" name] =>
      match splitOn "." lhs, compare op, lookup name (parameters qb) with
      | [a; col], Some cmp, Some p =>
          option_map (fun get (r : Row) => cmp (get r) p) (columnOf qb a col)
      | _, _, _ => None
      end
  | _ => None
  end.

Fixpoint compileWheres (qb : SelectQueryBuilder) (ws : list Where)
  : Result (Row -> bool) :=
  match ws with
  | [] => Ok (fun _ => true)
  | w :: ws' =>
      match compileCondition qb (condition w) with
      | None => Throw (QueryFailedError (condition w))
      | Some p =>
          match compileWheres qb ws' with
          | Ok q => Ok (fun r => p r && q r)
          | Throw e => Throw e
          end
      end
  end.

Definition isNil {A} (l : list A) : bool :=
  match l with [] => true | _ => false end.

(** The rows of the join for one aircraft. *)
Definition joinRows (qb : SelectQueryBuilder) (d : DB.t) (f : DB.FlugzeugRow)
  : list Row :=
  let models :=
    match relationOf qb "modell" with
    | None => [None]
    | Some j =>
        let ms := DB.modelleOf d (DB.f_id f) in
        match joinKind j with
        | InnerJoin => map Some ms
        | LeftJoin => if isNil ms then [None] else map Some ms
        end
    end in
  let keep :=
    match relationOf qb "sitzplaetze" with
    | Some j =>
        match joinKind j with
        | InnerJoin => negb (isNil (DB.sitzplaetzeOf d (DB.f_id f)))
        | LeftJoin => true
        end
    | None => true
    end in
  if keep then map (pair f) models else [].

Definition hydrateModell (m : DB.ModellRow) : Modell.t :=
  {| Modell.id := Some (DB.m_id m); Modell.modell := Some (DB.m_modell m) |}.

Definition hydrateSitzplatz (s : DB.SitzplatzRow) : Sitzplatz.t :=
  {| Sitzplatz.id := Some (DB.s_id s);
     Sitzplatz.sitzplatzklasse := Some (DB.s_sitzplatzklasse s) |}.

Definition hydrate (qb : SelectQueryBuilder) (d : DB.t) (r : Row) : Flugzeug.t :=
  let f := fst r in
  {| Flugzeug.id := Some (DB.f_id f);
     Flugzeug.version := Some (DB.f_version f);
     Flugzeug.preis := Some (DB.f_preis f);
     Flugzeug.einsatzbereit := DB.f_einsatzbereit f;
     Flugzeug.baujahr := DB.f_baujahr f;
     Flugzeug.modell := option_map hydrateModell (snd r);
     Flugzeug.sitzplaetze :=
       match relationOf qb "sitzplaetze" with
       | Some _ => Some (map hydrateSitzplatz (DB.sitzplaetzeOf d (DB.f_id f)))
       | None => None
       end;
     Flugzeug.erzeugt := Some (DB.f_erzeugt f);
     Flugzeug.aktualisiert := Some (DB.f_aktualisiert f) |}.

Definition execute (qb : SelectQueryBuilder) (d : DB.t) : Result (list Flugzeug.t) :=
  if negb (forallb (knownJoin qb) (joins qb)) then
    Throw (TypeORMError "Relation was not found")
  else
    match compileWheres qb (wheres qb) with
    | Throw e => Throw e
    | Ok p =>
        Ok (map (hydrate qb d)
                (filter p (flat_map (joinRows qb d) (DB.flugzeug d))))
    end.

End SQL.

(* ================================================================== *)
(** * The repository: reading, deleting, merging, saving, transactions *)
(* ================================================================== *)

Module Repository.
Import TypeORM.

(** [queryBuilder.getMany()] *)
Definition getMany (qb : SelectQueryBuilder) : M (list Flugzeug.t) :=
  fun w =>
    match SQL.execute qb (db w) with
    | Ok l => (Ok l, logged (Select qb) w)
    | Throw e => (Throw e, logged (Select qb) w)
    end.

(** [queryBuilder.getOne()]: the first entity, [None] for [null]. *)
Definition getOne (qb : SelectQueryBuilder) : M (option Flugzeug.t) :=
  l <- getMany qb ;; ret (hd_error l).

Record DeleteResult : Type := mkDeleteResult { affected : option Z }.

Definition count {A} (p : A -> bool) (l : list A) : Z :=
  Z.of_nat (List.length (filter p l)).

Definition deleteRows (target : Table) (id : Z) (d : DB.t) : DB.t :=
  match target with
  | TFlugzeug =>
      {| DB.flugzeug := filter (fun f => negb (DB.f_id f =? id)) (DB.flugzeug d);
         DB.modell := DB.modell d;
         DB.sitzplatz := DB.sitzplatz d;
         DB.flugzeug_id_seq := DB.flugzeug_id_seq d;
         DB.modell_id_seq := DB.modell_id_seq d;
         DB.sitzplatz_id_seq := DB.sitzplatz_id_seq d |}
  | TModell =>
      {| DB.flugzeug := DB.flugzeug d;
         DB.modell := filter (fun m => negb (DB.m_id m =? id)) (DB.modell d);
         DB.sitzplatz := DB.sitzplatz d;
         DB.flugzeug_id_seq := DB.flugzeug_id_seq d;
         DB.modell_id_seq := DB.modell_id_seq d;
         DB.sitzplatz_id_seq := DB.sitzplatz_id_seq d |}
  | TSitzplatz =>
      {| DB.flugzeug := DB.flugzeug d;
         DB.modell := DB.modell d;
         DB.sitzplatz := filter (fun s => negb (DB.s_id s =? id)) (DB.sitzplatz d);
         DB.flugzeug_id_seq := DB.flugzeug_id_seq d;
         DB.modell_id_seq := DB.modell_id_seq d;
         DB.sitzplatz_id_seq := DB.sitzplatz_id_seq d |}
  end.

Definition countRows (target : Table) (id : Z) (d : DB.t) : Z :=
  match target with
  | TFlugzeug => count (fun f => DB.f_id f =? id) (DB.flugzeug d)
  | TModell => count (fun m => DB.m_id m =? id) (DB.modell d)
  | TSitzplatz => count (fun s => DB.s_id s =? id) (DB.sitzplatz d)
  end.

(** [manager.delete(Target, id)]: the rows with this primary key go; the
    result tells how many there were.  An undefined criterion is refused. *)
Definition delete (target : Table) (id : option Z) : M DeleteResult :=
  fun w =>
    match id with
    | None => (Throw (TypeORMError "Empty criteria(s) are not allowed"), w)
    | Some i =>
        (Ok {| affected := Some (countRows target i (db w)) |},
         {| db := deleteRows target i (db w);
            log := (log w ++ [Delete target i])%list |})
    end.

(** [manager.transaction(run)]: all of [run] or nothing of it. *)
Definition transaction {A} (run : M A) : M A :=
  fun w =>
    match run (logged StartTransaction w) with
    | (Ok a, w') => (Ok a, logged Commit w')
    | (Throw e, w') => (Throw e, {| db := db w; log := (log w' ++ [Rollback])%list |})
    end.

(** ** [repo.merge(target, source)]

    Every property of [source] that is not [undefined] is copied onto
    [target]; a related entity is merged property by property, a related
    collection element by element, matched by identifier. *)

Definition orElse {A} (new old : option A) : option A :=
  match new with Some _ => new | None => old end.

Definition mergeModell (target source : Modell.t) : Modell.t :=
  {| Modell.id := orElse (Modell.id source) (Modell.id target);
     Modell.modell := orElse (Modell.modell source) (Modell.modell target) |}.

Definition mergeSitzplatz (target source : Sitzplatz.t) : Sitzplatz.t :=
  {| Sitzplatz.id := orElse (Sitzplatz.id source) (Sitzplatz.id target);
     Sitzplatz.sitzplatzklasse :=
       orElse (Sitzplatz.sitzplatzklasse source) (Sitzplatz.sitzplatzklasse target) |}.

Definition sameId (a b : option Z) : bool :=
  match a, b with Some x, Some y => x =? y | _, _ => false end.

Fixpoint mergeInto (targets : list Sitzplatz.t) (source : Sitzplatz.t)
  : list Sitzplatz.t :=
  match targets with
  | [] => [source]
  | t :: ts =>
      if sameId (Sitzplatz.id t) (Sitzplatz.id source)
      then mergeSitzplatz t source :: ts
      else t :: mergeInto ts source
  end.

Definition merge (target source : Flugzeug.t) : Flugzeug.t :=
  {| Flugzeug.id := orElse (Flugzeug.id source) (Flugzeug.id target);
     Flugzeug.version := orElse (Flugzeug.version source) (Flugzeug.version target);
     Flugzeug.preis := orElse (Flugzeug.preis source) (Flugzeug.preis target);
     Flugzeug.einsatzbereit :=
       orElse (Flugzeug.einsatzbereit source) (Flugzeug.einsatzbereit target);
     Flugzeug.baujahr := orElse (Flugzeug.baujahr source) (Flugzeug.baujahr target);
     Flugzeug.modell :=
       match Flugzeug.modell source, Flugzeug.modell target with
       | Some s, Some t => Some (mergeModell t s)
       | Some s, None => Some s
       | None, t => t
       end;
     Flugzeug.sitzplaetze :=
       match Flugzeug.sitzplaetze source, Flugzeug.sitzplaetze target with
       | Some ss, Some ts => Some (fold_left mergeInto ss ts)
       | Some ss, None => Some (fold_left mergeInto ss [])
       | None, t => t
       end;
     Flugzeug.erzeugt := orElse (Flugzeug.erzeugt source) (Flugzeug.erzeugt target);
     Flugzeug.aktualisiert :=
       orElse (Flugzeug.aktualisiert source) (Flugzeug.aktualisiert target) |}.

(** ** [repo.save(entity)] *)

Definition orKeep {A} (new : option A) (old : A) : A :=
  match new with Some a => a | None => old end.

(** The columns of a row as an entity gives them: a property that is
    [undefined] leaves its column as it is. *)
Definition written (row : DB.FlugzeugRow) (e : Flugzeug.t) : DB.FlugzeugRow :=
  {| DB.f_id := DB.f_id row;
     DB.f_version := orKeep (Flugzeug.version e) (DB.f_version row);
     DB.f_preis := orKeep (Flugzeug.preis e) (DB.f_preis row);
     DB.f_einsatzbereit := orElse (Flugzeug.einsatzbereit e) (DB.f_einsatzbereit row);
     DB.f_baujahr := orElse (Flugzeug.baujahr e) (DB.f_baujahr row);
     DB.f_erzeugt := orKeep (Flugzeug.erzeugt e) (DB.f_erzeugt row);
     DB.f_aktualisiert := orKeep (Flugzeug.aktualisiert e) (DB.f_aktualisiert row) |}.

Definition sameOption {A} (eqb : A -> A -> bool) (a b : option A) : bool :=
  match a, b with
  | Some x, Some y => eqb x y
  | None, None => true
  | _, _ => false
  end.

(** No column of the row differs from what the entity gives. *)
Definition unchanged (row : DB.FlugzeugRow) (e : Flugzeug.t) : bool :=
  let r := written row e in
  (DB.f_version r =? DB.f_version row)
  && (DB.f_preis r =? DB.f_preis row)
  && sameOption Bool.eqb (DB.f_einsatzbereit r) (DB.f_einsatzbereit row)
  && sameOption String.eqb (DB.f_baujahr r) (DB.f_baujahr row)
  && (DB.f_erzeugt r =? DB.f_erzeugt row)
  && (DB.f_aktualisiert r =? DB.f_aktualisiert row).

(** The row of an aircraft after an UPDATE with [e]: the columns [e] gives
    are written, and the version column is counted up by the store, unless
    [e] itself gives another version than the stored one. *)
Definition updatedRow (row : DB.FlugzeugRow) (e : Flugzeug.t) : DB.FlugzeugRow :=
  let r := written row e in
  {| DB.f_id := DB.f_id r;
     DB.f_version :=
       if DB.f_version r =? DB.f_version row
       then DB.f_version row + 1
       else DB.f_version r;
     DB.f_preis := DB.f_preis r;
     DB.f_einsatzbereit := DB.f_einsatzbereit r;
     DB.f_baujahr := DB.f_baujahr r;
     DB.f_erzeugt := DB.f_erzeugt r;
     DB.f_aktualisiert := DB.f_aktualisiert r |}.

(** The seat rows of a new aircraft; [next] is the first key handed out. *)
Fixpoint insertSitzplaetze (fid next : Z) (l : list Sitzplatz.t)
  : list DB.SitzplatzRow :=
  match l with
  | [] => []
  | s :: l' =>
      {| DB.s_id := next;
         DB.s_sitzplatzklasse := orKeep (Sitzplatz.sitzplatzklasse s) "";
         DB.s_flugzeug_id := Some fid |} :: insertSitzplaetze fid (next + 1) l'
  end.

(** One of the keys is in use already. *)
Definition inUse (keys used : list Z) : bool :=
  existsb (fun k => existsb (Z.eqb k) used) keys.

(** Modelled from the spec: the declaration of the entity
    (flugzeug.entity.ts) is not among the sources.  After the spec the
    identifier is generated, the version is a column that the store counts,
    a new aircraft is stored together with its model and its seats, and an
    update writes the row of the aircraft only.

    What [save] does with such an entity is the mapper's.  It looks for the
    row with the identifier of the entity.
    - There is one: the columns are compared.  When none differs no UPDATE
      is sent, and the entity comes back as it is, with the version it has.
      Otherwise the columns are written, the version is counted, and the
      entity comes back with the version of the row.
    - There is none: the rows are inserted.  A key that the entity does not
      give is the next value of the sequence of its table, and the version
      of a new row is 1.  An insertion without a price, or with a key that
      is in use, fails and leaves the store as it was.

    Failures of the connection are not modelled. *)
Definition save (e : Flugzeug.t) : M Flugzeug.t :=
  fun w =>
    let d := db w in
    let w' := logged (Save e) w in
    let existing :=
      match Flugzeug.id e with
      | Some i => DB.flugzeugeWithId d i
      | None => []
      end in
    match existing with
    | row :: _ =>
        if unchanged row e then (Ok e, w')
        else
          (Ok {| Flugzeug.id := Flugzeug.id e;
                 Flugzeug.version := Some (DB.f_version (updatedRow row e));
                 Flugzeug.preis := Flugzeug.preis e;
                 Flugzeug.einsatzbereit := Flugzeug.einsatzbereit e;
                 Flugzeug.baujahr := Flugzeug.baujahr e;
                 Flugzeug.modell := Flugzeug.modell e;
                 Flugzeug.sitzplaetze := Flugzeug.sitzplaetze e;
                 Flugzeug.erzeugt := Flugzeug.erzeugt e;
                 Flugzeug.aktualisiert := Flugzeug.aktualisiert e |},
           {| db := {| DB.flugzeug :=
                         map (fun f => if DB.f_id f =? DB.f_id row
                                       then updatedRow f e else f)
                             (DB.flugzeug d);
                       DB.modell := DB.modell d;
                       DB.sitzplatz := DB.sitzplatz d;
                       DB.flugzeug_id_seq := DB.flugzeug_id_seq d;
                       DB.modell_id_seq := DB.modell_id_seq d;
                       DB.sitzplatz_id_seq := DB.sitzplatz_id_seq d |};
              log := log w' |})
    | [] =>
        match Flugzeug.preis e with
        | None => (Throw (QueryFailedError "null value in column preis"), w')
        | Some p =>
            let fid := orKeep (Flugzeug.id e) (DB.flugzeug_id_seq d + 1) in
            let row :=
              {| DB.f_id := fid;
                 DB.f_version := 1;
                 DB.f_preis := p;
                 DB.f_einsatzbereit := Flugzeug.einsatzbereit e;
                 DB.f_baujahr := Flugzeug.baujahr e;
                 DB.f_erzeugt := orKeep (Flugzeug.erzeugt e) 0;
                 DB.f_aktualisiert := orKeep (Flugzeug.aktualisiert e) 0 |} in
            let models :=
              match Flugzeug.modell e with
              | Some m =>
                  [ {| DB.m_id := DB.modell_id_seq d + 1;
                       DB.m_modell := orKeep (Modell.modell m) "";
                       DB.m_flugzeug_id := Some fid |} ]
              | None => []
              end in
            let seats :=
              match Flugzeug.sitzplaetze e with
              | Some l => insertSitzplaetze fid (DB.sitzplatz_id_seq d + 1) l
              | None => []
              end in
            if inUse [fid] (map DB.f_id (DB.flugzeug d))
               || inUse (map DB.m_id models) (map DB.m_id (DB.modell d))
               || inUse (map DB.s_id seats) (map DB.s_id (DB.sitzplatz d))
            then
              (Throw (QueryFailedError
                        "duplicate key value violates unique constraint"), w')
            else
              (Ok {| Flugzeug.id := Some fid;
                     Flugzeug.version := Some 1;
                     Flugzeug.preis := Flugzeug.preis e;
                     Flugzeug.einsatzbereit := Flugzeug.einsatzbereit e;
                     Flugzeug.baujahr := Flugzeug.baujahr e;
                     Flugzeug.modell := Flugzeug.modell e;
                     Flugzeug.sitzplaetze := Flugzeug.sitzplaetze e;
                     Flugzeug.erzeugt := Flugzeug.erzeugt e;
                     Flugzeug.aktualisiert := Flugzeug.aktualisiert e |},
               {| db := {| DB.flugzeug := (DB.flugzeug d ++ [row])%list;
                           DB.modell := (DB.modell d ++ models)%list;
                           DB.sitzplatz := (DB.sitzplatz d ++ seats)%list;
                           DB.flugzeug_id_seq :=
                             match Flugzeug.id e with
                             | Some _ => DB.flugzeug_id_seq d
                             | None => fid
                             end;
                           DB.modell_id_seq :=
                             DB.modell_id_seq d + Z.of_nat (List.length models);
                           DB.sitzplatz_id_seq :=
                             DB.sitzplatz_id_seq d + Z.of_nat (List.length seats) |};
                  log := log w' |})
        end
    end.

End Repository.

(* ================================================================== *)
(** * The services *)
(* ================================================================== *)

(** A mail, as [sendmail] of the mail service takes it. *)
Module Mail.
Record t : Type := mk { subject : string; body : string }.
End Mail.

(** What the services take from declarations outside of them:
    [flugzeugProps], the result of
    [Object.getOwnPropertyNames(new Flugzeug())], and the database type of
    [typeOrmModuleOptions]. *)
Record Config : Type := mkConfig {
  flugzeugProps : list string;
  typeOrmModuleOptions_type : string
}.

Module QueryBuilder.
Import TypeORM.

Definition flugzeugAlias : string := JS.lowerFirst "Flugzeug".
Definition modellAlias : string := JS.lowerFirst "Modell".
Definition abbildungAlias : string := JS.lowerFirst "Sitzplatz".

(** [buildId({ id, mitSitzplaetze = false })] *)
Definition buildId (id : Z) (mitSitzplaetze : bool) : SelectQueryBuilder :=
  let queryBuilder := createQueryBuilder flugzeugAlias in
  let queryBuilder :=
    innerJoinAndSelect (flugzeugAlias ++ ".modell") modellAlias queryBuilder in
  let queryBuilder :=
    if mitSitzplaetze then
      leftJoinAndSelect (flugzeugAlias ++ ".sitzplaetze") abbildungAlias queryBuilder
    else queryBuilder in
  where_ (flugzeugAlias ++ ".id = :id") [("id", JS.VNumber id)] queryBuilder.

(** One round of the [forEach] over the remaining search criteria: the state
    is the query builder and the flag [useWhere]. *)
Definition addCriterion (state : SelectQueryBuilder * bool)
           (prop : string * JS.Value) : SelectQueryBuilder * bool :=
  let '(queryBuilder, useWhere) := state in
  let '(key, value) := prop in
  let param := [(key, value)] in
  ((if useWhere
    then where_ (flugzeugAlias ++ "." ++ key ++ " = :" ++ key) param queryBuilder
    else andWhere (flugzeugAlias ++ "." ++ key ++ " = :" ++ key) param queryBuilder),
   false).

(** [build({ modell, ...props })] *)
Definition build (cfg : Config) (suchkriterien : Suchkriterien) : SelectQueryBuilder :=
  let modell := lookup "modell" suchkriterien in
  let props := without "modell" suchkriterien in
  let queryBuilder := createQueryBuilder flugzeugAlias in
  let queryBuilder :=
    innerJoinAndSelect (flugzeugAlias ++ ".modell") "modell" queryBuilder in
  let useWhere := true in
  let '(queryBuilder, useWhere) :=
    match modell with
    | Some (JS.VString modell) =>
        let ilike :=
          if String.eqb (typeOrmModuleOptions_type cfg) "postgres"
          then "ilike" else "like" in
        (where_ (modellAlias ++ ".modell " ++ ilike ++ " :modell")
                [("modell", JS.VString ("%" ++ modell ++ "%"))] queryBuilder,
         false)
    | _ => (queryBuilder, useWhere)
    end in
  fst (fold_left addCriterion props (queryBuilder, useWhere)).

End QueryBuilder.

Module FlugzeugReadService.
Import TypeORM.

(** [ID_PATTERN = /^[1-9]\d{0,10}$/u] *)
Definition ID_PATTERN : JS.RegExp :=
  JS.mkRegExp true [JS.mkPiece (JS.Range "1" "9") 1 1; JS.mkPiece JS.Digit 0 10] true.

(** [findById({ id, mitSitzplaetze = false })] *)
Definition findById (id : Z) (mitSitzplaetze : bool) : M Flugzeug.t :=
  flugzeug <- Repository.getOne (QueryBuilder.buildId id mitSitzplaetze) ;;
  match flugzeug with
  | None => throw (NotFoundException (KeinFlugzeugMitId (Some id)))
  | Some flugzeug => ret flugzeug
  end.

(** [#checkKeys(keys)]: a [forEach] that clears the flag [validKeys]. *)
Definition checkKeys (cfg : Config) (keys : list string) : bool :=
  fold_left
    (fun validKeys key =>
       if negb (JS.includes (flugzeugProps cfg) key)
          && negb (String.eqb key "javascript")
          && negb (String.eqb key "typescript")
       then false
       else validKeys)
    keys true.

(** [find(suchkriterien?)] *)
Definition find (cfg : Config) (suchkriterien : option Suchkriterien)
  : M (list Flugzeug.t) :=
  match suchkriterien with
  | None => Repository.getMany (QueryBuilder.build cfg [])
  | Some suchkriterien =>
      let keys := keys suchkriterien in
      if (List.length keys =? 0)%nat then
        Repository.getMany (QueryBuilder.build cfg suchkriterien)
      else if negb (checkKeys cfg keys) then
        throw (NotFoundException UngueltigeSuchkriterien)
      else
        flugzeuge <- Repository.getMany (QueryBuilder.build cfg suchkriterien) ;;
        if (List.length flugzeuge =? 0)%nat then
          throw (NotFoundException (KeineFlugzeugeGefunden suchkriterien))
        else ret flugzeuge
  end.

End FlugzeugReadService.

Module FlugzeugWriteService.
Import TypeORM.

(** [VERSION_PATTERN = /^"\d{1,3}"/u] *)
Definition VERSION_PATTERN : JS.RegExp :=
  JS.mkRegExp true
    [JS.mkPiece (JS.Lit JS.dquote) 1 1; JS.mkPiece JS.Digit 1 3;
     JS.mkPiece (JS.Lit JS.dquote) 1 1]
    false.

(** [#validateUpdate(flugzeug, id, versionStr)] *)
Definition validateUpdate (flugzeug : Flugzeug.t) (id : Z) (versionStr : string)
  : M Flugzeug.t :=
  if negb (JS.test VERSION_PATTERN versionStr) then
    throw (VersionInvalidException versionStr)
  else
    let version := JS.parseInt (JS.slice versionStr 1 (-1)) in
    flugzeugDb <- FlugzeugReadService.findById id false ;;
    let versionDb := Flugzeug.version flugzeugDb in
    if JS.lt version versionDb then
      throw (VersionOutdatedException version)
    else ret flugzeugDb.

(** [update({ id, flugzeug, version })].  The result of [#validateUpdate] is
    an entity read from the store, hence an instance of the entity class:
    the [instanceof] test in the source never leaves early. *)
Definition update (id : option Z) (flugzeug : Flugzeug.t) (version : string)
  : M (option Z) :=
  match id with
  | None => throw (NotFoundException (KeinFlugzeugMitId None))
  | Some id =>
      validateResult <- validateUpdate flugzeug id version ;;
      let flugzeugNeu := validateResult in
      let merged := Repository.merge flugzeugNeu flugzeug in
      updated <- Repository.save merged ;;
      ret (Flugzeug.version updated)
  end.

(** The loop over the seats in [delete]. *)
Fixpoint deleteSitzplaetze (sitzplaetze : list Sitzplatz.t) : M unit :=
  match sitzplaetze with
  | [] => ret tt
  | sitzplatz :: rest =>
      Repository.delete TSitzplatz (Sitzplatz.id sitzplatz) ;;;
      deleteSitzplaetze rest
  end.

(** [delete(id)] *)
Definition delete (id : Z) : M bool :=
  flugzeug <- FlugzeugReadService.findById id true ;;
  deleteResult <-
    Repository.transaction
      (let modellId :=
         match Flugzeug.modell flugzeug with
         | Some modell => Modell.id modell
         | None => None
         end in
       match modellId with
       | Some _ => Repository.delete TModell modellId ;;; ret tt
       | None => ret tt
       end ;;;
       let sitzplaetze :=
         match Flugzeug.sitzplaetze flugzeug with Some l => l | None => [] end in
       deleteSitzplaetze sitzplaetze ;;;
       Repository.delete TFlugzeug (Some id)) ;;
  ret (match Repository.affected deleteResult with
       | Some affected => 0 <? affected
       | None => false
       end).

(** [#sendmail(flugzeug)]: the mail that is handed to the mail service. *)
Definition sendmail (flugzeug : Flugzeug.t) : Mail.t :=
  let subject := "Neues Flugzeug " ++ JS.interpolate (Flugzeug.id flugzeug) in
  let modell :=
    match Flugzeug.modell flugzeug with
    | Some m => match Modell.modell m with Some name => name | None => "N/A" end
    | None => "N/A"
    end in
  let body :=
    "Das Flugzeug mit dem Modell <strong>" ++ modell ++ "</strong> ist angelegt" in
  {| Mail.subject := subject; Mail.body := body |}.

(** [create(flugzeug)].  Modelled from the spec: the mail service
    (mail.service.ts) is not among the sources; sending a mail is recorded
    in the list of mails that comes with the result, and does not fail. *)
Definition create (flugzeug : Flugzeug.t) (w : World)
  : Result (option Z) * World * list Mail.t :=
  match Repository.save flugzeug w with
  | (Ok flugzeugDb, w') => (Ok (Flugzeug.id flugzeugDb), w', [sendmail flugzeugDb])
  | (Throw e, w') => (Throw e, w', [])
  end.

End FlugzeugWriteService.

(* ================================================================== *)
(** * The REST adapter for writing *)
(* ================================================================== *)

Module ModellDTO.
Record t : Type := mk { modell : string }.
End ModellDTO.

Module SitzplatzDTO.
Record t : Type := mk { sitzplatzklasse : string }.
End SitzplatzDTO.

(** The transfer object of a POST request (class [FlugzeugDTO]). *)
Module FlugzeugDTO.
Record t : Type := mk {
  preis : Decimal;
  einsatzbereit : option bool;
  baujahr : option string;
  modell : ModellDTO.t;
  sitzplaetze : option (list SitzplatzDTO.t)
}.
End FlugzeugDTO.

Module FlugzeugWriteController.
Import TypeORM.

(** What a handler does to the response object: the status it sets, if it
    sets one, the headers it sets and the body it sends. *)
Record Response : Type := mkResponse {
  status : option Z;
  headers : list (string * string);
  body : option string
}.

Definition PRECONDITION_REQUIRED : Z := 428.

(** [#flugzeugDtoToFlugzeug(flugzeugDTO)]; [erzeugt] and [aktualisiert] are
    the values of the two calls of [new Date()]. *)
Definition flugzeugDtoToFlugzeug (flugzeugDTO : FlugzeugDTO.t)
           (erzeugt aktualisiert : Timestamp) : Flugzeug.t :=
  let modellDTO := FlugzeugDTO.modell flugzeugDTO in
  let modell :=
    {| Modell.id := None; Modell.modell := Some (ModellDTO.modell modellDTO) |} in
  let sitzplaetze :=
    option_map
      (map (fun sitzplatzDTO =>
              {| Sitzplatz.id := None;
                 Sitzplatz.sitzplatzklasse :=
                   Some (SitzplatzDTO.sitzplatzklasse sitzplatzDTO) |}))
      (FlugzeugDTO.sitzplaetze flugzeugDTO) in
  {| Flugzeug.id := None;
     Flugzeug.version := None;
     Flugzeug.preis := Some (FlugzeugDTO.preis flugzeugDTO);
     Flugzeug.einsatzbereit := FlugzeugDTO.einsatzbereit flugzeugDTO;
     Flugzeug.baujahr := FlugzeugDTO.baujahr flugzeugDTO;
     Flugzeug.modell := Some modell;
     Flugzeug.sitzplaetze := sitzplaetze;
     Flugzeug.erzeugt := Some erzeugt;
     Flugzeug.aktualisiert := Some aktualisiert |}.

(** [post(flugzeugDTO, req, res)]; [baseUri] is the value of
    [getBaseUri(req)]. *)
Definition post (flugzeugDTO : FlugzeugDTO.t) (baseUri : string)
           (erzeugt aktualisiert : Timestamp) (w : World)
  : Result Response * World * list Mail.t :=
  let flugzeug := flugzeugDtoToFlugzeug flugzeugDTO erzeugt aktualisiert in
  match FlugzeugWriteService.create flugzeug w with
  | (Ok id, w', mails) =>
      let location := baseUri ++ "/" ++ JS.interpolate id in
      (Ok {| status := None; headers := [("Location", location)]; body := None |},
       w', mails)
  | (Throw e, w', mails) => (Throw e, w', mails)
  end.

(** [put(flugzeugDTO, id, version, res)]; [version] is the header
    [If-Match], [now] the value of [new Date()]. *)
Definition put (flugzeugDTO : FlugzeugDtoOhneRef.t) (id : Z)
           (version : option string) (now : Timestamp) : M Response :=
  match version with
  | None =>
      let msg := "Header " ++ JS.quoted "If-Match" ++ " fehlt" in
      ret {| status := Some PRECONDITION_REQUIRED;
             headers := [("Content-Type", "application/json")];
             body := Some msg |}
  | Some version =>
      let flugzeug := flugzeugDtoOhneRefToFlugzeug flugzeugDTO now in
      neueVersion <- FlugzeugWriteService.update (Some id) flugzeug version ;;
      ret {| status := None;
             headers := [("ETag", JS.quoted (JS.interpolate neueVersion))];
             body := None |}
  end.

(** [delete(id)] of the controller: the result of the service is dropped. *)
Definition delete (id : Z) : M unit :=
  FlugzeugWriteService.delete id ;;; ret tt.

End FlugzeugWriteController.

(* ================================================================== *)
(** * Sample data *)
(* ================================================================== *)

Module Sample.
Import TypeORM.

(** The property names of an aircraft, as the object literals of the
    controllers list them. *)
Definition cfg : Config :=
  {| flugzeugProps :=
       ["id"; "version"; "preis"; "einsatzbereit"; "baujahr"; "modell";
        "sitzplaetze"; "erzeugt"; "aktualisiert"];
     typeOrmModuleOptions_type := "postgres" |}.

Definition store : DB.t :=
  {| DB.flugzeug :=
       [DB.mkFlugzeugRow 1 0 9999 (Some true) (Some "2022-02-28") 10 10;
        DB.mkFlugzeugRow 2 5 25000 None None 20 20];
     DB.modell :=
       [DB.mkModellRow 10 "Alpha" (Some 1); DB.mkModellRow 11 "Beta" (Some 2)];
     DB.sitzplatz :=
       [DB.mkSitzplatzRow 100 "Klasse 1" (Some 1);
        DB.mkSitzplatzRow 101 "Klasse 2" (Some 1);
        DB.mkSitzplatzRow 102 "Klasse 1" (Some 2)];
     DB.flugzeug_id_seq := 2;
     DB.modell_id_seq := 11;
     DB.sitzplatz_id_seq := 102 |}.

Definition world : World := {| db := store; log := [] |}.

Definition emptyWorld : World :=
  {| db := {| DB.flugzeug := []; DB.modell := []; DB.sitzplatz := [];
              DB.flugzeug_id_seq := 0; DB.modell_id_seq := 0;
              DB.sitzplatz_id_seq := 0 |};
     log := [] |}.

Definition patch : FlugzeugDtoOhneRef.t :=
  {| FlugzeugDtoOhneRef.preis := 500;
     FlugzeugDtoOhneRef.einsatzbereit := None;
     FlugzeugDtoOhneRef.baujahr := Some "2020-01-31" |}.

End Sample.

(* ================================================================== *)
(** * Notions used in the statements *)
(* ================================================================== *)

Import TypeORM.

(** ** The version token, as the specification words it *)

Fixpoint digitsOnly (s : string) : bool :=
  match s with
  | EmptyString => true
  | String c s' => JS.isDigit c && digitsOnly s'
  end.

(** A token is well formed when it is an opening quote, one to three ASCII
    digits and a closing quote, and nothing else. *)
Definition wellFormedToken (s : string) : bool :=
  match s with
  | String q rest =>
      let n := String.length rest in
      Ascii.eqb q JS.dquote
      && (2 <=? n)%nat && (n <=? 4)%nat
      && digitsOnly (substring 0 (n - 1) rest)
      && String.eqb (substring (n - 1) 1 rest) (String JS.dquote EmptyString)
  | EmptyString => false
  end.

Fixpoint decimal (acc : Z) (s : string) : Z :=
  match s with
  | EmptyString => acc
  | String c s' => decimal (10 * acc + JS.digitValue c) s'
  end.

(** The number between the quotes of a well-formed token. *)
Definition tokenValue (s : string) : Z :=
  decimal 0 (substring 1 (String.length s - 2) s).

(** The row with a given primary key. *)
Definition findFlugzeug (d : DB.t) (id : Z) : option DB.FlugzeugRow :=
  hd_error (DB.flugzeugeWithId d id).

(** An aircraft is persisted under [id] in row [row] when [row] is the row
    with this primary key and a model refers to it. *)
Definition persisted (d : DB.t) (id : Z) (row : DB.FlugzeugRow) : Prop :=
  findFlugzeug d id = Some row /\ DB.modelleOf d id <> [].

(** A key that [#checkKeys] lets through. *)
Definition validKey (cfg : Config) (key : string) : bool :=
  JS.includes (flugzeugProps cfg) key
  || String.eqb key "javascript" || String.eqb key "typescript".

(** The store after the deletion of one seat row. *)
Definition deleteSeat (d : DB.t) (s : DB.SitzplatzRow) : DB.t :=
  Repository.deleteRows TSitzplatz (DB.s_id s) d.

(** The condition that [build] adds for a criterion other than the model. *)
Definition equalityOn (key : string) : Where :=
  mkWhere And (QueryBuilder.flugzeugAlias ++ "." ++ key ++ " = :" ++ key).

(** Every aircraft row with every model row that refers to it. *)
Definition joinedWithModell (d : DB.t) : list SQL.Row :=
  flat_map (fun f => map (pair f) (map Some (DB.modelleOf d (DB.f_id f))))
           (DB.flugzeug d).

(** ** Notions for the further properties *)

(** Every character of [s] is matched by the atom [a]. *)
Fixpoint allMatch (a : JS.Atom) (s : string) : bool :=
  match s with
  | EmptyString => true
  | String c s' => JS.atomMatch a c && allMatch a s'
  end.

(** A token begins with an opening quote, one to three digits and a closing
    quote; anything may follow. *)
Definition startsWithToken (s : string) : Prop :=
  exists ds rest : string,
    s = JS.quoted ds ++ rest /\ digitsOnly ds = true /\
    (1 <= String.length ds <= 3)%nat.

(** An identifier in the shape of [ID_PATTERN]: a digit from 1 to 9 and up
    to ten further digits. *)
Definition idShaped (s : string) : Prop :=
  exists (c : ascii) (ds : string),
    s = String c ds /\ (49 <= nat_of_ascii c <= 57)%nat
    /\ digitsOnly ds = true /\ (String.length ds <= 10)%nat.

(** A store whose only aircraft has been updated a thousand times. *)
Definition wornStore : DB.t :=
  {| DB.flugzeug := [DB.mkFlugzeugRow 3 1000 100 (Some true) None 30 31];
     DB.modell := [DB.mkModellRow 12 "Gamma" (Some 3)];
     DB.sitzplatz := [];
     DB.flugzeug_id_seq := 3;
     DB.modell_id_seq := 12;
     DB.sitzplatz_id_seq := 0 |}.

(** The criteria hold a string under the key [modell]. *)
Definition hasModellString (sk : Suchkriterien) : bool :=
  match lookup "modell" sk with
  | Some (JS.VString _) => true
  | _ => false
  end.

(** The keys of the criteria that [build] turns into equality conditions. *)
Definition otherKeys (sk : Suchkriterien) : list string :=
  filter (fun key => negb (String.eqb key "modell")) (keys sk).

(** The conditions of a query, as the text of the [WHERE] clause. *)
Definition conditions (qb : SelectQueryBuilder) : list string :=
  map condition (wheres qb).

(** Primary keys are unique in the tables of the models and of the seats. *)
Definition uniqueKeys (d : DB.t) : Prop :=
  NoDup (map DB.m_id (DB.modell d)) /\ NoDup (map DB.s_id (DB.sitzplatz d)).

(** The store after [delete id], when the aircraft was found with model [m]. *)
Definition afterDelete (d : DB.t) (id : Z) (m : DB.ModellRow) : DB.t :=
  Repository.deleteRows TFlugzeug id
    (fold_left deleteSeat (DB.sitzplaetzeOf d id)
               (Repository.deleteRows TModell (DB.m_id m) d)).

(** Every model row and every seat row that names an aircraft names one
    that is in the store. *)
Definition referentialIntegrity (d : DB.t) : Prop :=
  (forall m i, In m (DB.modell d) -> DB.m_flugzeug_id m = Some i ->
               In i (map DB.f_id (DB.flugzeug d)))
  /\ (forall s i, In s (DB.sitzplatz d) -> DB.s_flugzeug_id s = Some i ->
                  In i (map DB.f_id (DB.flugzeug d))).

(** A PUT request asks for nothing new: the price is the stored one, the
    flag and the year are the stored ones or are not given, and the time of
    the request is the stored time of the last change. *)
Definition changesNothing (row : DB.FlugzeugRow)
           (flugzeugDTO : FlugzeugDtoOhneRef.t) (now : Timestamp) : bool :=
  (FlugzeugDtoOhneRef.preis flugzeugDTO =? DB.f_preis row)
  && match FlugzeugDtoOhneRef.einsatzbereit flugzeugDTO with
     | Some b => Repository.sameOption Bool.eqb (Some b) (DB.f_einsatzbereit row)
     | None => true
     end
  && match FlugzeugDtoOhneRef.baujahr flugzeugDTO with
     | Some y => Repository.sameOption String.eqb (Some y) (DB.f_baujahr row)
     | None => true
     end
  && (now =? DB.f_aktualisiert row).

(** The version of a row after a PUT request that went through: counted up
    by one, unless the request asked for nothing new. *)
Definition versionAfter (row : DB.FlugzeugRow)
           (flugzeugDTO : FlugzeugDtoOhneRef.t) (now : Timestamp) : Z :=
  if changesNothing row flugzeugDTO now
  then DB.f_version row
  else DB.f_version row + 1.

(** The seat classes of a transfer object, none when it has no seats. *)
Definition klassen (flugzeugDTO : FlugzeugDTO.t) : list string :=
  match FlugzeugDTO.sitzplaetze flugzeugDTO with
  | Some l => map SitzplatzDTO.sitzplatzklasse l
  | None => []
  end.

(** A transfer object as in the tests of the REST interface. *)
Definition neuesFlugzeug : FlugzeugDTO.t :=
  {| FlugzeugDTO.preis := 9999;
     FlugzeugDTO.einsatzbereit := Some true;
     FlugzeugDTO.baujahr := Some "2022-02-28";
     FlugzeugDTO.modell := {| ModellDTO.modell := "Titelpost" |};
     FlugzeugDTO.sitzplaetze :=
       Some [ {| SitzplatzDTO.sitzplatzklasse := "Klasse 1" |} ] |}.

(** A store with an aircraft that has seats but no model row. *)
Definition modellessStore : DB.t :=
  {| DB.flugzeug := [DB.mkFlugzeugRow 4 2 100 (Some true) None 40 41];
     DB.modell := [];
     DB.sitzplatz := [DB.mkSitzplatzRow 200 "Klasse 1" (Some 4)];
     DB.flugzeug_id_seq := 4;
     DB.modell_id_seq := 0;
     DB.sitzplatz_id_seq := 200 |}.

(* ================================================================== *)
(** * Properties *)
(* ================================================================== *)

(** ** Digits and tokens *)

Lemma isDigit_cases (c : ascii) :
  JS.isDigit c = true ->
  In c ["0"; "1"; "2"; "3"; "4"; "5"; "6"; "7"; "8"; "9"]%char.
Proof.
  destruct c as [[] [] [] [] [] [] [] []]; vm_compute; intros H;
    try discriminate H; tauto.
Qed.

Ltac split_andb H :=
  repeat (apply andb_prop in H; destruct H as [H ?]).

Ltac closing_quote :=
  match goal with
  | Hq : (if (?c =? JS.dquote)%char then true else false) = true |- _ =>
      destruct (Ascii.eqb_spec c JS.dquote); [subst c | discriminate Hq]
  end.

Lemma wellFormedToken_cases (s : string) :
  wellFormedToken s = true ->
  exists ds : string,
    s = JS.quoted ds /\ digitsOnly ds = true /\
    (1 <= String.length ds <= 3)%nat.
Proof.
  destruct s as [|q [|c1 [|c2 [|c3 [|c4 [|c5 s]]]]]]; simpl;
    try discriminate.
  - rewrite andb_false_r. discriminate.
  - intros H. split_andb H. discriminate.
  - intros H. split_andb H. apply Ascii.eqb_eq in H. subst q. closing_quote.
    exists (String c1 EmptyString). simpl. repeat split; auto; lia.
  - intros H. split_andb H. apply Ascii.eqb_eq in H. subst q. closing_quote.
    exists (String c1 (String c2 EmptyString)). simpl.
    repeat split; auto; lia.
  - intros H. split_andb H. apply Ascii.eqb_eq in H. subst q. closing_quote.
    exists (String c1 (String c2 (String c3 EmptyString))). simpl.
    repeat split; auto; lia.
  - rewrite andb_false_r. discriminate.
Qed.

Lemma digitsOnly_cons (c : ascii) (s : string) :
  digitsOnly (String c s) = true -> JS.isDigit c = true /\ digitsOnly s = true.
Proof. cbn [digitsOnly]. intros H. apply andb_prop in H. exact H. Qed.

Ltac split_digits H :=
  repeat (apply digitsOnly_cons in H; destruct H as [? H]).

Ltac digit_cases :=
  repeat match goal with
         | H : JS.isDigit _ = true |- _ => apply isDigit_cases in H; simpl in H
         | H : _ \/ _ |- _ => destruct H
         | H : False |- _ => destruct H
         end;
  subst.

(** A well-formed token passes the pattern of the write service. *)
Lemma wellFormedToken_accepted (s : string) :
  wellFormedToken s = true ->
  JS.test FlugzeugWriteService.VERSION_PATTERN s = true.
Proof.
  intros H. apply wellFormedToken_cases in H.
  destruct H as (ds & -> & Hd & Hl).
  destruct ds as [|c1 [|c2 [|c3 [|c4 ds]]]]; simpl in Hl; try lia;
    split_digits Hd; digit_cases; reflexivity.
Qed.

(** What [parseInt] reads between the quotes of a well-formed token. *)
Lemma wellFormedToken_parse (s : string) :
  wellFormedToken s = true ->
  JS.parseInt (JS.slice s 1 (-1)) = Some (tokenValue s)
  /\ 0 <= tokenValue s <= 999.
Proof.
  intros H. apply wellFormedToken_cases in H.
  destruct H as (ds & -> & Hd & Hl).
  destruct ds as [|c1 [|c2 [|c3 [|c4 ds]]]]; simpl in Hl; try lia;
    split_digits Hd; digit_cases;
    (split; [vm_compute; reflexivity
            | vm_compute; split; intro Hc; discriminate Hc]).
Qed.

(** The pattern has no end anchor: whatever follows the closing quote is
    let through. *)
Lemma VERSION_PATTERN_prefix (ds rest : string) :
  digitsOnly ds = true -> (1 <= String.length ds <= 3)%nat ->
  JS.test FlugzeugWriteService.VERSION_PATTERN (JS.quoted ds ++ rest) = true.
Proof.
  intros Hd Hl.
  destruct ds as [|c1 [|c2 [|c3 [|c4 ds]]]]; simpl in Hl; try lia;
    split_digits Hd; digit_cases; destruct rest; reflexivity.
Qed.

(** ** The by-identifier query *)

Section ById.

Variables (d : DB.t) (id : Z) (mitSitzplaetze : bool).

Lemma relationOf_modell_buildId :
  SQL.relationOf (QueryBuilder.buildId id mitSitzplaetze) "modell"
  = Some (mkJoin InnerJoin "flugzeug.modell" "modell").
Proof. destruct mitSitzplaetze; reflexivity. Qed.

Lemma relationOf_sitzplaetze_buildId :
  SQL.relationOf (QueryBuilder.buildId id mitSitzplaetze) "sitzplaetze"
  = if mitSitzplaetze
    then Some (mkJoin LeftJoin "flugzeug.sitzplaetze" "sitzplatz")
    else None.
Proof. destruct mitSitzplaetze; reflexivity. Qed.

Lemma joinRows_buildId (f : DB.FlugzeugRow) :
  SQL.joinRows (QueryBuilder.buildId id mitSitzplaetze) d f
  = map (pair f) (map Some (DB.modelleOf d (DB.f_id f))).
Proof.
  unfold SQL.joinRows.
  rewrite relationOf_modell_buildId, relationOf_sitzplaetze_buildId.
  destruct mitSitzplaetze; reflexivity.
Qed.

Lemma filter_rows_of (f : DB.FlugzeugRow) (ms : list (option DB.ModellRow)) :
  filter (fun r : SQL.Row => (DB.f_id (fst r) =? id) && true) (map (pair f) ms)
  = if DB.f_id f =? id then map (pair f) ms else [].
Proof.
  induction ms as [|m ms IH]; simpl.
  - destruct (DB.f_id f =? id); reflexivity.
  - rewrite IH. destruct (DB.f_id f =? id); reflexivity.
Qed.

Lemma filter_joinRows_buildId (l : list DB.FlugzeugRow) :
  filter (fun r : SQL.Row => (DB.f_id (fst r) =? id) && true)
         (flat_map (SQL.joinRows (QueryBuilder.buildId id mitSitzplaetze) d) l)
  = flat_map (fun f => map (pair f) (map Some (DB.modelleOf d id)))
             (filter (fun f => DB.f_id f =? id) l).
Proof.
  induction l as [|f l IH]; simpl; [reflexivity|].
  rewrite filter_app, IH, joinRows_buildId, filter_rows_of.
  destruct (DB.f_id f =? id) eqn:E; simpl; [|reflexivity].
  apply Z.eqb_eq in E. rewrite E. reflexivity.
Qed.

(** The query selects the rows with the identifier, each with the models
    that refer to it. *)
Lemma execute_buildId :
  SQL.execute (QueryBuilder.buildId id mitSitzplaetze) d
  = Ok (map (SQL.hydrate (QueryBuilder.buildId id mitSitzplaetze) d)
            (flat_map (fun f => map (pair f) (map Some (DB.modelleOf d id)))
                      (DB.flugzeugeWithId d id))).
Proof.
  unfold DB.flugzeugeWithId. rewrite <- filter_joinRows_buildId.
  destruct mitSitzplaetze; reflexivity.
Qed.

End ById.

Lemma findById_found (w : World) (id : Z) (mit : bool)
      (row : DB.FlugzeugRow) (m : DB.ModellRow) (ms : list DB.ModellRow) :
  findFlugzeug (db w) id = Some row ->
  DB.modelleOf (db w) id = m :: ms ->
  FlugzeugReadService.findById id mit w
  = (Ok (SQL.hydrate (QueryBuilder.buildId id mit) (db w) (row, Some m)),
     logged (Select (QueryBuilder.buildId id mit)) w).
Proof.
  intros Hrow Hm.
  unfold FlugzeugReadService.findById, Repository.getOne, bind,
    Repository.getMany.
  rewrite execute_buildId, Hm.
  unfold findFlugzeug in Hrow.
  destruct (DB.flugzeugeWithId (db w) id) as [|r rs]; [discriminate|].
  injection Hrow as ->. reflexivity.
Qed.

Lemma findById_missing (w : World) (id : Z) (mit : bool) :
  findFlugzeug (db w) id = None \/ DB.modelleOf (db w) id = [] ->
  FlugzeugReadService.findById id mit w
  = (Throw (NotFoundException (KeinFlugzeugMitId (Some id))),
     logged (Select (QueryBuilder.buildId id mit)) w).
Proof.
  intros H.
  unfold FlugzeugReadService.findById, Repository.getOne, bind,
    Repository.getMany.
  rewrite execute_buildId.
  destruct H as [H | H].
  - unfold findFlugzeug in H.
    destruct (DB.flugzeugeWithId (db w) id); [reflexivity | discriminate].
  - rewrite H. simpl.
    induction (DB.flugzeugeWithId (db w) id); simpl; auto.
Qed.

Lemma persisted_findById (w : World) (id : Z) (mit : bool) (row : DB.FlugzeugRow) :
  persisted (db w) id row ->
  exists m : DB.ModellRow,
    In m (DB.modelleOf (db w) id) /\
    FlugzeugReadService.findById id mit w
    = (Ok (SQL.hydrate (QueryBuilder.buildId id mit) (db w) (row, Some m)),
       logged (Select (QueryBuilder.buildId id mit)) w).
Proof.
  intros [Hrow Hm].
  destruct (DB.modelleOf (db w) id) as [|m ms] eqn:E; [congruence|].
  exists m. split; [left; reflexivity|].
  eapply findById_found; eauto.
Qed.

(** ** Saving *)

Lemma save_result (e : Flugzeug.t) (w : World) :
  (exists u, fst (Repository.save e w) = Ok u)
  \/ (exists sql, fst (Repository.save e w) = Throw (QueryFailedError sql)).
Proof.
  unfold Repository.save.
  destruct (match Flugzeug.id e with
            | Some i => DB.flugzeugeWithId (db w) i
            | None => []
            end) as [|row rows].
  - destruct (Flugzeug.preis e); cbv zeta; [|simpl; eauto].
    destruct (_ || _); simpl; eauto.
  - cbv zeta. destruct (Repository.unchanged row e); simpl; eauto.
Qed.

Lemma save_then_result {A} (e : Flugzeug.t) (f : Flugzeug.t -> A) (w : World) :
  (exists a, fst ((updated <- Repository.save e ;; ret (f updated)) w) = Ok a)
  \/ (exists sql, fst ((updated <- Repository.save e ;; ret (f updated)) w)
                  = Throw (QueryFailedError sql)).
Proof.
  unfold bind.
  destruct (save_result e w) as [[u Hu] | [sql Hu]];
    destruct (Repository.save e w) as [[u' | e'] w'];
    simpl in Hu |- *; try discriminate; eauto.
  right. exists sql. congruence.
Qed.

Lemma save_then_not_outdated {A} (e : Flugzeug.t) (f : Flugzeug.t -> A)
      (w : World) (v : option Z) :
  fst ((updated <- Repository.save e ;; ret (f updated)) w)
  <> Throw (VersionOutdatedException v).
Proof.
  destruct (save_then_result e f w) as [[a Ha] | [sql Ha]];
    rewrite Ha; discriminate.
Qed.

(** ** Optimistic synchronisation *)

Lemma validateUpdate_wellFormed (w : World) (id : Z) (patch : Flugzeug.t)
      (tok : string) (row : DB.FlugzeugRow) :
  wellFormedToken tok = true ->
  persisted (db w) id row ->
  exists cur : Flugzeug.t,
    FlugzeugReadService.findById id false w
    = (Ok cur, logged (Select (QueryBuilder.buildId id false)) w)
    /\ Flugzeug.version cur = Some (DB.f_version row)
    /\ FlugzeugWriteService.validateUpdate patch id tok w
       = (if tokenValue tok <? DB.f_version row
          then Throw (VersionOutdatedException (Some (tokenValue tok)))
          else Ok cur,
          logged (Select (QueryBuilder.buildId id false)) w).
Proof.
  intros Hwf Hp.
  destruct (persisted_findById w id false row Hp) as (m & _ & Hfind).
  pose proof (wellFormedToken_accepted _ Hwf) as Hacc.
  destruct (wellFormedToken_parse _ Hwf) as [Hparse _].
  eexists. split; [exact Hfind|]. split; [reflexivity|].
  unfold FlugzeugWriteService.validateUpdate.
  rewrite Hacc, Hparse. cbn [negb]. unfold bind. rewrite Hfind.
  cbn [SQL.hydrate Flugzeug.version fst JS.lt].
  destruct (tokenValue tok <? DB.f_version row); reflexivity.
Qed.

(** C2.  On an aircraft that exists, and with a well-formed token, [update]
    fails with [VersionOutdatedException] exactly when the number parsed
    from the token is less than the persisted version.  A number that is
    equal or greater passes: the entity read is merged with the patch and
    saved. *)
Theorem update_outdated_iff_token_behind
        (w : World) (id : Z) (patch : Flugzeug.t) (tok : string)
        (row : DB.FlugzeugRow) :
  wellFormedToken tok = true ->
  persisted (db w) id row ->
  JS.parseInt (JS.slice tok 1 (-1)) = Some (tokenValue tok)
  /\ ((exists v, fst (FlugzeugWriteService.update (Some id) patch tok w)
                 = Throw (VersionOutdatedException v))
      <-> tokenValue tok < DB.f_version row)
  /\ (DB.f_version row <= tokenValue tok ->
      exists cur : Flugzeug.t,
        fst (FlugzeugReadService.findById id false w) = Ok cur
        /\ Flugzeug.version cur = Some (DB.f_version row)
        /\ FlugzeugWriteService.update (Some id) patch tok w
           = (updated <- Repository.save (Repository.merge cur patch) ;;
              ret (Flugzeug.version updated))
               (logged (Select (QueryBuilder.buildId id false)) w)).
Proof.
  intros Hwf Hp.
  destruct (validateUpdate_wellFormed w id patch tok row Hwf Hp)
    as (cur & Hfind & Hver & Hval).
  split; [apply wellFormedToken_parse; exact Hwf|].
  assert (Hupd :
            FlugzeugWriteService.update (Some id) patch tok w
            = if tokenValue tok <? DB.f_version row
              then (Throw (VersionOutdatedException (Some (tokenValue tok))),
                    logged (Select (QueryBuilder.buildId id false)) w)
              else (updated <- Repository.save (Repository.merge cur patch) ;;
                    ret (Flugzeug.version updated))
                     (logged (Select (QueryBuilder.buildId id false)) w)).
  { unfold FlugzeugWriteService.update. unfold bind at 1. rewrite Hval.
    destruct (tokenValue tok <? DB.f_version row); reflexivity. }
  rewrite Hupd, Hfind. clear Hupd Hval.
  destruct (Z.ltb_spec (tokenValue tok) (DB.f_version row)) as [Hlt | Hge].
  - split.
    + split; [intros _; exact Hlt | intros _; eexists; reflexivity].
    + intros Hle. lia.
  - split.
    + split; [|intros Hlt; lia].
      intros [v Hv]. exfalso. revert Hv. apply save_then_not_outdated.
    + intros _. exists cur. auto.
Qed.

Lemma update_outdated_iff_token_behind_witness :
  wellFormedToken (JS.quoted "4") = true
  /\ persisted Sample.store 2 (DB.mkFlugzeugRow 2 5 25000 None None 20 20)
  /\ exists v,
       fst (FlugzeugWriteService.update
              (Some 2) (flugzeugDtoOhneRefToFlugzeug Sample.patch 99)
              (JS.quoted "4") Sample.world)
       = Throw (VersionOutdatedException v).
Proof.
  assert (H1 : wellFormedToken (JS.quoted "4") = true) by reflexivity.
  assert (H2 : persisted (db Sample.world) 2
                 (DB.mkFlugzeugRow 2 5 25000 None None 20 20))
    by (split; [reflexivity | discriminate]).
  split; [exact H1 | split; [exact H2 |]].
  apply (proj2 (proj1 (proj2 (update_outdated_iff_token_behind
                                Sample.world 2
                                (flugzeugDtoOhneRefToFlugzeug Sample.patch 99)
                                (JS.quoted "4") _ H1 H2)))).
  reflexivity.
Defined.

Lemma update_outdated_sample :
  fst (FlugzeugWriteService.update
         (Some 2) (flugzeugDtoOhneRefToFlugzeug Sample.patch 99)
         (JS.quoted "0") Sample.world)
  = Throw (VersionOutdatedException (Some 0)).
Proof. reflexivity. Qed.

(** [findById] ends with an entity or with [NotFoundException]. *)
Lemma findById_result (id : Z) (mit : bool) (w : World) :
  (exists cur, fst (FlugzeugReadService.findById id mit w) = Ok cur)
  \/ fst (FlugzeugReadService.findById id mit w)
     = Throw (NotFoundException (KeinFlugzeugMitId (Some id))).
Proof.
  unfold FlugzeugReadService.findById, Repository.getOne, bind,
    Repository.getMany.
  rewrite execute_buildId.
  destruct (map _ _); simpl; eauto.
Qed.

(** With an identifier given, [update] fails with [VersionInvalidException]
    exactly when the pattern does not match the token. *)
Lemma update_VersionInvalid_iff (w : World) (id : Z) (patch : Flugzeug.t)
      (tok : string) :
  (exists v, fst (FlugzeugWriteService.update (Some id) patch tok w)
             = Throw (VersionInvalidException v))
  <-> JS.test FlugzeugWriteService.VERSION_PATTERN tok = false.
Proof.
  unfold FlugzeugWriteService.update, FlugzeugWriteService.validateUpdate.
  destruct (JS.test FlugzeugWriteService.VERSION_PATTERN tok); cbn [negb].
  - split; [|discriminate]. intros [v Hv]. exfalso. revert Hv.
    unfold bind at 1 2.
    destruct (findById_result id false w) as [[cur Hc] | Hc];
      destruct (FlugzeugReadService.findById id false w) as [[c | e] w1];
      simpl in Hc; try discriminate.
    + destruct (JS.lt _ _); [simpl; discriminate|].
      intros Hv.
      destruct (save_then_result (Repository.merge c patch) Flugzeug.version w1)
        as [[a Ha] | [q Ha]];
        pose proof (eq_trans (eq_sym Hv) Ha) as X; discriminate X.
    + injection Hc as ->. simpl. discriminate.
  - split; [reflexivity|]. intros _. eexists. reflexivity.
Qed.

(** Without an identifier [update] fails before it looks at the token. *)
Lemma update_without_id (w : World) (patch : Flugzeug.t) (tok : string) :
  FlugzeugWriteService.update None patch tok w
  = (Throw (NotFoundException (KeinFlugzeugMitId None)), w).
Proof. reflexivity. Qed.

(** The pattern for identifiers of the read service is anchored at both
    ends: text after the digits makes it fail. *)
Lemma ID_PATTERN_anchored :
  JS.test FlugzeugReadService.ID_PATTERN "12" = true
  /\ JS.test FlugzeugReadService.ID_PATTERN "12x" = false.
Proof. split; reflexivity. Qed.

(** C1.  The pattern is anchored at the start of the token only: a token
    that carries further text after the closing quote is not of the required
    shape, yet [update] does not fail with [VersionInvalidException] on it;
    here it goes on to save the aircraft and returns the next version. *)
Theorem update_accepts_text_after_token :
  wellFormedToken (JS.quoted "5" ++ "x") = false
  /\ JS.test FlugzeugWriteService.VERSION_PATTERN (JS.quoted "5" ++ "x") = true
  /\ fst (FlugzeugWriteService.update
            (Some 2) (flugzeugDtoOhneRefToFlugzeug Sample.patch 99)
            (JS.quoted "5" ++ "x") Sample.world)
     = Ok (Some 6).
Proof. repeat split; reflexivity. Qed.

(** ** Search criteria *)

Lemma checkKeys_forallb (cfg : Config) (ks : list string) :
  FlugzeugReadService.checkKeys cfg ks = forallb (validKey cfg) ks.
Proof.
  unfold FlugzeugReadService.checkKeys.
  assert (G : forall b,
             fold_left
               (fun validKeys key =>
                  if negb (JS.includes (flugzeugProps cfg) key)
                     && negb (String.eqb key "javascript")
                     && negb (String.eqb key "typescript")
                  then false else validKeys) ks b
             = b && forallb (validKey cfg) ks).
  { induction ks as [|k ks IH]; intros b; cbn [fold_left forallb].
    - now rewrite andb_true_r.
    - rewrite IH. unfold validKey.
      destruct (JS.includes (flugzeugProps cfg) k),
        (String.eqb k "javascript"), (String.eqb k "typescript"), b;
        reflexivity. }
  apply G.
Qed.

(** Criteria with a key that is neither a property of the entity nor one of
    the two extra names are refused before any query is sent. *)
Lemma find_invalid_keys (cfg : Config) (sk : Suchkriterien) (w : World) :
  sk <> [] ->
  forallb (validKey cfg) (keys sk) = false ->
  FlugzeugReadService.find cfg (Some sk) w
  = (Throw (NotFoundException UngueltigeSuchkriterien), w).
Proof.
  intros Hne Hk. unfold FlugzeugReadService.find.
  destruct sk as [|kv sk]; [congruence|].
  cbn [keys map List.length Nat.eqb].
  change (fst kv :: map fst sk) with (keys (kv :: sk)).
  rewrite checkKeys_forallb, Hk. reflexivity.
Qed.

(** C3.  The key [javascript] is not a property of the aircraft, and yet
    [#checkKeys] lets it through: [find] does not fail with
    [NotFoundException] but sends a query, which the database refuses. *)
Theorem find_accepts_key_outside_entity :
  JS.includes (flugzeugProps Sample.cfg) "javascript" = false
  /\ FlugzeugReadService.checkKeys Sample.cfg ["javascript"] = true
  /\ FlugzeugReadService.find
       Sample.cfg (Some [("javascript", JS.VBool true)]) Sample.world
     = (Throw (QueryFailedError "flugzeug.javascript = :javascript"),
        logged (Select (QueryBuilder.build
                          Sample.cfg [("javascript", JS.VBool true)]))
               Sample.world).
Proof. repeat split; reflexivity. Qed.

(** Whatever the properties of the entity are, the two extra names pass. *)
Lemma checkKeys_extra_names (cfg : Config) :
  FlugzeugReadService.checkKeys cfg ["javascript"; "typescript"] = true.
Proof.
  rewrite checkKeys_forallb. unfold validKey. simpl.
  rewrite !orb_true_r. reflexivity.
Qed.

(** ** Deleting *)

Lemma delete_missing (w : World) (id : Z) :
  findFlugzeug (db w) id = None ->
  FlugzeugWriteService.delete id w
  = (Throw (NotFoundException (KeinFlugzeugMitId (Some id))),
     logged (Select (QueryBuilder.buildId id true)) w).
Proof.
  intros H. unfold FlugzeugWriteService.delete. unfold bind at 1.
  rewrite findById_missing by (left; exact H). reflexivity.
Qed.

(** C4.  No aircraft has the identifier 7; [delete 7] does not return
    [false] but fails with the [NotFoundException] of [findById]. *)
Theorem delete_of_missing_aircraft_throws :
  findFlugzeug Sample.store 7 = None
  /\ FlugzeugWriteService.delete 7 Sample.world
     = (Throw (NotFoundException (KeinFlugzeugMitId (Some 7))),
        logged (Select (QueryBuilder.buildId 7 true)) Sample.world).
Proof. split; reflexivity. Qed.

(** *** The cascade of [delete] *)

Lemma deleteSitzplaetze_run (l : list DB.SitzplatzRow) (w : World) :
  FlugzeugWriteService.deleteSitzplaetze (map SQL.hydrateSitzplatz l) w
  = (Ok tt,
     {| db := fold_left deleteSeat l (db w);
        log := (log w ++ map (fun s => Delete TSitzplatz (DB.s_id s)) l)%list |}).
Proof.
  revert w. induction l as [|s l IH]; intros w.
  - simpl. rewrite app_nil_r. destruct w; reflexivity.
  - cbn [map FlugzeugWriteService.deleteSitzplaetze fold_left].
    unfold bind. cbn [Repository.delete SQL.hydrateSitzplatz Sitzplatz.id].
    rewrite IH. cbn [db log]. rewrite <- app_assoc. reflexivity.
Qed.

Lemma deleteSeats_flugzeug (l : list DB.SitzplatzRow) (d : DB.t) :
  DB.flugzeug (fold_left deleteSeat l d) = DB.flugzeug d.
Proof. revert d. induction l; intros d; simpl; [|rewrite IHl]; reflexivity. Qed.

Lemma deleteSeats_modell (l : list DB.SitzplatzRow) (d : DB.t) :
  DB.modell (fold_left deleteSeat l d) = DB.modell d.
Proof. revert d. induction l; intros d; simpl; [|rewrite IHl]; reflexivity. Qed.

Lemma deleteSeats_sitzplatz (l : list DB.SitzplatzRow) (d : DB.t) :
  forall s, In s (DB.sitzplatz (fold_left deleteSeat l d)) ->
            In s (DB.sitzplatz d) /\ ~ In s l.
Proof.
  revert d. induction l as [|x l IH]; intros d s Hs; simpl in *.
  - tauto.
  - apply IH in Hs. destruct Hs as [Hs Hn]. simpl in Hs.
    apply filter_In in Hs. destruct Hs as [Hs Hx].
    split; [exact Hs|]. intros [-> | Hl]; [|tauto].
    rewrite Z.eqb_refl in Hx. discriminate.
Qed.

Lemma filter_nil_iff {A} (p : A -> bool) (l : list A) :
  (forall x, In x l -> p x = false) -> filter p l = [].
Proof.
  induction l as [|a l IH]; intros H; simpl; [reflexivity|].
  rewrite (H a) by (left; reflexivity). apply IH. intros; apply H; now right.
Qed.

Lemma findFlugzeug_id (d : DB.t) (id : Z) (row : DB.FlugzeugRow) :
  findFlugzeug d id = Some row -> DB.f_id row = id /\ In row (DB.flugzeug d).
Proof.
  unfold findFlugzeug, DB.flugzeugeWithId. intros H.
  assert (Hin : In row (filter (fun f => DB.f_id f =? id) (DB.flugzeug d))).
  { destruct (filter _ _); [discriminate|]. injection H as ->. now left. }
  apply filter_In in Hin. destruct Hin as [Hin E].
  apply Z.eqb_eq in E. auto.
Qed.

(** C5.  For an aircraft that exists with its model and N seats, [delete]
    sends, inside one transaction and in this order, the deletion of the
    model row, the deletions of the N seat rows and the deletion of the
    aircraft row.  It returns whether that last deletion affected a row,
    which it did.  Afterwards no model row and no seat row refers to the
    aircraft, and its own row is gone. *)
Theorem delete_cascade
        (w : World) (id : Z) (row : DB.FlugzeugRow) (m : DB.ModellRow) :
  findFlugzeug (db w) id = Some row ->
  DB.modelleOf (db w) id = [m] ->
  exists (w' : World) (affected : Z),
    FlugzeugWriteService.delete id w = (Ok (0 <? affected), w')
    /\ affected = Repository.countRows TFlugzeug id (db w)
    /\ (0 <? affected) = true
    /\ log w'
       = (log w
          ++ [Select (QueryBuilder.buildId id true);
              StartTransaction;
              Delete TModell (DB.m_id m)]
          ++ map (fun s => Delete TSitzplatz (DB.s_id s))
                 (DB.sitzplaetzeOf (db w) id)
          ++ [Delete TFlugzeug id; Commit])%list
    /\ DB.modelleOf (db w') id = []
    /\ DB.sitzplaetzeOf (db w') id = []
    /\ DB.flugzeugeWithId (db w') id = [].
Proof.
  intros Hrow Hm.
  pose proof (findById_found w id true row m [] Hrow Hm) as Hfind.
  unfold FlugzeugWriteService.delete. unfold bind at 1. rewrite Hfind.
  cbn [SQL.hydrate Flugzeug.modell Flugzeug.sitzplaetze option_map snd fst
       SQL.hydrateModell Modell.id].
  rewrite relationOf_sitzplaetze_buildId.
  destruct (findFlugzeug_id _ _ _ Hrow) as [Hid _]. rewrite Hid.
  unfold bind at 1. unfold Repository.transaction.
  unfold bind at 1. unfold bind at 1.
  cbn [Repository.delete ret logged db log].
  unfold bind at 1. rewrite deleteSitzplaetze_run. cbn [db log].
  cbn [Repository.delete ret Repository.affected].
  eexists. eexists. split; [reflexivity|].
  cbn [db log logged Repository.countRows Repository.deleteRows DB.flugzeug].
  rewrite deleteSeats_flugzeug. cbn [DB.flugzeug Repository.deleteRows].
  split; [reflexivity|]. split; [|split; [|split; [|split]]].
  - unfold findFlugzeug, DB.flugzeugeWithId in Hrow. unfold Repository.count.
    destruct (filter _ (DB.flugzeug (db w))); [discriminate|].
    simpl. apply Z.ltb_lt. lia.
  - rewrite <- !app_assoc. reflexivity.
  - unfold DB.modelleOf. cbn [DB.modell].
    rewrite deleteSeats_modell. cbn [DB.modell Repository.deleteRows].
    apply filter_nil_iff. intros x Hx. apply filter_In in Hx.
    destruct Hx as [Hx Hne].
    destruct (DB.refers (DB.m_flugzeug_id x) id) eqn:E; [|reflexivity].
    assert (Hin : In x (DB.modelleOf (db w) id))
      by (apply filter_In; split; assumption).
    rewrite Hm in Hin. destruct Hin as [-> | []].
    rewrite Z.eqb_refl in Hne. discriminate.
  - unfold DB.sitzplaetzeOf at 1. cbn [DB.sitzplatz].
    apply filter_nil_iff. intros x Hx.
    apply deleteSeats_sitzplatz in Hx. destruct Hx as [Hx Hn].
    cbn [Repository.deleteRows DB.sitzplatz] in Hx.
    destruct (DB.refers (DB.s_flugzeug_id x) id) eqn:E; [|reflexivity].
    exfalso. apply Hn. apply filter_In. split; assumption.
  - unfold DB.flugzeugeWithId. cbn [DB.flugzeug].
    apply filter_nil_iff. intros x Hx. apply filter_In in Hx.
    destruct Hx as [_ Hx]. destruct (DB.f_id x =? id); [discriminate|reflexivity].
Qed.

Lemma delete_cascade_witness :
  findFlugzeug (db Sample.world) 1
  = Some (DB.mkFlugzeugRow 1 0 9999 (Some true) (Some "2022-02-28") 10 10)
  /\ DB.modelleOf (db Sample.world) 1 = [DB.mkModellRow 10 "Alpha" (Some 1)]
  /\ exists (w' : World) (affected : Z),
       FlugzeugWriteService.delete 1 Sample.world = (Ok (0 <? affected), w')
       /\ DB.modelleOf (db w') 1 = []
       /\ DB.sitzplaetzeOf (db w') 1 = [].
Proof.
  assert (H1 : findFlugzeug (db Sample.world) 1
               = Some (DB.mkFlugzeugRow 1 0 9999 (Some true)
                                        (Some "2022-02-28") 10 10))
    by reflexivity.
  assert (H2 : DB.modelleOf (db Sample.world) 1
               = [DB.mkModellRow 10 "Alpha" (Some 1)])
    by reflexivity.
  split; [exact H1 | split; [exact H2 |]].
  destruct (delete_cascade Sample.world 1 _ _ H1 H2)
    as (w' & affected & Hrun & _ & _ & _ & Hm & Hs & _).
  exists w', affected. auto.
Defined.

(** A transaction that fails leaves the tables as they were. *)
Lemma transaction_rollback {A} (run : M A) (w w' : World) (e : Exception) :
  Repository.transaction run w = (Throw e, w') -> db w' = db w.
Proof.
  unfold Repository.transaction.
  destruct (run (logged StartTransaction w)) as [[a | e'] w1]; intros H;
    inversion H; reflexivity.
Qed.

(** ** The query for search criteria *)

Lemma fold_addCriterion (props : Suchkriterien) (q : SelectQueryBuilder) :
  let r := fst (fold_left QueryBuilder.addCriterion props (q, false)) in
  alias r = alias q
  /\ joins r = joins q
  /\ wheres r = (wheres q ++ map equalityOn (keys props))%list
  /\ parameters r = fold_left setParameter props (parameters q).
Proof.
  revert q. induction props as [|[k v] props IH]; intros q; cbn zeta.
  - simpl. rewrite app_nil_r. auto.
  - cbn [fold_left QueryBuilder.addCriterion].
    destruct (IH (andWhere (QueryBuilder.flugzeugAlias ++ "." ++ k ++ " = :" ++ k)
                           [(k, v)] q)) as (Ha & Hj & Hw & Hp).
    rewrite Ha, Hj, Hw, Hp. cbn [alias joins wheres parameters andWhere keys map fst].
    rewrite <- app_assoc. auto.
Qed.

Lemma lookup_setParameter_other (key : string) (ps : Parameters)
      (kv : string * JS.Value) :
  String.eqb (fst kv) key = false ->
  lookup key (setParameter ps kv) = lookup key ps.
Proof.
  intros Hne. unfold setParameter. destruct kv as [k v]. cbn [fst] in *.
  induction ps as [|[k' v'] ps IH]; cbn [filter fst app lookup].
  - rewrite Hne. reflexivity.
  - destruct (String.eqb_spec k' k) as [-> | Hk]; cbn [negb app lookup].
    + rewrite Hne. exact IH.
    + destruct (String.eqb k' key); [reflexivity | exact IH].
Qed.

Lemma lookup_setParameters_other (key : string) (props : Suchkriterien)
      (ps : Parameters) :
  (forall kv, In kv props -> String.eqb (fst kv) key = false) ->
  lookup key (fold_left setParameter props ps) = lookup key ps.
Proof.
  revert ps. induction props as [|kv props IH]; intros ps H; simpl.
  - reflexivity.
  - rewrite IH by (intros; apply H; now right).
    apply lookup_setParameter_other. apply H. now left.
Qed.

Lemma without_keys (key : string) (o : Suchkriterien) :
  forall kv, In kv (without key o) -> String.eqb (fst kv) key = false.
Proof.
  intros kv H. apply filter_In in H. destruct H as [_ H].
  destruct (String.eqb (fst kv) key); [discriminate | reflexivity].
Qed.

(** C6.  When the criteria hold a string under the key [modell], the query
    starts with one condition on the name column of the joined model, with
    [ilike] on postgres and [like] elsewhere; the text of the condition only
    names the parameter, which is bound to the value between two [%]; every
    other criterion follows as an [AND] condition. *)
Theorem build_modell_predicate
        (cfg : Config) (suchkriterien : Suchkriterien) (modell : string) :
  lookup "modell" suchkriterien = Some (JS.VString modell) ->
  let qb := QueryBuilder.build cfg suchkriterien in
  let ilike := if String.eqb (typeOrmModuleOptions_type cfg) "postgres"
               then "ilike" else "like" in
  joins qb = [mkJoin InnerJoin "flugzeug.modell" "modell"]
  /\ wheres qb
     = mkWhere Simple ("modell.modell " ++ ilike ++ " :modell")
       :: map (fun key => mkWhere And ("flugzeug." ++ key ++ " = :" ++ key))
              (keys (without "modell" suchkriterien))
  /\ lookup "modell" (parameters qb) = Some (JS.VString ("%" ++ modell ++ "%")).
Proof.
  intros H. cbn zeta. unfold QueryBuilder.build. rewrite H.
  match goal with
  | |- context [fold_left QueryBuilder.addCriterion ?props (?q, false)] =>
      destruct (fold_addCriterion props q) as (_ & Hj & Hw & Hp)
  end.
  cbn zeta in Hj, Hw, Hp. rewrite Hj, Hw, Hp.
  split; [reflexivity|]. split; [reflexivity|].
  rewrite lookup_setParameters_other by apply without_keys.
  reflexivity.
Qed.

Lemma build_modell_predicate_witness :
  lookup "modell" [("modell", JS.VString "a"); ("einsatzbereit", JS.VBool true)]
  = Some (JS.VString "a")
  /\ wheres (QueryBuilder.build
               Sample.cfg
               [("modell", JS.VString "a"); ("einsatzbereit", JS.VBool true)])
     = [mkWhere Simple "modell.modell ilike :modell";
        mkWhere And "flugzeug.einsatzbereit = :einsatzbereit"].
Proof.
  split; [reflexivity|].
  exact (proj1 (proj2 (build_modell_predicate
                         Sample.cfg
                         [("modell", JS.VString "a");
                          ("einsatzbereit", JS.VBool true)]
                         "a" eq_refl))).
Defined.

Lemma without_absent (key : string) (o : Suchkriterien) :
  lookup key o = None -> without key o = o.
Proof.
  induction o as [|[k v] o IH]; cbn [lookup without filter fst]; intros H.
  - reflexivity.
  - destruct (String.eqb k key); [discriminate|].
    cbn [negb]. f_equal. apply IH. exact H.
Qed.

(** Without a model name among the criteria the first criterion is attached
    with [where], the others with [andWhere]. *)
Lemma build_without_modell (cfg : Config) (sk : Suchkriterien) :
  lookup "modell" sk = None ->
  wheres (QueryBuilder.build cfg sk)
  = match keys sk with
    | [] => []
    | key :: rest =>
        mkWhere Simple ("flugzeug." ++ key ++ " = :" ++ key)
        :: map equalityOn rest
    end.
Proof.
  intros H. unfold QueryBuilder.build. rewrite H, (without_absent _ _ H).
  destruct sk as [|[k v] sk]; [reflexivity|].
  cbn [fold_left QueryBuilder.addCriterion keys map fst].
  match goal with
  | |- context [fold_left QueryBuilder.addCriterion ?props (?q, false)] =>
      destruct (fold_addCriterion props q) as (_ & _ & Hw & _)
  end.
  cbn zeta in Hw. rewrite Hw. reflexivity.
Qed.

Example find_by_part_of_model_name :
  map Flugzeug.id
      match fst (FlugzeugReadService.find
                   Sample.cfg (Some [("modell", JS.VString "ALP")]) Sample.world)
      with Ok l => l | Throw _ => [] end
  = [Some 1].
Proof. reflexivity. Qed.

(** ** Searching *)

Lemma filter_all {A} (l : list A) : filter (fun _ => true) l = l.
Proof. induction l; simpl; congruence. Qed.

Lemma execute_build_nil (cfg : Config) (d : DB.t) :
  SQL.execute (QueryBuilder.build cfg []) d
  = Ok (map (SQL.hydrate (QueryBuilder.build cfg []) d) (joinedWithModell d)).
Proof.
  unfold SQL.execute. cbn [QueryBuilder.build lookup without filter fold_left fst].
  cbn -[SQL.hydrate SQL.joinRows flat_map filter map].
  rewrite filter_all. reflexivity.
Qed.

Lemma find_unfiltered (cfg : Config) (sk : option Suchkriterien) (w : World) :
  sk = None \/ sk = Some [] ->
  FlugzeugReadService.find cfg sk w
  = (Ok (map (SQL.hydrate (QueryBuilder.build cfg []) (db w))
             (joinedWithModell (db w))),
     logged (Select (QueryBuilder.build cfg [])) w).
Proof.
  intros [-> | ->]; unfold FlugzeugReadService.find; cbn [keys map List.length Nat.eqb];
    unfold Repository.getMany; rewrite execute_build_nil; reflexivity.
Qed.

Lemma find_valid_keys (cfg : Config) (sk : Suchkriterien) (w : World) :
  sk <> [] ->
  FlugzeugReadService.checkKeys cfg (keys sk) = true ->
  FlugzeugReadService.find cfg (Some sk) w
  = (match SQL.execute (QueryBuilder.build cfg sk) (db w) with
     | Ok [] => Throw (NotFoundException (KeineFlugzeugeGefunden sk))
     | Ok fs => Ok fs
     | Throw e => Throw e
     end,
     logged (Select (QueryBuilder.build cfg sk)) w).
Proof.
  intros Hne Hk. unfold FlugzeugReadService.find.
  destruct sk as [|kv sk]; [congruence|].
  cbn [keys map List.length Nat.eqb].
  change (fst kv :: map fst sk) with (keys (kv :: sk)).
  rewrite Hk. cbn [negb]. unfold bind, Repository.getMany.
  destruct (SQL.execute _ _) as [[|f fs] | e]; reflexivity.
Qed.

(** C7.  With criteria that are not empty and pass the check of the keys:
    when the query yields no row, [find] fails with a [NotFoundException]
    that carries the criteria; and whenever [find] succeeds, the list it
    returns is not empty. *)
Theorem find_empty_result_is_NotFound
        (cfg : Config) (suchkriterien : Suchkriterien) (w : World) :
  suchkriterien <> [] ->
  FlugzeugReadService.checkKeys cfg (keys suchkriterien) = true ->
  (SQL.execute (QueryBuilder.build cfg suchkriterien) (db w) = Ok [] ->
   fst (FlugzeugReadService.find cfg (Some suchkriterien) w)
   = Throw (NotFoundException (KeineFlugzeugeGefunden suchkriterien)))
  /\ (forall flugzeuge,
        fst (FlugzeugReadService.find cfg (Some suchkriterien) w) = Ok flugzeuge ->
        flugzeuge <> []).
Proof.
  intros Hne Hk. rewrite (find_valid_keys cfg suchkriterien w Hne Hk).
  cbn [fst]. split.
  - intros ->. reflexivity.
  - intros fs. destruct (SQL.execute _ _) as [[|f l] | e]; intros H;
      try discriminate. injection H as <-. discriminate.
Qed.

Lemma find_empty_result_is_NotFound_witness :
  [("modell", JS.VString "abc123xyz-no-match")] <> []
  /\ FlugzeugReadService.checkKeys Sample.cfg ["modell"] = true
  /\ fst (FlugzeugReadService.find
            Sample.cfg (Some [("modell", JS.VString "abc123xyz-no-match")])
            Sample.world)
     = Throw (NotFoundException
                (KeineFlugzeugeGefunden
                   [("modell", JS.VString "abc123xyz-no-match")])).
Proof.
  assert (H1 : [("modell", JS.VString "abc123xyz-no-match")] <> [])
    by discriminate.
  assert (H2 : FlugzeugReadService.checkKeys
                 Sample.cfg
                 (keys [("modell", JS.VString "abc123xyz-no-match")]) = true)
    by reflexivity.
  split; [exact H1 | split; [exact H2 |]].
  apply (proj1 (find_empty_result_is_NotFound
                  Sample.cfg [("modell", JS.VString "abc123xyz-no-match")]
                  Sample.world H1 H2)).
  reflexivity.
Defined.

(** C9.  [find({})] and [find(undefined)] do the same: they send the query
    that joins the model and has no condition, and return all it yields,
    every aircraft with its model. *)
Theorem find_empty_criteria_equals_find_undefined (cfg : Config) (w : World) :
  FlugzeugReadService.find cfg (Some []) w = FlugzeugReadService.find cfg None w
  /\ joins (QueryBuilder.build cfg []) = [mkJoin InnerJoin "flugzeug.modell" "modell"]
  /\ wheres (QueryBuilder.build cfg []) = []
  /\ FlugzeugReadService.find cfg None w
     = (Ok (map (SQL.hydrate (QueryBuilder.build cfg []) (db w))
                (joinedWithModell (db w))),
        logged (Select (QueryBuilder.build cfg [])) w).
Proof.
  rewrite !find_unfiltered by auto. repeat split; reflexivity.
Qed.

(** Under the invariant that each aircraft has exactly one model, the join
    has one row per aircraft, in the order of the table. *)
Lemma joinedWithModell_all (d : DB.t) :
  (forall f, In f (DB.flugzeug d) -> exists m, DB.modelleOf d (DB.f_id f) = [m]) ->
  map fst (joinedWithModell d) = DB.flugzeug d.
Proof.
  unfold joinedWithModell. induction (DB.flugzeug d) as [|f l IH]; intros H.
  - reflexivity.
  - cbn [flat_map]. rewrite map_app, IH by (intros; apply H; now right).
    destruct (H f (or_introl eq_refl)) as [m ->]. reflexivity.
Qed.

(** C10.  Without criteria, or with criteria that have no key, [find] never
    fails with [NotFoundException]: it returns what the query without
    conditions yields, and that is the empty list when the store holds no
    aircraft. *)
Theorem find_without_criteria_never_NotFound
        (cfg : Config) (suchkriterien : option Suchkriterien) (w : World) :
  suchkriterien = None \/ suchkriterien = Some [] ->
  (forall message,
      fst (FlugzeugReadService.find cfg suchkriterien w)
      <> Throw (NotFoundException message))
  /\ fst (FlugzeugReadService.find cfg suchkriterien w)
     = SQL.execute (QueryBuilder.build cfg []) (db w)
  /\ (DB.flugzeug (db w) = [] ->
      fst (FlugzeugReadService.find cfg suchkriterien w) = Ok []).
Proof.
  intros H. rewrite (find_unfiltered cfg suchkriterien w H).
  rewrite execute_build_nil. cbn [fst].
  split; [discriminate|]. split; [reflexivity|].
  unfold joinedWithModell. intros ->. reflexivity.
Qed.

Lemma find_without_criteria_never_NotFound_witness :
  (Some [] = (None : option Suchkriterien) \/ Some [] = Some ([] : Suchkriterien))
  /\ DB.flugzeug (db Sample.emptyWorld) = []
  /\ fst (FlugzeugReadService.find Sample.cfg (Some []) Sample.emptyWorld) = Ok [].
Proof.
  assert (H1 : Some [] = (None : option Suchkriterien)
               \/ Some [] = Some ([] : Suchkriterien))
    by (right; reflexivity).
  split; [exact H1 | split; [reflexivity |]].
  exact (proj2 (proj2 (find_without_criteria_never_NotFound
                         Sample.cfg (Some []) Sample.emptyWorld H1))
               eq_refl).
Defined.

(** ** What [update] writes *)

Lemma filter_map_stable {A} (p : A -> bool) (g : A -> A) (l : list A) :
  (forall x, p (g x) = p x) -> filter p (map g l) = map g (filter p l).
Proof.
  intros H. induction l as [|a l IH]; simpl; [reflexivity|].
  rewrite H. destruct (p a); simpl; congruence.
Qed.

Lemma map_id_on {A} (g : A -> A) (l : list A) :
  (forall x, In x l -> g x = x) -> map g l = l.
Proof.
  induction l as [|a l IH]; intros H; simpl; [reflexivity|].
  rewrite H by (now left). rewrite IH; [reflexivity|].
  intros; apply H; now right.
Qed.

(** Saving an entity whose identifier is that of a stored row. *)
Lemma save_existing (e : Flugzeug.t) (w : World) (id : Z) (row : DB.FlugzeugRow) :
  Flugzeug.id e = Some id ->
  findFlugzeug (db w) id = Some row ->
  exists (u : Flugzeug.t) (w' : World),
    Repository.save e w = (Ok u, w')
    /\ log w' = (log w ++ [Save e])%list
    /\ Flugzeug.version u
       = (if Repository.unchanged row e then Flugzeug.version e
          else Some (DB.f_version (Repository.updatedRow row e)))
    /\ findFlugzeug (db w') id
       = Some (if Repository.unchanged row e then row
               else Repository.updatedRow row e)
    /\ DB.modell (db w') = DB.modell (db w)
    /\ DB.sitzplatz (db w') = DB.sitzplatz (db w)
    /\ filter (fun f => negb (DB.f_id f =? id)) (DB.flugzeug (db w'))
       = filter (fun f => negb (DB.f_id f =? id)) (DB.flugzeug (db w))
    /\ (Repository.unchanged row e = true -> db w' = db w).
Proof.
  intros He Hrow. destruct (findFlugzeug_id _ _ _ Hrow) as [Hid _].
  unfold Repository.save. rewrite He.
  pose proof Hrow as Hrow'. unfold findFlugzeug in Hrow'.
  destruct (DB.flugzeugeWithId (db w) id) as [|r rs] eqn:E; [discriminate|].
  injection Hrow' as ->. cbv zeta.
  destruct (Repository.unchanged row e).
  - eexists _, _. split; [reflexivity|].
    cbn [db log logged Flugzeug.version].
    repeat split; try reflexivity. exact Hrow.
  - eexists _, _. split; [reflexivity|].
    cbn [db log logged DB.flugzeug DB.modell DB.sitzplatz Flugzeug.version].
    rewrite Hid.
    split; [reflexivity|]. split; [reflexivity|].
    split; [|split; [reflexivity | split; [reflexivity | split; [|discriminate]]]].
    + unfold findFlugzeug, DB.flugzeugeWithId. cbn [DB.flugzeug].
      rewrite filter_map_stable.
      * unfold DB.flugzeugeWithId in E. rewrite E. cbn [map hd_error].
        rewrite Hid, Z.eqb_refl. reflexivity.
      * intros x. destruct (DB.f_id x =? id) eqn:Ex; [|exact Ex].
        cbn [Repository.updatedRow Repository.written DB.f_id]. exact Ex.
    + rewrite filter_map_stable.
      * apply map_id_on. intros x Hx. apply filter_In in Hx.
        destruct Hx as [_ Hx]. destruct (DB.f_id x =? id); [discriminate|reflexivity].
      * intros x. destruct (DB.f_id x =? id) eqn:Ex; [|rewrite Ex; reflexivity].
        cbn [Repository.updatedRow Repository.written DB.f_id].
        rewrite Ex. reflexivity.
Qed.

Lemma orElse_same {A} (o : option A) : Repository.orElse o o = o.
Proof. destruct o; reflexivity. Qed.

Lemma sameOption_bool_refl (o : option bool) :
  Repository.sameOption Bool.eqb o o = true.
Proof. destruct o as [[|]|]; reflexivity. Qed.

Lemma sameOption_string_refl (o : option string) :
  Repository.sameOption String.eqb o o = true.
Proof. destruct o as [y|]; [apply String.eqb_refl | reflexivity]. Qed.

Lemma sameOption_bool_eq (a b : option bool) :
  Repository.sameOption Bool.eqb a b = true -> a = b.
Proof.
  destruct a as [x|], b as [y|]; cbn; try discriminate; [|reflexivity].
  intros H. apply Bool.eqb_prop in H. congruence.
Qed.

Lemma sameOption_string_eq (a b : option string) :
  Repository.sameOption String.eqb a b = true -> a = b.
Proof.
  destruct a as [x|], b as [y|]; cbn; try discriminate; [|reflexivity].
  intros H. apply String.eqb_eq in H. congruence.
Qed.

(** For the entity read from a row and merged with the patch of a PUT
    request, no column differs exactly when the request asks for nothing
    new. *)
Lemma unchanged_patch (qb : SelectQueryBuilder) (d : DB.t) (row : DB.FlugzeugRow)
      (m : option DB.ModellRow) (flugzeugDTO : FlugzeugDtoOhneRef.t)
      (now : Timestamp) :
  Repository.unchanged
    row (Repository.merge (SQL.hydrate qb d (row, m))
                          (flugzeugDtoOhneRefToFlugzeug flugzeugDTO now))
  = changesNothing row flugzeugDTO now.
Proof.
  unfold Repository.unchanged, changesNothing.
  cbn [Repository.written Repository.merge SQL.hydrate fst
       flugzeugDtoOhneRefToFlugzeug Repository.orElse Repository.orKeep
       Flugzeug.version Flugzeug.preis Flugzeug.einsatzbereit Flugzeug.baujahr
       Flugzeug.erzeugt Flugzeug.aktualisiert
       DB.f_version DB.f_preis DB.f_einsatzbereit DB.f_baujahr DB.f_erzeugt
       DB.f_aktualisiert].
  rewrite !Z.eqb_refl. cbn [andb].
  destruct (FlugzeugDtoOhneRef.einsatzbereit flugzeugDTO),
    (FlugzeugDtoOhneRef.baujahr flugzeugDTO);
    cbn [Repository.orElse]; rewrite ?orElse_same;
    rewrite ?sameOption_bool_refl, ?sameOption_string_refl, ?andb_true_r;
    reflexivity.
Qed.

(** The row that [save] leaves for that entity. *)
Lemma saved_row_patch (qb : SelectQueryBuilder) (d : DB.t) (row : DB.FlugzeugRow)
      (m : option DB.ModellRow) (flugzeugDTO : FlugzeugDtoOhneRef.t)
      (now : Timestamp) (row' : DB.FlugzeugRow) :
  row' = (if changesNothing row flugzeugDTO now then row
          else Repository.updatedRow
                 row (Repository.merge (SQL.hydrate qb d (row, m))
                        (flugzeugDtoOhneRefToFlugzeug flugzeugDTO now))) ->
  DB.f_id row' = DB.f_id row
  /\ DB.f_preis row' = FlugzeugDtoOhneRef.preis flugzeugDTO
  /\ DB.f_einsatzbereit row'
     = match FlugzeugDtoOhneRef.einsatzbereit flugzeugDTO with
       | Some b => Some b
       | None => DB.f_einsatzbereit row
       end
  /\ DB.f_baujahr row'
     = match FlugzeugDtoOhneRef.baujahr flugzeugDTO with
       | Some y => Some y
       | None => DB.f_baujahr row
       end
  /\ DB.f_erzeugt row' = DB.f_erzeugt row
  /\ DB.f_aktualisiert row' = now
  /\ DB.f_version row' = versionAfter row flugzeugDTO now.
Proof.
  intros ->. unfold versionAfter.
  destruct (changesNothing row flugzeugDTO now) eqn:E.
  - unfold changesNothing in E.
    apply andb_prop in E. destruct E as [E Ha].
    apply andb_prop in E. destruct E as [E Hb].
    apply andb_prop in E. destruct E as [Hp He].
    apply Z.eqb_eq in Hp, Ha.
    repeat split; try reflexivity; try congruence.
    + destruct (FlugzeugDtoOhneRef.einsatzbereit flugzeugDTO); [|reflexivity].
      apply sameOption_bool_eq in He. congruence.
    + destruct (FlugzeugDtoOhneRef.baujahr flugzeugDTO); [|reflexivity].
      apply sameOption_string_eq in Hb. congruence.
  - cbn [Repository.updatedRow Repository.written Repository.merge SQL.hydrate
         fst flugzeugDtoOhneRefToFlugzeug Repository.orElse Repository.orKeep
         Flugzeug.version Flugzeug.preis Flugzeug.einsatzbereit
         Flugzeug.baujahr Flugzeug.erzeugt Flugzeug.aktualisiert
         DB.f_id DB.f_version DB.f_preis DB.f_einsatzbereit DB.f_baujahr
         DB.f_erzeugt DB.f_aktualisiert].
    rewrite Z.eqb_refl.
    destruct (FlugzeugDtoOhneRef.einsatzbereit flugzeugDTO),
      (FlugzeugDtoOhneRef.baujahr flugzeugDTO);
      cbn [Repository.orElse]; rewrite ?orElse_same;
      repeat split; reflexivity.
Qed.

(** C8.  When [update] succeeds with the patch made from the transfer
    object of a PUT request, the entity it saves is the entity read, with
    the price of the patch, with the operational flag and the year of
    manufacture of the patch where the patch has them and the former values
    where it has not, with the time stamp of the patch, and with its
    identifier, version, creation date, model and seats as they were read.
    In the store the row of the aircraft has the price of the patch, the
    flag and the year of the patch or else the former ones, the time stamp
    of the patch where it is another than the stored one, and its former
    identifier and creation date; all other aircraft rows, the model rows
    and the seat rows stay as they were.  The store counts the version of
    the row up by one, unless the request asks for nothing new: then the
    whole store stays as it was, the version included.  In either case the
    version returned is the one the row has in the store afterwards. *)
Theorem update_writes_only_patch_fields
        (w w' : World) (id : Z) (flugzeugDTO : FlugzeugDtoOhneRef.t)
        (now : Timestamp) (version : string) (result : option Z) :
  FlugzeugWriteService.update
    (Some id) (flugzeugDtoOhneRefToFlugzeug flugzeugDTO now) version w
  = (Ok result, w') ->
  exists (row row' : DB.FlugzeugRow) (flugzeugDb : Flugzeug.t),
    findFlugzeug (db w) id = Some row
    /\ fst (FlugzeugReadService.findById id false w) = Ok flugzeugDb
    /\ log w'
       = (log w
          ++ [Select (QueryBuilder.buildId id false);
              Save {| Flugzeug.id := Flugzeug.id flugzeugDb;
                      Flugzeug.version := Flugzeug.version flugzeugDb;
                      Flugzeug.preis := Some (FlugzeugDtoOhneRef.preis flugzeugDTO);
                      Flugzeug.einsatzbereit :=
                        match FlugzeugDtoOhneRef.einsatzbereit flugzeugDTO with
                        | Some b => Some b
                        | None => Flugzeug.einsatzbereit flugzeugDb
                        end;
                      Flugzeug.baujahr :=
                        match FlugzeugDtoOhneRef.baujahr flugzeugDTO with
                        | Some y => Some y
                        | None => Flugzeug.baujahr flugzeugDb
                        end;
                      Flugzeug.modell := Flugzeug.modell flugzeugDb;
                      Flugzeug.sitzplaetze := Flugzeug.sitzplaetze flugzeugDb;
                      Flugzeug.erzeugt := Flugzeug.erzeugt flugzeugDb;
                      Flugzeug.aktualisiert := Some now |}])%list
    /\ findFlugzeug (db w') id = Some row'
    /\ DB.f_id row' = id
    /\ DB.f_preis row' = FlugzeugDtoOhneRef.preis flugzeugDTO
    /\ DB.f_einsatzbereit row'
       = match FlugzeugDtoOhneRef.einsatzbereit flugzeugDTO with
         | Some b => Some b
         | None => DB.f_einsatzbereit row
         end
    /\ DB.f_baujahr row'
       = match FlugzeugDtoOhneRef.baujahr flugzeugDTO with
         | Some y => Some y
         | None => DB.f_baujahr row
         end
    /\ DB.f_erzeugt row' = DB.f_erzeugt row
    /\ (now <> DB.f_aktualisiert row -> DB.f_aktualisiert row' = now)
    /\ DB.f_version row' = versionAfter row flugzeugDTO now
    /\ (changesNothing row flugzeugDTO now = true -> db w' = db w)
    /\ filter (fun f => negb (DB.f_id f =? id)) (DB.flugzeug (db w'))
       = filter (fun f => negb (DB.f_id f =? id)) (DB.flugzeug (db w))
    /\ DB.modell (db w') = DB.modell (db w)
    /\ DB.sitzplatz (db w') = DB.sitzplatz (db w)
    /\ result = Some (DB.f_version row').
Proof.
  intros Hrun.
  unfold FlugzeugWriteService.update, FlugzeugWriteService.validateUpdate in Hrun.
  destruct (JS.test FlugzeugWriteService.VERSION_PATTERN version);
    [cbn [negb] in Hrun | discriminate Hrun].
  unfold bind at 1 2 in Hrun.
  destruct (findFlugzeug (db w) id) as [row|] eqn:Hrow.
  2:{ rewrite findById_missing in Hrun by (left; exact Hrow). discriminate Hrun. }
  destruct (DB.modelleOf (db w) id) as [|m ms] eqn:Hm.
  { rewrite findById_missing in Hrun by (right; exact Hm). discriminate Hrun. }
  pose proof (findById_found w id false row m ms Hrow Hm) as Hfind.
  rewrite Hfind in Hrun.
  destruct (JS.lt _ _); [discriminate Hrun|].
  cbn [ret] in Hrun.
  destruct (findFlugzeug_id _ _ _ Hrow) as [Hid _].
  set (cur := SQL.hydrate (QueryBuilder.buildId id false) (db w) (row, Some m)) in *.
  set (w1 := logged (Select (QueryBuilder.buildId id false)) w) in *.
  set (merged :=
         Repository.merge cur (flugzeugDtoOhneRefToFlugzeug flugzeugDTO now)) in *.
  assert (He : Flugzeug.id merged = Some id)
    by (unfold merged, cur; cbn; rewrite Hid; reflexivity).
  destruct (save_existing merged w1 id row He Hrow)
    as (u & w2 & Hsave & Hlog & Hver & Hnew & Hmod & Hseat & Hrest & Hsame).
  unfold bind in Hrun. rewrite Hsave in Hrun. cbn [ret] in Hrun.
  injection Hrun as <- <-.
  unfold merged, cur in Hver, Hnew, Hsame.
  rewrite unchanged_patch in Hver, Hnew, Hsame.
  destruct (saved_row_patch (QueryBuilder.buildId id false) (db w) row (Some m)
                            flugzeugDTO now _ eq_refl)
    as (Rid & Rp & Re & Rb & Rc & Ra & Rv).
  eexists row, _, cur. rewrite Hfind.
  split; [reflexivity|]. split; [reflexivity|].
  split.
  { rewrite Hlog. unfold w1. cbn [log logged]. rewrite <- app_assoc.
    unfold merged, cur.
    destruct flugzeugDTO as [p [e|] [y|]]; reflexivity. }
  split; [exact Hnew|].
  split; [rewrite Rid; exact Hid|].
  split; [exact Rp|]. split; [exact Re|]. split; [exact Rb|].
  split; [exact Rc|]. split; [intros _; exact Ra|]. split; [exact Rv|].
  split; [exact Hsame|]. split; [exact Hrest|].
  split; [exact Hmod|]. split; [exact Hseat|].
  rewrite Hver. clear.
  destruct (changesNothing row flugzeugDTO now); reflexivity.
Qed.

Lemma update_writes_only_patch_fields_witness :
  exists (w' : World) (row' : DB.FlugzeugRow),
    FlugzeugWriteService.update
      (Some 2) (flugzeugDtoOhneRefToFlugzeug Sample.patch 99) (JS.quoted "5")
      Sample.world
    = (Ok (Some 6), w')
    /\ findFlugzeug (db w') 2 = Some row'
    /\ DB.f_preis row' = 500
    /\ DB.f_baujahr row' = Some "2020-01-31"
    /\ DB.f_einsatzbereit row' = None
    /\ DB.modell (db w') = DB.modell Sample.store.
Proof.
  assert (Hrun : FlugzeugWriteService.update
                   (Some 2) (flugzeugDtoOhneRefToFlugzeug Sample.patch 99)
                   (JS.quoted "5") Sample.world
                 = (Ok (Some 6),
                    snd (FlugzeugWriteService.update
                           (Some 2) (flugzeugDtoOhneRefToFlugzeug Sample.patch 99)
                           (JS.quoted "5") Sample.world)))
    by reflexivity.
  destruct (update_writes_only_patch_fields
              Sample.world _ 2 Sample.patch 99 (JS.quoted "5") (Some 6) Hrun)
    as (row & row' & cur & Hrow & _ & _ & Hnew & _ & Hp & He & Hb & _ & _ & _ & _
        & _ & Hmod & _ & _).
  exists (snd (FlugzeugWriteService.update
                 (Some 2) (flugzeugDtoOhneRefToFlugzeug Sample.patch 99)
                 (JS.quoted "5") Sample.world)), row'.
  injection Hrow as <-.
  split; [exact Hrun|]. split; [exact Hnew|]. split; [exact Hp|].
  split; [exact Hb|]. split; [exact He | exact Hmod].
Defined.

(* ================================================================== *)
(** * Further properties *)
(* ================================================================== *)

(** ** The two patterns *)

(** What a bounded repetition matches: a run of characters of the atom,
    within the bounds, followed by what the continuation accepts. *)
Lemma matchRep_spec (a : JS.Atom) (k : string -> bool) (s : string) :
  forall must may : nat,
    JS.matchRep a must may s k = true
    <-> exists pre rest : string,
          s = pre ++ rest /\ allMatch a pre = true
          /\ (must <= String.length pre <= must + may)%nat
          /\ k rest = true.
Proof.
  induction s as [|c s IH]; intros must may.
  - cbn [JS.matchRep]. destruct must as [|m].
    + split.
      * intros H. exists EmptyString, EmptyString. simpl. repeat split; auto; lia.
      * intros (pre & rest & E & _ & _ & H).
        destruct pre; [|discriminate]. simpl in E. subst rest. exact H.
    + split; [discriminate|].
      intros (pre & rest & E & _ & [Hl _] & _).
      destruct pre; simpl in *; [lia | discriminate].
  - cbn [JS.matchRep]. destruct must as [|m].
    + destruct may as [|e].
      * split.
        -- intros H. exists EmptyString, (String c s). simpl.
           repeat split; auto; lia.
        -- intros (pre & rest & E & _ & [_ Hl] & H).
           destruct pre; simpl in *; [subst rest; exact H | lia].
      * rewrite orb_true_iff, andb_true_iff, IH. split.
        -- intros [[Hc (pre & rest & E & Ha & Hl & H)] | H].
           ++ exists (String c pre), rest. simpl. rewrite Hc, Ha, E.
              repeat split; auto; lia.
           ++ exists EmptyString, (String c s). simpl. repeat split; auto; lia.
        -- intros (pre & rest & E & Ha & Hl & H).
           destruct pre as [|c' pre]; simpl in *.
           ++ right. subst rest. exact H.
           ++ left. injection E as <- ->. apply andb_prop in Ha.
              destruct Ha as [Hc Ha]. split; [exact Hc|].
              exists pre, rest. repeat split; auto; lia.
    + rewrite andb_true_iff, IH. split.
      * intros [Hc (pre & rest & E & Ha & Hl & H)].
        exists (String c pre), rest. simpl. rewrite Hc, Ha, E.
        repeat split; auto; lia.
      * intros (pre & rest & E & Ha & Hl & H).
        destruct pre as [|c' pre]; simpl in *; [lia|].
        injection E as <- ->. apply andb_prop in Ha.
        destruct Ha as [Hc Ha]. split; [exact Hc|].
        exists pre, rest. repeat split; auto; lia.
Qed.

Lemma allMatch_Digit (s : string) : allMatch JS.Digit s = digitsOnly s.
Proof. induction s as [|c s IH]; simpl; [|rewrite IH]; reflexivity. Qed.

Lemma allMatch_Lit_one (q : ascii) (pre : string) :
  allMatch (JS.Lit q) pre = true -> String.length pre = 1%nat ->
  pre = String q EmptyString.
Proof.
  destruct pre as [|c [|c' pre]]; simpl; intros H Hl; try discriminate.
  rewrite andb_true_r in H. apply Ascii.eqb_eq in H. now subst.
Qed.

Lemma string_app_assoc (a b c : string) : (a ++ b) ++ c = a ++ (b ++ c).
Proof. induction a as [|x a IH]; simpl; [|rewrite IH]; reflexivity. Qed.

Lemma string_app_nil_r (a : string) : a ++ "" = a.
Proof. induction a as [|x a IH]; simpl; [|rewrite IH]; reflexivity. Qed.

(** The pattern for version tokens matches a string exactly when the string
    begins with a quote, one to three digits and a quote. *)
Lemma VERSION_PATTERN_matches_iff (s : string) :
  JS.test FlugzeugWriteService.VERSION_PATTERN s = true <-> startsWithToken s.
Proof.
  unfold startsWithToken. split.
  - unfold JS.test, JS.matchHere. cbn [FlugzeugWriteService.VERSION_PATTERN
      JS.anchorStart JS.pieces JS.matchPieces JS.atom JS.rmin JS.rmax Nat.sub].
    intros H. apply matchRep_spec in H.
    destruct H as (p1 & r1 & -> & Ha1 & Hl1 & H).
    apply matchRep_spec in H.
    destruct H as (ds & r2 & -> & Had & Hld & H).
    apply matchRep_spec in H.
    destruct H as (p3 & rest & -> & Ha3 & Hl3 & _).
    rewrite (allMatch_Lit_one _ _ Ha1) by lia.
    rewrite (allMatch_Lit_one _ _ Ha3) by lia.
    rewrite allMatch_Digit in Had.
    exists ds, rest. split; [|split; [exact Had | lia]].
    unfold JS.quoted. simpl. rewrite string_app_assoc. reflexivity.
  - intros (ds & rest & -> & Hd & Hl). apply VERSION_PATTERN_prefix; assumption.
Qed.

(** [ID_PATTERN] accepts a digit from 1 to 9 followed by at most ten
    digits. *)
Lemma ID_PATTERN_accepts (s : string) :
  idShaped s -> JS.test FlugzeugReadService.ID_PATTERN s = true.
Proof.
  unfold idShaped, JS.test, JS.matchHere.
  cbn [FlugzeugReadService.ID_PATTERN JS.anchorStart JS.anchorEnd JS.pieces
       JS.matchPieces JS.atom JS.rmin JS.rmax Nat.sub JS.atEnd].
  intros (c & ds & -> & Hc & Hd & Hl). apply matchRep_spec.
  exists (String c EmptyString), ds. split; [reflexivity|]. split.
  - cbn [allMatch JS.atomMatch]. rewrite andb_true_r.
    apply andb_true_intro. split; apply Nat.leb_le; cbn; lia.
  - split; [simpl; lia|]. apply matchRep_spec.
    exists ds, EmptyString. rewrite allMatch_Digit.
    rewrite string_app_nil_r. repeat split; auto; lia.
Qed.

(** ** Reading the number of a token *)

Lemma slice_strip (q : ascii) (t : string) :
  JS.slice (String q t) 1 (-1) = substring 0 (String.length t - 1) t.
Proof.
  unfold JS.slice, JS.clampIndex. cbn [String.length].
  change (1 <? 0) with false. change (-1 <? 0) with true. cbv iota.
  replace (Z.min 1 (Z.of_nat (S (String.length t)))) with 1 by lia.
  replace (Z.max (Z.of_nat (S (String.length t)) + -1) 0)
    with (Z.of_nat (String.length t)) by lia.
  replace (Z.to_nat (Z.max (Z.of_nat (String.length t) - 1) 0))
    with (String.length t - 1)%nat by lia.
  reflexivity.
Qed.

Lemma string_length_app (a b : string) :
  String.length (a ++ b) = (String.length a + String.length b)%nat.
Proof. induction a as [|x a IH]; simpl; [|rewrite IH]; reflexivity. Qed.

Lemma substring_app (a b : string) (n : nat) :
  substring 0 (String.length a + n) (a ++ b) = a ++ substring 0 n b.
Proof. induction a as [|x a IH]; simpl; [|rewrite IH]; reflexivity. Qed.

Lemma digitValue_range (c : ascii) :
  JS.isDigit c = true -> 0 <= JS.digitValue c <= 9.
Proof.
  unfold JS.isDigit, JS.digitValue. intros H. apply andb_prop in H.
  destruct H as [H1 H2]. apply Nat.leb_le in H1, H2. lia.
Qed.

Lemma readDigits_digits (s : string) :
  forall a : Z,
    digitsOnly s = true -> JS.readDigits (Some a) s = Some (decimal a s).
Proof.
  induction s as [|c s IH]; intros a H; [reflexivity|].
  apply digitsOnly_cons in H. destruct H as [Hc Hs].
  cbn [JS.readDigits decimal]. rewrite Hc. apply IH. exact Hs.
Qed.

(** Reading stops at the first character that is no digit. *)
Lemma readDigits_stops (ds x : string) (acc : option Z) :
  digitsOnly ds = true ->
  (x = EmptyString \/ exists c x', x = String c x' /\ JS.isDigit c = false) ->
  JS.readDigits acc (ds ++ x) = JS.readDigits acc ds.
Proof.
  intros Hd Hx. revert acc. induction ds as [|c ds IH]; intros acc.
  - simpl. destruct Hx as [-> | (c & x' & -> & Hc)]; [reflexivity|].
    cbn [JS.readDigits]. rewrite Hc. reflexivity.
  - apply digitsOnly_cons in Hd. destruct Hd as [Hc Hd].
    cbn [append JS.readDigits]. rewrite Hc. apply IH. exact Hd.
Qed.

Lemma parseInt_digit_first (c : ascii) (s : string) :
  JS.isDigit c = true ->
  JS.parseInt (String c s) = JS.readDigits None (String c s).
Proof.
  intros H. apply isDigit_cases in H. simpl in H.
  repeat (destruct H as [<- | H]; [reflexivity|]). destruct H.
Qed.

Lemma decimal_bound (s : string) :
  forall a : Z,
    digitsOnly s = true -> 0 <= a ->
    a * 10 ^ Z.of_nat (String.length s) <= decimal a s
    < (a + 1) * 10 ^ Z.of_nat (String.length s).
Proof.
  induction s as [|c s IH]; intros a H Ha.
  - simpl. lia.
  - apply digitsOnly_cons in H. destruct H as [Hc Hs].
    pose proof (digitValue_range c Hc) as Hv.
    cbn [decimal String.length].
    rewrite Nat2Z.inj_succ, Z.pow_succ_r by lia.
    specialize (IH (10 * a + JS.digitValue c) Hs ltac:(lia)).
    assert (0 < 10 ^ Z.of_nat (String.length s)) by (apply Z.pow_pos_nonneg; lia).
    nia.
Qed.

(** The closing quote is no digit. *)
Lemma dquote_no_digit : JS.isDigit JS.dquote = false.
Proof. reflexivity. Qed.

(** What [#validateUpdate] parses from a token that the pattern accepts:
    the digits between the quotes, whatever follows the closing quote. *)
Lemma parse_accepted_token (ds rest : string) :
  digitsOnly ds = true -> (1 <= String.length ds <= 3)%nat ->
  JS.parseInt (JS.slice (JS.quoted ds ++ rest) 1 (-1)) = Some (decimal 0 ds)
  /\ 0 <= decimal 0 ds <= 999.
Proof.
  intros Hd Hl. split.
  - unfold JS.quoted. cbn [append]. rewrite slice_strip.
    rewrite string_app_assoc, string_length_app. cbn [append String.length].
    replace (String.length ds + S (String.length rest) - 1)%nat
      with (String.length ds + String.length rest)%nat by lia.
    rewrite substring_app.
    destruct ds as [|c ds]; [simpl in Hl; lia|].
    pose proof Hd as Hd'. apply digitsOnly_cons in Hd'. destruct Hd' as [Hc Hds].
    cbn [append]. rewrite (parseInt_digit_first _ _ Hc).
    change (String c (ds ++ substring 0 (String.length rest)
                                      (String JS.dquote rest)))
      with (String c ds ++ substring 0 (String.length rest)
                                     (String JS.dquote rest)).
    rewrite readDigits_stops.
    + cbn [JS.readDigits]. rewrite Hc. rewrite readDigits_digits by exact Hds.
      reflexivity.
    + exact Hd.
    + destruct rest as [|r rest]; [left; reflexivity|].
      right. cbn [String.length substring]. eexists _, _.
      split; [reflexivity | apply dquote_no_digit].
  - pose proof (decimal_bound ds 0 Hd ltac:(lia)) as Hb.
    assert (10 ^ Z.of_nat (String.length ds) <= 1000).
    { destruct ds as [|c1 [|c2 [|c3 [|c4 ds]]]]; simpl in Hl |- *; lia. }
    lia.
Qed.

(** Whenever the pattern accepts a token, [parseInt] of the token without
    its first and last character is a number from 0 to 999, never [NaN]. *)
Lemma accepted_token_parses (versionStr : string) :
  JS.test FlugzeugWriteService.VERSION_PATTERN versionStr = true ->
  exists version : Z,
    JS.parseInt (JS.slice versionStr 1 (-1)) = Some version
    /\ 0 <= version <= 999.
Proof.
  intros H. apply VERSION_PATTERN_matches_iff in H.
  destruct H as (ds & rest & -> & Hd & Hl).
  exists (decimal 0 ds). apply parse_accepted_token; assumption.
Qed.

(** ** Reading never writes *)

Lemma getMany_world (qb : SelectQueryBuilder) (w : World) :
  snd (Repository.getMany qb w) = logged (Select qb) w.
Proof.
  unfold Repository.getMany. destruct (SQL.execute qb (db w)); reflexivity.
Qed.

Lemma findById_world (id : Z) (mit : bool) (w : World) :
  snd (FlugzeugReadService.findById id mit w)
  = logged (Select (QueryBuilder.buildId id mit)) w.
Proof.
  unfold FlugzeugReadService.findById, Repository.getOne, bind,
    Repository.getMany.
  rewrite execute_buildId. destruct (map _ _); reflexivity.
Qed.

(** What [findById] returns is the row with the identifier, with the first
    model that refers to it. *)
Lemma findById_Ok (id : Z) (mit : bool) (w : World) (f : Flugzeug.t) :
  fst (FlugzeugReadService.findById id mit w) = Ok f ->
  exists (row : DB.FlugzeugRow) (m : DB.ModellRow) (ms : list DB.ModellRow),
    findFlugzeug (db w) id = Some row
    /\ DB.modelleOf (db w) id = m :: ms
    /\ f = SQL.hydrate (QueryBuilder.buildId id mit) (db w) (row, Some m).
Proof.
  intros H.
  destruct (findFlugzeug (db w) id) as [row|] eqn:Hrow.
  2:{ rewrite findById_missing in H by (left; exact Hrow). discriminate H. }
  destruct (DB.modelleOf (db w) id) as [|m ms] eqn:Hm.
  { rewrite findById_missing in H by (right; exact Hm). discriminate H. }
  rewrite (findById_found w id mit row m ms Hrow Hm) in H.
  injection H as <-. exists row, m, ms. auto.
Qed.

(** ** Failing updates *)

Lemma save_Throw_db (e : Flugzeug.t) (w w' : World) (x : Exception) :
  Repository.save e w = (Throw x, w') -> db w' = db w.
Proof.
  unfold Repository.save.
  destruct (match Flugzeug.id e with
            | Some i => DB.flugzeugeWithId (db w) i
            | None => []
            end) as [|row rows]; cbv zeta.
  - destruct (Flugzeug.preis e); [destruct (_ || _)|];
      intros H; inversion H; reflexivity.
  - destruct (Repository.unchanged row e); intros H; inversion H.
Qed.

Lemma validateUpdate_db (patch : Flugzeug.t) (id : Z) (tok : string) (w : World) :
  db (snd (FlugzeugWriteService.validateUpdate patch id tok w)) = db w.
Proof.
  unfold FlugzeugWriteService.validateUpdate.
  destruct (negb _); [reflexivity|]. unfold bind.
  pose proof (findById_world id false w) as Hw.
  destruct (FlugzeugReadService.findById id false w) as [[f | e] w1];
    simpl in Hw; subst w1; [|reflexivity].
  destruct (JS.lt _ _); reflexivity.
Qed.

Lemma update_Throw_db (id : option Z) (patch : Flugzeug.t) (tok : string)
      (w w' : World) (e : Exception) :
  FlugzeugWriteService.update id patch tok w = (Throw e, w') -> db w' = db w.
Proof.
  unfold FlugzeugWriteService.update. destruct id as [id|].
  2:{ intros H; inversion H; reflexivity. }
  unfold bind at 1.
  pose proof (validateUpdate_db patch id tok w) as Hv.
  destruct (FlugzeugWriteService.validateUpdate patch id tok w) as [[cur | x] w1];
    simpl in Hv.
  - unfold bind.
    destruct (Repository.save (Repository.merge cur patch) w1)
      as [[u | x] w2] eqn:Hs; intros H; inversion H; subst.
    apply save_Throw_db in Hs. congruence.
  - intros H; inversion H; subst. exact Hv.
Qed.

(** ** Searching never writes *)

Lemma find_world (cfg : Config) (sk : option Suchkriterien) (w : World) :
  snd (FlugzeugReadService.find cfg sk w) = w
  \/ snd (FlugzeugReadService.find cfg sk w)
     = logged (Select (QueryBuilder.build
                         cfg (match sk with Some o => o | None => [] end))) w.
Proof.
  unfold FlugzeugReadService.find. destruct sk as [sk|].
  - destruct (List.length (keys sk) =? 0)%nat.
    + right. apply getMany_world.
    + destruct (negb _); [left; reflexivity|]. right. unfold bind.
      pose proof (getMany_world (QueryBuilder.build cfg sk) w) as H.
      destruct (Repository.getMany (QueryBuilder.build cfg sk) w) as [[l | e] w1];
        simpl in H; subst w1; [|reflexivity].
      destruct (List.length l =? 0)%nat; reflexivity.
  - right. apply getMany_world.
Qed.

(** ** The text and the parameters of a query *)

Lemma fold_addCriterion_parameters (props : Suchkriterien) :
  forall (q : SelectQueryBuilder) (useWhere : bool),
    parameters (fst (fold_left QueryBuilder.addCriterion props (q, useWhere)))
    = fold_left setParameter props (parameters q).
Proof.
  induction props as [|[k v] props IH]; intros q b; [reflexivity|].
  cbn [fold_left QueryBuilder.addCriterion]. rewrite IH.
  destruct b; reflexivity.
Qed.

Lemma fold_addCriterion_true (props : Suchkriterien) (q : SelectQueryBuilder) :
  wheres (fst (fold_left QueryBuilder.addCriterion props (q, true)))
  = match keys props with
    | [] => wheres q
    | key :: rest =>
        mkWhere Simple ("flugzeug." ++ key ++ " = :" ++ key) :: map equalityOn rest
    end.
Proof.
  destruct props as [|[k v] props]; [reflexivity|].
  cbn [fold_left QueryBuilder.addCriterion keys map fst].
  match goal with
  | |- context [fold_left QueryBuilder.addCriterion ?ps (?q0, false)] =>
      destruct (fold_addCriterion ps q0) as (_ & _ & Hw & _)
  end.
  cbn zeta in Hw. rewrite Hw. reflexivity.
Qed.

Lemma keys_without (sk : Suchkriterien) :
  keys (without "modell" sk) = otherKeys sk.
Proof.
  unfold otherKeys, keys, without.
  induction sk as [|[k v] sk IH]; [reflexivity|].
  cbn [filter map fst]. destruct (String.eqb k "modell"); cbn [negb map fst];
    rewrite IH; reflexivity.
Qed.

(** The conditions of [build], in closed form: they depend on the keys of the
    criteria, on whether the model name is a string and on the database
    type, and on nothing else. *)
Lemma build_wheres (cfg : Config) (sk : Suchkriterien) :
  wheres (QueryBuilder.build cfg sk)
  = if hasModellString sk then
      mkWhere Simple
              ("modell.modell "
               ++ (if String.eqb (typeOrmModuleOptions_type cfg) "postgres"
                   then "ilike" else "like")
               ++ " :modell")
      :: map equalityOn (otherKeys sk)
    else
      match otherKeys sk with
      | [] => []
      | key :: rest =>
          mkWhere Simple ("flugzeug." ++ key ++ " = :" ++ key)
          :: map equalityOn rest
      end.
Proof.
  unfold QueryBuilder.build, hasModellString. rewrite <- keys_without.
  destruct (lookup "modell" sk) as [[| |b|n|m]|];
    try (rewrite fold_addCriterion_true; reflexivity).
  match goal with
  | |- context [fold_left QueryBuilder.addCriterion ?ps (?q0, false)] =>
      destruct (fold_addCriterion ps q0) as (_ & _ & Hw & _)
  end.
  cbn zeta in Hw. rewrite Hw. reflexivity.
Qed.

Lemma build_parameters (cfg : Config) (sk : Suchkriterien) :
  parameters (QueryBuilder.build cfg sk)
  = fold_left setParameter (without "modell" sk)
              (match lookup "modell" sk with
               | Some (JS.VString m) => [("modell", JS.VString ("%" ++ m ++ "%"))]
               | _ => []
               end).
Proof.
  unfold QueryBuilder.build.
  destruct (lookup "modell" sk) as [[| |b|n|m]|];
    rewrite fold_addCriterion_parameters; reflexivity.
Qed.

Lemma lookup_setParameter_same (ps : Parameters) (key : string) (v : JS.Value) :
  lookup key (setParameter ps (key, v)) = Some v.
Proof.
  unfold setParameter. cbn [fst].
  induction ps as [|[k' v'] ps IH]; cbn [filter fst app lookup].
  - rewrite String.eqb_refl. reflexivity.
  - destruct (String.eqb_spec k' key) as [-> | Hk]; cbn [negb app lookup].
    + exact IH.
    + destruct (String.eqb_spec k' key); [contradiction | exact IH].
Qed.

Lemma lookup_fold_setParameter (props : Suchkriterien) :
  forall (ps : Parameters) (key : string) (v : JS.Value),
    NoDup (keys props) -> In (key, v) props ->
    lookup key (fold_left setParameter props ps) = Some v.
Proof.
  induction props as [|[k x] props IH]; intros ps key v Hn Hin; [destruct Hin|].
  cbn [keys map fst] in Hn. inversion Hn as [|? ? Hk Hn']; subst.
  cbn [fold_left]. destruct Hin as [E | Hin].
  - injection E as -> ->.
    rewrite lookup_setParameters_other.
    + apply lookup_setParameter_same.
    + intros kv Hkv. destruct (String.eqb_spec (fst kv) key) as [E|]; [|reflexivity].
      exfalso. apply Hk. rewrite <- E. apply in_map. exact Hkv.
  - apply IH; assumption.
Qed.

Lemma NoDup_keys_without (key : string) (sk : Suchkriterien) :
  NoDup (keys sk) -> NoDup (keys (without key sk)).
Proof.
  unfold keys, without. induction sk as [|[k v] sk IH]; intros H; [constructor|].
  cbn [map fst] in H. inversion H as [|? ? Hk Hn]; subst.
  cbn [filter fst]. destruct (negb (String.eqb k key)); [|auto].
  cbn [map fst]. constructor; [|auto].
  intros Hin. apply Hk. apply in_map_iff in Hin.
  destruct Hin as (kv & E & Hkv). apply filter_In in Hkv.
  apply in_map_iff. exists kv. tauto.
Qed.

(** ** More on deleting *)

Lemma delete_found (w : World) (id : Z) (row : DB.FlugzeugRow)
      (m : DB.ModellRow) (ms : list DB.ModellRow) :
  findFlugzeug (db w) id = Some row ->
  DB.modelleOf (db w) id = m :: ms ->
  FlugzeugWriteService.delete id w
  = (Ok true,
     {| db := afterDelete (db w) id m;
        log := (log w
                ++ [Select (QueryBuilder.buildId id true);
                    StartTransaction;
                    Delete TModell (DB.m_id m)]
                ++ map (fun s => Delete TSitzplatz (DB.s_id s))
                       (DB.sitzplaetzeOf (db w) id)
                ++ [Delete TFlugzeug id; Commit])%list |}).
Proof.
  intros Hrow Hm.
  pose proof (findById_found w id true row m ms Hrow Hm) as Hfind.
  unfold FlugzeugWriteService.delete. unfold bind at 1. rewrite Hfind.
  cbn [SQL.hydrate Flugzeug.modell Flugzeug.sitzplaetze option_map snd fst
       SQL.hydrateModell Modell.id].
  rewrite relationOf_sitzplaetze_buildId.
  destruct (findFlugzeug_id _ _ _ Hrow) as [Hid _]. rewrite Hid.
  unfold bind at 1. unfold Repository.transaction.
  unfold bind at 1. unfold bind at 1.
  cbn [Repository.delete ret logged db log].
  unfold bind at 1. rewrite deleteSitzplaetze_run. cbn [db log].
  cbn [Repository.delete ret Repository.affected logged db log].
  assert (Hc : (0 <? Repository.countRows
                       TFlugzeug id
                       (fold_left deleteSeat (DB.sitzplaetzeOf (db w) id)
                                  (Repository.deleteRows TModell (DB.m_id m) (db w))))
               = true).
  { cbn [Repository.countRows]. rewrite deleteSeats_flugzeug.
    cbn [Repository.deleteRows DB.flugzeug].
    unfold findFlugzeug, DB.flugzeugeWithId in Hrow. unfold Repository.count.
    destruct (filter _ (DB.flugzeug (db w))); [discriminate|].
    simpl. apply Z.ltb_lt. lia. }
  rewrite Hc. unfold afterDelete, ret, logged. cbn [db log].
  rewrite <- !app_assoc. reflexivity.
Qed.

Lemma afterDelete_flugzeug (d : DB.t) (id : Z) (m : DB.ModellRow) :
  DB.flugzeug (afterDelete d id m)
  = filter (fun f => negb (DB.f_id f =? id)) (DB.flugzeug d).
Proof.
  unfold afterDelete. cbn [Repository.deleteRows DB.flugzeug].
  rewrite deleteSeats_flugzeug. reflexivity.
Qed.

Lemma afterDelete_modell (d : DB.t) (id : Z) (m : DB.ModellRow) :
  DB.modell (afterDelete d id m)
  = filter (fun x => negb (DB.m_id x =? DB.m_id m)) (DB.modell d).
Proof.
  unfold afterDelete. cbn [Repository.deleteRows DB.modell].
  rewrite deleteSeats_modell. reflexivity.
Qed.

Lemma deleteSeats_sitzplatz_eq (l : list DB.SitzplatzRow) (d : DB.t) :
  DB.sitzplatz (fold_left deleteSeat l d)
  = filter (fun s => negb (existsb (fun x => DB.s_id s =? DB.s_id x) l))
           (DB.sitzplatz d).
Proof.
  revert d. induction l as [|x l IH]; intros d.
  - simpl. symmetry. apply filter_all.
  - cbn [fold_left]. rewrite IH. cbn [deleteSeat Repository.deleteRows DB.sitzplatz].
    induction (DB.sitzplatz d) as [|s ss IHs]; [reflexivity|].
    cbn [filter existsb]. destruct (DB.s_id s =? DB.s_id x); cbn [negb orb].
    + exact IHs.
    + cbn [filter]. rewrite IHs. reflexivity.
Qed.

Lemma afterDelete_sitzplatz (d : DB.t) (id : Z) (m : DB.ModellRow) :
  DB.sitzplatz (afterDelete d id m)
  = filter (fun s => negb (existsb (fun x => DB.s_id s =? DB.s_id x)
                                   (DB.sitzplaetzeOf d id)))
           (DB.sitzplatz d).
Proof.
  unfold afterDelete. cbn [Repository.deleteRows DB.sitzplatz].
  rewrite deleteSeats_sitzplatz_eq. reflexivity.
Qed.

Lemma afterDelete_gone (d : DB.t) (id : Z) (m : DB.ModellRow) :
  findFlugzeug (afterDelete d id m) id = None.
Proof.
  unfold findFlugzeug, DB.flugzeugeWithId. rewrite afterDelete_flugzeug.
  rewrite filter_nil_iff; [reflexivity|].
  intros x Hx. apply filter_In in Hx. destruct Hx as [_ Hx].
  destruct (DB.f_id x =? id); [discriminate | reflexivity].
Qed.

(** [delete] ends in one of two ways. *)
Lemma delete_result (w : World) (id : Z) :
  fst (FlugzeugWriteService.delete id w) = Ok true
  \/ fst (FlugzeugWriteService.delete id w)
     = Throw (NotFoundException (KeinFlugzeugMitId (Some id))).
Proof.
  destruct (findFlugzeug (db w) id) as [row|] eqn:Hrow.
  - destruct (DB.modelleOf (db w) id) as [|m ms] eqn:Hm.
    + right. unfold FlugzeugWriteService.delete. unfold bind at 1.
      rewrite findById_missing by (right; exact Hm). reflexivity.
    + left. rewrite (delete_found w id row m ms Hrow Hm). reflexivity.
  - right. rewrite delete_missing by exact Hrow. reflexivity.
Qed.

Lemma filter_filter_implied {A} (p q : A -> bool) (l : list A) :
  (forall x, In x l -> p x = true -> q x = true) ->
  filter p (filter q l) = filter p l.
Proof.
  induction l as [|a l IH]; intros H; [reflexivity|].
  cbn [filter]. destruct (q a) eqn:Hq; cbn [filter].
  - rewrite IH by (intros; apply H; [now right | assumption]). reflexivity.
  - destruct (p a) eqn:Hp.
    + rewrite (H a (or_introl eq_refl) Hp) in Hq. discriminate.
    + apply IH. intros; apply H; [now right | assumption].
Qed.

Lemma NoDup_map_eq {A B} (f : A -> B) (l : list A) (x y : A) :
  NoDup (map f l) -> In x l -> In y l -> f x = f y -> x = y.
Proof.
  induction l as [|a l IH]; intros Hn Hx Hy E; [destruct Hx|].
  cbn [map] in Hn. inversion Hn as [|? ? Ha Hn']; subst.
  destruct Hx as [-> | Hx], Hy as [-> | Hy]; auto.
  - exfalso. apply Ha. rewrite E. apply in_map. exact Hy.
  - exfalso. apply Ha. rewrite <- E. apply in_map. exact Hx.
Qed.

Lemma refers_inj (fk : option Z) (a b : Z) :
  DB.refers fk a = true -> DB.refers fk b = true -> a = b.
Proof.
  destruct fk as [i|]; simpl; [|discriminate].
  intros Ha Hb. apply Z.eqb_eq in Ha, Hb. congruence.
Qed.

(** With unique primary keys, deleting one aircraft leaves the rows of every
    other aircraft in place. *)
Lemma afterDelete_frame (d : DB.t) (id other : Z) (m : DB.ModellRow) :
  uniqueKeys d -> In m (DB.modelleOf d id) -> other <> id ->
  DB.flugzeugeWithId (afterDelete d id m) other = DB.flugzeugeWithId d other
  /\ DB.modelleOf (afterDelete d id m) other = DB.modelleOf d other
  /\ DB.sitzplaetzeOf (afterDelete d id m) other = DB.sitzplaetzeOf d other.
Proof.
  intros [Um Us] Hm Hne. apply filter_In in Hm. destruct Hm as [Hm Hr].
  split; [|split].
  - unfold DB.flugzeugeWithId. rewrite afterDelete_flugzeug.
    apply filter_filter_implied.
    intros x _ Hx. apply Z.eqb_eq in Hx.
    destruct (Z.eqb_spec (DB.f_id x) id); [congruence | reflexivity].
  - unfold DB.modelleOf. rewrite afterDelete_modell.
    apply filter_filter_implied. intros x Hx Hrx.
    destruct (Z.eqb_spec (DB.m_id x) (DB.m_id m)) as [E|]; [|reflexivity].
    exfalso. apply Hne.
    rewrite (NoDup_map_eq DB.m_id _ x m Um Hx Hm E) in Hrx.
    eapply refers_inj; eassumption.
  - unfold DB.sitzplaetzeOf at 1 2. rewrite afterDelete_sitzplatz.
    apply filter_filter_implied. intros x Hx Hrx.
    destruct (existsb _ _) eqn:E; [|reflexivity].
    exfalso. apply Hne. apply existsb_exists in E.
    destruct E as (y & Hy & E). apply Z.eqb_eq in E.
    apply filter_In in Hy. destruct Hy as [Hy Hry].
    rewrite (NoDup_map_eq DB.s_id _ x y Us Hx Hy E) in Hrx.
    eapply refers_inj; eassumption.
Qed.

(** ** Numbers written and read back *)

Lemma digitChar_digit (d : Z) :
  0 <= d <= 9 ->
  JS.isDigit (JS.digitChar d) = true /\ JS.digitValue (JS.digitChar d) = d
  /\ (1 <= d -> (49 <= nat_of_ascii (JS.digitChar d) <= 57)%nat).
Proof.
  intros H.
  assert (E : d = 0 \/ d = 1 \/ d = 2 \/ d = 3 \/ d = 4 \/ d = 5 \/ d = 6
              \/ d = 7 \/ d = 8 \/ d = 9) by lia.
  repeat (destruct E as [-> | E];
          [split; [reflexivity | split; [reflexivity | intros ?; cbv; lia]]|]).
  subst. split; [reflexivity | split; [reflexivity | intros ?; cbv; lia]].
Qed.

Lemma digitsOf_app (fuel : nat) :
  forall (n : Z) (acc : string),
    JS.digitsOf fuel n acc = JS.digitsOf fuel n EmptyString ++ acc.
Proof.
  induction fuel as [|f IH]; intros n acc; cbn [JS.digitsOf]; [reflexivity|].
  destruct (n <? 10); [reflexivity|].
  rewrite (IH (n / 10) (String _ acc)), (IH (n / 10) (String _ EmptyString)).
  rewrite string_app_assoc. reflexivity.
Qed.

Lemma digitsOnly_app (a b : string) :
  digitsOnly (a ++ b) = digitsOnly a && digitsOnly b.
Proof.
  induction a as [|c a IH]; cbn [append digitsOnly]; [reflexivity|].
  rewrite IH, andb_assoc. reflexivity.
Qed.

Lemma decimal_app (a b : string) :
  forall x : Z, decimal x (a ++ b) = decimal (decimal x a) b.
Proof. induction a as [|c a IH]; intros x; cbn [append decimal]; auto. Qed.

(** The digits of a number that the fuel suffices for. *)
Lemma digitsOf_spec (fuel : nat) :
  forall n : Z,
    0 <= n < 10 ^ Z.of_nat (S fuel) ->
    digitsOnly (JS.digitsOf fuel n EmptyString) = true
    /\ decimal 0 (JS.digitsOf fuel n EmptyString) = n
    /\ (forall k : nat, (1 <= k)%nat -> n < 10 ^ Z.of_nat k ->
        (1 <= String.length (JS.digitsOf fuel n EmptyString) <= k)%nat)
    /\ (1 <= n ->
        exists c t, JS.digitsOf fuel n EmptyString = String c t
                    /\ (49 <= nat_of_ascii c <= 57)%nat).
Proof.
  assert (Base : forall n, 0 <= n < 10 ->
            digitsOnly (String (JS.digitChar (n mod 10)) EmptyString) = true
            /\ decimal 0 (String (JS.digitChar (n mod 10)) EmptyString) = n
            /\ (forall k : nat, (1 <= k)%nat -> n < 10 ^ Z.of_nat k ->
                (1 <= String.length (String (JS.digitChar (n mod 10)) EmptyString)
                 <= k)%nat)
            /\ (1 <= n ->
                exists c t, String (JS.digitChar (n mod 10)) EmptyString = String c t
                            /\ (49 <= nat_of_ascii c <= 57)%nat)).
  { intros n Hn. rewrite Z.mod_small by lia.
    destruct (digitChar_digit n ltac:(lia)) as (Hd & Hv & Hc).
    cbn [digitsOnly decimal String.length]. rewrite Hd, Hv.
    repeat split; try reflexivity; try lia.
    intros H1. eexists _, _. split; [reflexivity | auto]. }
  induction fuel as [|f IH]; intros n Hn.
  - cbn [JS.digitsOf]. apply Base. change (10 ^ Z.of_nat 1) with 10 in Hn. lia.
  - cbn [JS.digitsOf]. destruct (Z.ltb_spec n 10) as [Hlt | Hge].
    + apply Base. lia.
    + rewrite digitsOf_app.
      assert (Hdiv : 0 <= n / 10 < 10 ^ Z.of_nat (S f)).
      { rewrite (Nat2Z.inj_succ (S f)), Z.pow_succ_r in Hn by lia.
        split; [apply Z.div_pos; lia | apply Z.div_lt_upper_bound; lia]. }
      destruct (IH (n / 10) Hdiv) as (Hd & Hv & Hl & Hc).
      pose proof (Z.mod_pos_bound n 10 ltac:(lia)) as Hm.
      destruct (digitChar_digit (n mod 10) ltac:(lia)) as (Hd' & Hv' & _).
      split; [|split; [|split]].
      * rewrite digitsOnly_app, Hd. cbn [digitsOnly]. rewrite Hd'. reflexivity.
      * rewrite decimal_app, Hv. cbn [decimal]. rewrite Hv'.
        pose proof (Z.div_mod n 10 ltac:(lia)). lia.
      * intros k Hk Hnk. rewrite string_length_app. cbn [String.length].
        destruct k as [|[|k]]; [lia | change (10 ^ Z.of_nat 1) with 10 in Hnk; lia|].
        assert (Hk' : n / 10 < 10 ^ Z.of_nat (S k)).
        { rewrite (Nat2Z.inj_succ (S k)), Z.pow_succ_r in Hnk by lia.
          apply Z.div_lt_upper_bound; lia. }
        specialize (Hl (S k) ltac:(lia) Hk'). lia.
      * intros _. assert (H1 : 1 <= n / 10) by (apply Z.div_le_lower_bound; lia).
        destruct (Hc H1) as (c & t & E & Hr). rewrite E. cbn [append].
        eexists _, _. split; [reflexivity | exact Hr].
Qed.

Lemma fuel_suffices (n : Z) :
  0 <= n -> n < 10 ^ Z.of_nat (S (Z.to_nat (Z.log2 n))).
Proof.
  intros Hn. destruct (Z.eq_dec n 0) as [-> | Hne]; [reflexivity|].
  pose proof (Z.log2_nonneg n) as Hl.
  destruct (Z.log2_spec n ltac:(lia)) as [_ Hu].
  rewrite Nat2Z.inj_succ, Z2Nat.id by lia.
  eapply Z.lt_le_trans; [exact Hu|].
  apply Z.pow_le_mono_l. lia.
Qed.

(** The notation of a number that is not negative: digits only, at least
    one, no more than the size of the number asks for, and no leading zero
    unless the number is zero. *)
Lemma numberToString_nonneg (n : Z) :
  0 <= n ->
  digitsOnly (JS.numberToString n) = true
  /\ decimal 0 (JS.numberToString n) = n
  /\ (forall k : nat, (1 <= k)%nat -> n < 10 ^ Z.of_nat k ->
      (1 <= String.length (JS.numberToString n) <= k)%nat)
  /\ (1 <= n ->
      exists c t, JS.numberToString n = String c t
                  /\ (49 <= nat_of_ascii c <= 57)%nat).
Proof.
  intros Hn. unfold JS.numberToString.
  replace (n <? 0) with false by (symmetry; apply Z.ltb_ge; lia).
  apply digitsOf_spec. split; [exact Hn | apply fuel_suffices; exact Hn].
Qed.




(** ** Updates that go through *)

Lemma validateUpdate_accepted (w : World) (id : Z) (patch : Flugzeug.t)
      (ds rest : string) (row : DB.FlugzeugRow) :
  digitsOnly ds = true -> (1 <= String.length ds <= 3)%nat ->
  persisted (db w) id row ->
  exists m : DB.ModellRow,
    FlugzeugWriteService.validateUpdate patch id (JS.quoted ds ++ rest) w
    = (if decimal 0 ds <? DB.f_version row
       then Throw (VersionOutdatedException (Some (decimal 0 ds)))
       else Ok (SQL.hydrate (QueryBuilder.buildId id false) (db w) (row, Some m)),
       logged (Select (QueryBuilder.buildId id false)) w).
Proof.
  intros Hd Hl Hp.
  destruct (persisted_findById w id false row Hp) as (m & _ & Hfind).
  destruct (parse_accepted_token ds rest Hd Hl) as [Hparse _].
  exists m.
  unfold FlugzeugWriteService.validateUpdate.
  rewrite (VERSION_PATTERN_prefix ds rest Hd Hl), Hparse. cbn [negb].
  unfold bind. rewrite Hfind.
  cbn [SQL.hydrate Flugzeug.version fst JS.lt].
  destruct (decimal 0 ds <? DB.f_version row); reflexivity.
Qed.

(** An update with a token that is not behind, and the patch of a PUT
    request, goes through.  The version counts up by one and is returned,
    unless the request asks for nothing new: then the version stays and the
    store with it.  The aircraft stays persisted. *)
Lemma update_succeeds (w : World) (id : Z) (flugzeugDTO : FlugzeugDtoOhneRef.t)
      (now : Timestamp) (ds rest : string) (row : DB.FlugzeugRow) :
  digitsOnly ds = true -> (1 <= String.length ds <= 3)%nat ->
  persisted (db w) id row ->
  DB.f_version row <= decimal 0 ds ->
  exists (w' : World) (row' : DB.FlugzeugRow),
    FlugzeugWriteService.update
      (Some id) (flugzeugDtoOhneRefToFlugzeug flugzeugDTO now)
      (JS.quoted ds ++ rest) w
    = (Ok (Some (versionAfter row flugzeugDTO now)), w')
    /\ persisted (db w') id row'
    /\ DB.f_version row' = versionAfter row flugzeugDTO now
    /\ (changesNothing row flugzeugDTO now = true -> db w' = db w).
Proof.
  intros Hd Hl Hp Hv.
  destruct (validateUpdate_accepted
              w id (flugzeugDtoOhneRefToFlugzeug flugzeugDTO now) ds rest row
              Hd Hl Hp)
    as (m & Hval).
  replace (decimal 0 ds <? DB.f_version row) with false in Hval
    by (symmetry; apply Z.ltb_ge; exact Hv).
  set (w1 := logged (Select (QueryBuilder.buildId id false)) w) in *.
  destruct Hp as [Hrow Hm].
  destruct (findFlugzeug_id _ _ _ Hrow) as [Hid _].
  set (merged :=
         Repository.merge
           (SQL.hydrate (QueryBuilder.buildId id false) (db w) (row, Some m))
           (flugzeugDtoOhneRefToFlugzeug flugzeugDTO now)) in *.
  assert (He : Flugzeug.id merged = Some id)
    by (unfold merged; cbn; rewrite Hid; reflexivity).
  destruct (save_existing merged w1 id row He Hrow)
    as (u & w2 & Hsave & _ & Hver & Hnew & Hmod & _ & _ & Hsame).
  unfold merged in Hver, Hnew, Hsame.
  rewrite unchanged_patch in Hver, Hnew, Hsame.
  destruct (saved_row_patch (QueryBuilder.buildId id false) (db w) row (Some m)
                            flugzeugDTO now _ eq_refl)
    as (_ & _ & _ & _ & _ & _ & Rv).
  eexists w2, _. split; [|split; [split; [exact Hnew|] | split; [exact Rv|exact Hsame]]].
  - unfold FlugzeugWriteService.update. unfold bind at 1. rewrite Hval.
    fold merged. unfold bind. rewrite Hsave. cbn [ret]. rewrite Hver, <- Rv.
    destruct (changesNothing row flugzeugDTO now); reflexivity.
  - unfold DB.modelleOf. rewrite Hmod. exact Hm.
Qed.

(** A request that repeats what is stored, at the stored time of the last
    change: the answer names the version as it is, and the store stays as it
    was. *)
Example put_that_asks_for_nothing_new :
  fst (FlugzeugWriteController.put
         {| FlugzeugDtoOhneRef.preis := 25000;
            FlugzeugDtoOhneRef.einsatzbereit := None;
            FlugzeugDtoOhneRef.baujahr := None |}
         2 (Some (JS.quoted "5")) 20 Sample.world)
  = Ok {| FlugzeugWriteController.status := None;
          FlugzeugWriteController.headers := [("ETag", JS.quoted "5")];
          FlugzeugWriteController.body := None |}
  /\ db (snd (FlugzeugWriteController.put
                {| FlugzeugDtoOhneRef.preis := 25000;
                   FlugzeugDtoOhneRef.einsatzbereit := None;
                   FlugzeugDtoOhneRef.baujahr := None |}
                2 (Some (JS.quoted "5")) 20 Sample.world))
     = Sample.store.
Proof. split; reflexivity. Qed.

(** The token that stands for a version from 0 to 999. *)
Lemma quoted_version (v : Z) :
  0 <= v <= 999 ->
  digitsOnly (JS.numberToString v) = true
  /\ (1 <= String.length (JS.numberToString v) <= 3)%nat
  /\ decimal 0 (JS.numberToString v) = v.
Proof.
  intros Hv.
  destruct (numberToString_nonneg v ltac:(lia)) as (Hd & Hdec & Hl & _).
  split; [exact Hd|]. split; [|exact Hdec].
  apply (Hl 3%nat); [lia|]. change (10 ^ Z.of_nat 3) with 1000. lia.
Qed.

(** ** Updates that are refused *)

(** What [#validateUpdate] sends: nothing, or the one query of [findById]. *)
Lemma validateUpdate_world (patch : Flugzeug.t) (id : Z) (tok : string) (w : World) :
  snd (FlugzeugWriteService.validateUpdate patch id tok w) = w
  \/ snd (FlugzeugWriteService.validateUpdate patch id tok w)
     = logged (Select (QueryBuilder.buildId id false)) w.
Proof.
  unfold FlugzeugWriteService.validateUpdate.
  destruct (negb _); [left; reflexivity|]. right. unfold bind.
  pose proof (findById_world id false w) as Hw.
  destruct (FlugzeugReadService.findById id false w) as [[f | e] w1];
    simpl in Hw; subst w1; [|reflexivity].
  destruct (JS.lt _ _); reflexivity.
Qed.

(** [save] fails with an error of the database only. *)
Lemma save_Throw (e : Flugzeug.t) (w w' : World) (x : Exception) :
  Repository.save e w = (Throw x, w') -> exists sql, x = QueryFailedError sql.
Proof.
  intros H. destruct (save_result e w) as [[u Hu] | [sql Hu]];
    rewrite H in Hu; simpl in Hu; [discriminate|].
  exists sql. congruence.
Qed.

(** ** Creating *)

Lemma insertSitzplaetze_spec (fid : Z) (l : list Sitzplatz.t) :
  forall next : Z,
    map DB.s_sitzplatzklasse (Repository.insertSitzplaetze fid next l)
    = map (fun s => Repository.orKeep (Sitzplatz.sitzplatzklasse s) "") l
    /\ forall s, In s (Repository.insertSitzplaetze fid next l) ->
                 DB.s_flugzeug_id s = Some fid.
Proof.
  induction l as [|x l IH]; intros next; cbn [Repository.insertSitzplaetze map].
  - split; [reflexivity | intros s []].
  - destruct (IH (next + 1)) as [H1 H2]. split; [rewrite H1; reflexivity|].
    intros s [<- | Hs]; [reflexivity | auto].
Qed.

Lemma filter_all_true {A} (p : A -> bool) (l : list A) :
  (forall x, In x l -> p x = true) -> filter p l = l.
Proof.
  induction l as [|a l IH]; intros H; cbn [filter]; [reflexivity|].
  rewrite (H a (or_introl eq_refl)), IH; [reflexivity|].
  intros; apply H; now right.
Qed.

(** A key that is not in use is none of the keys of the table. *)
Lemma inUse_one (k : Z) (used : list Z) :
  Repository.inUse [k] used = false -> ~ In k used.
Proof.
  unfold Repository.inUse. cbn [existsb]. rewrite orb_false_r.
  intros H Hin.
  assert (X : existsb (Z.eqb k) used = true)
    by (apply existsb_exists; exists k; split; [exact Hin | apply Z.eqb_refl]).
  congruence.
Qed.

(** Saving an entity that has no identifier yet, when it goes through: the
    entity has a price, its identifier is the next value of the sequence and
    was not in use, and the store has gained its row, with the row of its
    model and the rows of its seats. *)
Lemma save_new (e u : Flugzeug.t) (w w' : World) :
  Flugzeug.id e = None ->
  Repository.save e w = (Ok u, w') ->
  exists p : Decimal,
    Flugzeug.preis e = Some p
    /\ ~ In (DB.flugzeug_id_seq (db w) + 1) (map DB.f_id (DB.flugzeug (db w)))
    /\ Flugzeug.id u = Some (DB.flugzeug_id_seq (db w) + 1)
    /\ Flugzeug.modell u = Flugzeug.modell e
    /\ log w' = (log w ++ [Save e])%list
    /\ DB.flugzeug (db w')
       = (DB.flugzeug (db w)
          ++ [ {| DB.f_id := DB.flugzeug_id_seq (db w) + 1;
                  DB.f_version := 1;
                  DB.f_preis := p;
                  DB.f_einsatzbereit := Flugzeug.einsatzbereit e;
                  DB.f_baujahr := Flugzeug.baujahr e;
                  DB.f_erzeugt := Repository.orKeep (Flugzeug.erzeugt e) 0;
                  DB.f_aktualisiert :=
                    Repository.orKeep (Flugzeug.aktualisiert e) 0 |} ])%list
    /\ DB.modell (db w')
       = (DB.modell (db w)
          ++ match Flugzeug.modell e with
             | Some m =>
                 [ {| DB.m_id := DB.modell_id_seq (db w) + 1;
                      DB.m_modell := Repository.orKeep (Modell.modell m) "";
                      DB.m_flugzeug_id := Some (DB.flugzeug_id_seq (db w) + 1) |} ]
             | None => []
             end)%list
    /\ DB.sitzplatz (db w')
       = (DB.sitzplatz (db w)
          ++ match Flugzeug.sitzplaetze e with
             | Some l =>
                 Repository.insertSitzplaetze
                   (DB.flugzeug_id_seq (db w) + 1)
                   (DB.sitzplatz_id_seq (db w) + 1) l
             | None => []
             end)%list.
Proof.
  intros Hid. unfold Repository.save. rewrite Hid. cbv zeta.
  destruct (Flugzeug.preis e) as [p|]; [|discriminate].
  cbn [Repository.orKeep].
  destruct (Repository.inUse [DB.flugzeug_id_seq (db w) + 1] _) eqn:Hf;
    [discriminate|].
  cbn [orb]. destruct (_ || _); [discriminate|].
  intros H. injection H as <- <-.
  exists p. split; [reflexivity|]. split; [apply inUse_one; exact Hf|].
  cbn [db log logged DB.flugzeug DB.modell DB.sitzplatz Flugzeug.id
       Flugzeug.modell].
  repeat split; reflexivity.
Qed.

(** After an aircraft has been stored under an identifier that was not in
    use, the store holds exactly its row, its model and its seats under that
    identifier. *)
Lemma rows_of_new (d d' : DB.t) (fid : Z) (row : DB.FlugzeugRow)
      (models : list DB.ModellRow) (seats : list DB.SitzplatzRow) :
  referentialIntegrity d ->
  ~ In fid (map DB.f_id (DB.flugzeug d)) ->
  DB.f_id row = fid ->
  (forall m, In m models -> DB.m_flugzeug_id m = Some fid) ->
  (forall s, In s seats -> DB.s_flugzeug_id s = Some fid) ->
  DB.flugzeug d' = (DB.flugzeug d ++ [row])%list ->
  DB.modell d' = (DB.modell d ++ models)%list ->
  DB.sitzplatz d' = (DB.sitzplatz d ++ seats)%list ->
  findFlugzeug d fid = None
  /\ findFlugzeug d' fid = Some row
  /\ DB.modelleOf d' fid = models
  /\ DB.sitzplaetzeOf d' fid = seats.
Proof.
  intros [RIm RIs] Hnot Hrow Hms Hss Ef Em Es.
  assert (Hnone : DB.flugzeugeWithId d fid = []).
  { unfold DB.flugzeugeWithId. apply filter_nil_iff.
    intros x Hx. destruct (Z.eqb_spec (DB.f_id x) fid) as [E|]; [|reflexivity].
    exfalso. apply Hnot. rewrite <- E. apply in_map. exact Hx. }
  split; [|split; [|split]].
  - unfold findFlugzeug. rewrite Hnone. reflexivity.
  - unfold findFlugzeug, DB.flugzeugeWithId. rewrite Ef, filter_app.
    fold (DB.flugzeugeWithId d fid). rewrite Hnone.
    cbn [app filter]. rewrite Hrow, Z.eqb_refl. reflexivity.
  - unfold DB.modelleOf. rewrite Em, filter_app, filter_nil_iff.
    + cbn [app]. apply filter_all_true. intros m Hm.
      rewrite (Hms m Hm). cbn [DB.refers]. apply Z.eqb_refl.
    + intros m Hm. destruct (DB.m_flugzeug_id m) as [i|] eqn:Ei; [|reflexivity].
      cbn [DB.refers]. destruct (Z.eqb_spec i fid) as [E|]; [|reflexivity].
      exfalso. apply Hnot. rewrite <- E. eapply RIm; eassumption.
  - unfold DB.sitzplaetzeOf. rewrite Es, filter_app, filter_nil_iff.
    + cbn [app]. apply filter_all_true. intros s Hs.
      rewrite (Hss s Hs). cbn [DB.refers]. apply Z.eqb_refl.
    + intros s Hs. destruct (DB.s_flugzeug_id s) as [i|] eqn:Ei; [|reflexivity].
      cbn [DB.refers]. destruct (Z.eqb_spec i fid) as [E|]; [|reflexivity].
      exfalso. apply Hnot. rewrite <- E. eapply RIs; eassumption.
Qed.

(** ** Identifiers in a location *)



(* ================================================================== *)
(** * The further properties, one by one *)
(* ================================================================== *)

(** X1.  With an identifier given, [update] fails with
    [VersionInvalidException], carrying the token, exactly when the token
    does not begin with a quote, one to three digits and a quote. *)
Theorem update_VersionInvalid_iff_no_token_start
        (w : World) (id : Z) (patch : Flugzeug.t) (version : string) :
  fst (FlugzeugWriteService.update (Some id) patch version w)
  = Throw (VersionInvalidException version)
  <-> ~ startsWithToken version.
Proof.
  split.
  - intros H Hs. apply VERSION_PATTERN_matches_iff in Hs.
    assert (Hx : exists v,
               fst (FlugzeugWriteService.update (Some id) patch version w)
               = Throw (VersionInvalidException v)) by eauto.
    apply update_VersionInvalid_iff in Hx. congruence.
  - intros Hs.
    destruct (JS.test FlugzeugWriteService.VERSION_PATTERN version) eqn:Ht.
    + exfalso. apply Hs. apply VERSION_PATTERN_matches_iff. exact Ht.
    + unfold FlugzeugWriteService.update, FlugzeugWriteService.validateUpdate.
      rewrite Ht. reflexivity.
Qed.

(** X2.  Whenever the pattern accepts a token, what [#validateUpdate] parses
    from it is a number from 0 to 999, never [NaN]. *)
Theorem accepted_token_is_number_below_1000 (versionStr : string) :
  JS.test FlugzeugWriteService.VERSION_PATTERN versionStr = true ->
  exists version : Z,
    JS.parseInt (JS.slice versionStr 1 (-1)) = Some version
    /\ 0 <= version <= 999.
Proof.
  intros H. apply VERSION_PATTERN_matches_iff in H.
  destruct H as (ds & rest & -> & Hd & Hl).
  exists (decimal 0 ds). apply parse_accepted_token; assumption.
Qed.

Lemma accepted_token_is_number_below_1000_witness :
  JS.test FlugzeugWriteService.VERSION_PATTERN (JS.quoted "042" ++ "; x") = true
  /\ exists version : Z,
       JS.parseInt (JS.slice (JS.quoted "042" ++ "; x") 1 (-1)) = Some version
       /\ 0 <= version <= 999.
Proof.
  split; [reflexivity|].
  apply (accepted_token_is_number_below_1000 (JS.quoted "042" ++ "; x")).
  reflexivity.
Defined.

(** X3.  Once the persisted version of an aircraft is 1000 or more, no
    update of it goes through, whatever the token: the token is refused as
    invalid, or the number read from it, at most 999, is behind. *)
Theorem update_blocked_from_version_1000
        (w : World) (id : Z) (row : DB.FlugzeugRow)
        (patch : Flugzeug.t) (version : string) :
  persisted (db w) id row ->
  1000 <= DB.f_version row ->
  fst (FlugzeugWriteService.update (Some id) patch version w)
  = Throw (VersionInvalidException version)
  \/ exists parsed : Z,
       parsed <= 999
       /\ fst (FlugzeugWriteService.update (Some id) patch version w)
          = Throw (VersionOutdatedException (Some parsed)).
Proof.
  intros Hp Hver.
  unfold FlugzeugWriteService.update, FlugzeugWriteService.validateUpdate.
  destruct (JS.test FlugzeugWriteService.VERSION_PATTERN version) eqn:Ht;
    cbn [negb]; [right | left; reflexivity].
  destruct (accepted_token_parses version Ht) as (n & Hn & Hr).
  destruct (persisted_findById w id false row Hp) as (m & _ & Hfind).
  exists n. split; [lia|].
  unfold bind at 1 2. rewrite Hn, Hfind.
  cbn [SQL.hydrate Flugzeug.version fst JS.lt].
  replace (n <? DB.f_version row) with true by (symmetry; apply Z.ltb_lt; lia).
  reflexivity.
Qed.

Lemma update_blocked_from_version_1000_witness :
  persisted wornStore 3 (DB.mkFlugzeugRow 3 1000 100 (Some true) None 30 31)
  /\ 1000 <= 1000
  /\ fst (FlugzeugWriteService.update
            (Some 3) (flugzeugDtoOhneRefToFlugzeug Sample.patch 99)
            (JS.quoted "1000") (mkWorld wornStore []))
     = Throw (VersionInvalidException (JS.quoted "1000")).
Proof.
  assert (H1 : persisted (db (mkWorld wornStore [])) 3
                 (DB.mkFlugzeugRow 3 1000 100 (Some true) None 30 31))
    by (split; [reflexivity | discriminate]).
  assert (H2 : 1000 <= DB.f_version
                         (DB.mkFlugzeugRow 3 1000 100 (Some true) None 30 31))
    by (cbn; lia).
  split; [exact H1 | split; [lia|]].
  destruct (update_blocked_from_version_1000
              (mkWorld wornStore []) 3 _
              (flugzeugDtoOhneRefToFlugzeug Sample.patch 99)
              (JS.quoted "1000") H1 H2) as [H | (n & _ & H)].
  - exact H.
  - discriminate H.
Defined.

(** X4.  An [update] that is refused in validation, that is with
    [NotFoundException], [VersionInvalidException] or
    [VersionOutdatedException], has not written: every table of the store
    is as it was, and nothing was sent to it but, at most, the one query of
    [findById]. *)
Theorem failed_update_keeps_store
        (id : option Z) (patch : Flugzeug.t) (version : string)
        (w w' : World) (e : Exception) :
  FlugzeugWriteService.update id patch version w = (Throw e, w') ->
  (exists message, e = NotFoundException message)
  \/ e = VersionInvalidException version
  \/ (exists v, e = VersionOutdatedException v) ->
  db w' = db w
  /\ (log w' = log w
      \/ exists i : Z,
           id = Some i
           /\ log w' = (log w ++ [Select (QueryBuilder.buildId i false)])%list).
Proof.
  unfold FlugzeugWriteService.update. destruct id as [i|].
  2:{ intros H _. inversion H. split; [reflexivity | left; reflexivity]. }
  unfold bind at 1.
  pose proof (validateUpdate_db patch i version w) as Hdb.
  pose proof (validateUpdate_world patch i version w) as Hw.
  destruct (FlugzeugWriteService.validateUpdate patch i version w)
    as [[cur | x] w1]; cbn [snd] in Hdb, Hw.
  - unfold bind.
    destruct (Repository.save (Repository.merge cur patch) w1)
      as [[u | x] w2] eqn:Hs; intros H; inversion H; subst.
    apply save_Throw in Hs. destruct Hs as [sql ->].
    intros [[message E] | [E | [v E]]]; discriminate E.
  - intros H _. inversion H; subst. split; [exact Hdb|].
    destruct Hw as [-> | ->]; [left; reflexivity|].
    right. exists i. split; reflexivity.
Qed.

Lemma failed_update_keeps_store_witness :
  db (snd (FlugzeugWriteService.update
             (Some 2) (flugzeugDtoOhneRefToFlugzeug Sample.patch 99)
             (JS.quoted "4") Sample.world))
  = Sample.store
  /\ log (snd (FlugzeugWriteService.update
                 (Some 2) (flugzeugDtoOhneRefToFlugzeug Sample.patch 99)
                 (JS.quoted "4") Sample.world))
     = [Select (QueryBuilder.buildId 2 false)].
Proof.
  destruct (failed_update_keeps_store
              (Some 2) (flugzeugDtoOhneRefToFlugzeug Sample.patch 99)
              (JS.quoted "4") Sample.world _
              (VersionOutdatedException (Some 4)) eq_refl
              (or_intror (or_intror (ex_intro _ (Some 4) eq_refl))))
    as [Hdb _].
  split; [exact Hdb | reflexivity].
Defined.

(** X5.  [ID_PATTERN] accepts exactly the strings made of a digit from 1 to
    9 and up to ten further digits. *)
Theorem ID_PATTERN_accepts_exactly_identifiers (s : string) :
  JS.test FlugzeugReadService.ID_PATTERN s = true <-> idShaped s.
Proof.
  split; [|apply ID_PATTERN_accepts].
  unfold idShaped, JS.test, JS.matchHere.
  cbn [FlugzeugReadService.ID_PATTERN JS.anchorStart JS.anchorEnd JS.pieces
       JS.matchPieces JS.atom JS.rmin JS.rmax Nat.sub JS.atEnd].
  intros H. apply matchRep_spec in H.
  destruct H as (p1 & r1 & -> & Ha1 & Hl1 & H). apply matchRep_spec in H.
  destruct H as (ds & rest & -> & Had & Hld & Hrest).
  destruct rest; [|discriminate].
  destruct p1 as [|c [|c' p1]]; simpl in Hl1; try lia.
  cbn [allMatch JS.atomMatch] in Ha1. rewrite andb_true_r in Ha1.
  apply andb_prop in Ha1. destruct Ha1 as [Hlo Hhi].
  apply Nat.leb_le in Hlo, Hhi. cbn in Hlo, Hhi.
  rewrite allMatch_Digit in Had.
  exists c, ds. rewrite string_app_nil_r.
  repeat split; try assumption; lia.
Qed.

(** X6.  What [findById] returns has the identifier asked for, a version and
    a model; it has the seats of the aircraft exactly when they were asked
    for, and none otherwise.  The store is not changed. *)
Theorem findById_returns_the_aircraft
        (id : Z) (mitSitzplaetze : bool) (w : World) (flugzeug : Flugzeug.t) :
  fst (FlugzeugReadService.findById id mitSitzplaetze w) = Ok flugzeug ->
  Flugzeug.id flugzeug = Some id
  /\ Flugzeug.version flugzeug <> None
  /\ Flugzeug.modell flugzeug <> None
  /\ Flugzeug.sitzplaetze flugzeug
     = (if mitSitzplaetze
        then Some (map SQL.hydrateSitzplatz (DB.sitzplaetzeOf (db w) id))
        else None)
  /\ db (snd (FlugzeugReadService.findById id mitSitzplaetze w)) = db w.
Proof.
  intros H. apply findById_Ok in H.
  destruct H as (row & m & ms & Hrow & _ & ->).
  destruct (findFlugzeug_id _ _ _ Hrow) as [Hid _].
  rewrite findById_world.
  cbn [SQL.hydrate Flugzeug.id Flugzeug.version Flugzeug.modell
       Flugzeug.sitzplaetze fst snd option_map db logged].
  rewrite relationOf_sitzplaetze_buildId, Hid.
  repeat split; try discriminate. destruct mitSitzplaetze; reflexivity.
Qed.

Lemma findById_returns_the_aircraft_witness :
  exists flugzeug : Flugzeug.t,
    fst (FlugzeugReadService.findById 1 true Sample.world) = Ok flugzeug
    /\ Flugzeug.id flugzeug = Some 1
    /\ Flugzeug.sitzplaetze flugzeug
       = Some (map SQL.hydrateSitzplatz (DB.sitzplaetzeOf Sample.store 1)).
Proof.
  eexists. split; [reflexivity|].
  destruct (findById_returns_the_aircraft 1 true Sample.world _ eq_refl)
    as (H1 & _ & _ & H2 & _).
  split; [exact H1 | exact H2].
Defined.

(** X7.  [find] never changes the store, and sends at most one statement,
    a select. *)
Theorem find_never_writes
        (cfg : Config) (suchkriterien : option Suchkriterien) (w : World) :
  db (snd (FlugzeugReadService.find cfg suchkriterien w)) = db w
  /\ (log (snd (FlugzeugReadService.find cfg suchkriterien w)) = log w
      \/ exists qb,
           log (snd (FlugzeugReadService.find cfg suchkriterien w))
           = (log w ++ [Select qb])%list).
Proof.
  destruct (find_world cfg suchkriterien w) as [-> | ->].
  - split; [reflexivity | left; reflexivity].
  - split; [reflexivity | right; eexists; reflexivity].
Qed.

(** X8.  One key that is neither a property of the entity nor [javascript]
    nor [typescript], anywhere among the criteria, makes [find] fail with
    [NotFoundException] before any statement is sent. *)
Theorem find_rejects_unknown_key
        (cfg : Config) (suchkriterien : Suchkriterien) (key : string) (w : World) :
  In key (keys suchkriterien) ->
  validKey cfg key = false ->
  FlugzeugReadService.find cfg (Some suchkriterien) w
  = (Throw (NotFoundException UngueltigeSuchkriterien), w).
Proof.
  intros Hin Hk. apply find_invalid_keys.
  - intros ->. destruct Hin.
  - destruct (forallb (validKey cfg) (keys suchkriterien)) eqn:E; [|reflexivity].
    rewrite forallb_forall in E. rewrite (E key Hin) in Hk. discriminate.
Qed.

Lemma find_rejects_unknown_key_witness :
  In "farbe" (keys [("preis", JS.VNumber 9999); ("farbe", JS.VString "rot")])
  /\ validKey Sample.cfg "farbe" = false
  /\ FlugzeugReadService.find
       Sample.cfg (Some [("preis", JS.VNumber 9999); ("farbe", JS.VString "rot")])
       Sample.world
     = (Throw (NotFoundException UngueltigeSuchkriterien), Sample.world).
Proof.
  assert (H1 : In "farbe"
                  (keys [("preis", JS.VNumber 9999); ("farbe", JS.VString "rot")]))
    by (right; left; reflexivity).
  assert (H2 : validKey Sample.cfg "farbe" = false) by reflexivity.
  split; [exact H1 | split; [exact H2 |]].
  exact (find_rejects_unknown_key Sample.cfg _ "farbe" Sample.world H1 H2).
Defined.

(** X9.  For criteria with distinct keys, every criterion other than the
    model name gets a condition of its own, the comparison of its column
    with the parameter of its name, and that parameter is bound to the
    value of the criterion. *)
Theorem build_binds_every_criterion
        (cfg : Config) (suchkriterien : Suchkriterien)
        (key : string) (value : JS.Value) :
  NoDup (keys suchkriterien) ->
  In (key, value) suchkriterien ->
  key <> "modell" ->
  In ("flugzeug." ++ key ++ " = :" ++ key)
     (conditions (QueryBuilder.build cfg suchkriterien))
  /\ lookup key (parameters (QueryBuilder.build cfg suchkriterien)) = Some value.
Proof.
  intros Hn Hin Hne.
  assert (Hk : String.eqb key "modell" = false)
    by (destruct (String.eqb_spec key "modell"); [contradiction | reflexivity]).
  split.
  - unfold conditions. rewrite build_wheres.
    assert (Hother : In key (otherKeys suchkriterien)).
    { unfold otherKeys. apply filter_In. split.
      - apply (in_map fst) in Hin. exact Hin.
      - rewrite Hk. reflexivity. }
    destruct (hasModellString suchkriterien).
    + cbn [map]. right. rewrite map_map. apply in_map_iff.
      exists key. split; [reflexivity | exact Hother].
    + destruct (otherKeys suchkriterien) as [|k rest]; [destruct Hother|].
      cbn [map condition]. destruct Hother as [-> | Hrest]; [left; reflexivity|].
      right. rewrite map_map. apply in_map_iff.
      exists key. split; [reflexivity | exact Hrest].
  - rewrite build_parameters. apply lookup_fold_setParameter.
    + apply NoDup_keys_without. exact Hn.
    + apply filter_In. split; [exact Hin|]. cbn [fst]. rewrite Hk. reflexivity.
Qed.

Lemma build_binds_every_criterion_witness :
  NoDup (keys [("modell", JS.VString "a"); ("preis", JS.VNumber 9999);
               ("einsatzbereit", JS.VBool true)])
  /\ lookup "preis"
       (parameters
          (QueryBuilder.build
             Sample.cfg
             [("modell", JS.VString "a"); ("preis", JS.VNumber 9999);
              ("einsatzbereit", JS.VBool true)]))
     = Some (JS.VNumber 9999).
Proof.
  assert (H1 : NoDup (keys [("modell", JS.VString "a"); ("preis", JS.VNumber 9999);
                            ("einsatzbereit", JS.VBool true)])).
  { cbn. repeat constructor; cbn; intuition discriminate. }
  split; [exact H1|].
  apply (build_binds_every_criterion Sample.cfg _ "preis" (JS.VNumber 9999) H1).
  - right; left; reflexivity.
  - discriminate.
Defined.

(** X10.  The text of the conditions does not depend on the values of the
    criteria: two sets of criteria with the same keys, which both have or
    both have not a string as model name, give the same conditions. *)
Theorem build_text_ignores_values
        (cfg : Config) (suchkriterien suchkriterien' : Suchkriterien) :
  keys suchkriterien = keys suchkriterien' ->
  hasModellString suchkriterien = hasModellString suchkriterien' ->
  conditions (QueryBuilder.build cfg suchkriterien)
  = conditions (QueryBuilder.build cfg suchkriterien').
Proof.
  intros Hk Hm. unfold conditions. rewrite !build_wheres.
  unfold otherKeys. rewrite Hk, Hm. reflexivity.
Qed.

Lemma build_text_ignores_values_witness :
  keys [("modell", JS.VString "a"); ("preis", JS.VNumber 1)]
  = keys [("modell", JS.VString "x' or 1=1 --"); ("preis", JS.VString "0; drop")]
  /\ conditions (QueryBuilder.build
                   Sample.cfg
                   [("modell", JS.VString "x' or 1=1 --");
                    ("preis", JS.VString "0; drop")])
     = ["modell.modell ilike :modell"; "flugzeug.preis = :preis"].
Proof.
  split; [reflexivity|].
  rewrite <- (build_text_ignores_values
                Sample.cfg
                [("modell", JS.VString "a"); ("preis", JS.VNumber 1)]
                [("modell", JS.VString "x' or 1=1 --");
                 ("preis", JS.VString "0; drop")]
                eq_refl eq_refl).
  reflexivity.
Defined.

(** X11.  [delete] ends in one of two ways: it returns true, or it fails
    with the [NotFoundException] of [findById].  It never returns false. *)
Theorem delete_returns_true_or_fails (w : World) (id : Z) :
  (fst (FlugzeugWriteService.delete id w) = Ok true
   \/ fst (FlugzeugWriteService.delete id w)
      = Throw (NotFoundException (KeinFlugzeugMitId (Some id))))
  /\ fst (FlugzeugWriteService.delete id w) <> Ok false.
Proof.
  destruct (delete_result w id) as [H | H]; rewrite H;
    (split; [auto | discriminate]).
Qed.

(** X12.  After the deletion of an aircraft, [findById] with its identifier
    fails with [NotFoundException], and so does a second [delete]. *)
Theorem delete_then_NotFound
        (w : World) (id : Z) (row : DB.FlugzeugRow) (mitSitzplaetze : bool) :
  persisted (db w) id row ->
  exists w' : World,
    FlugzeugWriteService.delete id w = (Ok true, w')
    /\ fst (FlugzeugReadService.findById id mitSitzplaetze w')
       = Throw (NotFoundException (KeinFlugzeugMitId (Some id)))
    /\ fst (FlugzeugWriteService.delete id w')
       = Throw (NotFoundException (KeinFlugzeugMitId (Some id))).
Proof.
  intros [Hrow Hm].
  destruct (DB.modelleOf (db w) id) as [|m ms] eqn:E; [congruence|].
  eexists. split; [apply (delete_found w id row m ms Hrow E)|].
  split.
  - rewrite findById_missing; [reflexivity|].
    left. cbn [db]. apply afterDelete_gone.
  - rewrite delete_missing; [reflexivity|]. cbn [db]. apply afterDelete_gone.
Qed.

Lemma delete_then_NotFound_witness :
  persisted Sample.store 1
            (DB.mkFlugzeugRow 1 0 9999 (Some true) (Some "2022-02-28") 10 10)
  /\ exists w' : World,
       FlugzeugWriteService.delete 1 Sample.world = (Ok true, w')
       /\ fst (FlugzeugWriteService.delete 1 w')
          = Throw (NotFoundException (KeinFlugzeugMitId (Some 1))).
Proof.
  assert (H1 : persisted (db Sample.world) 1
                 (DB.mkFlugzeugRow 1 0 9999 (Some true) (Some "2022-02-28") 10 10))
    by (split; [reflexivity | discriminate]).
  split; [exact H1|].
  destruct (delete_then_NotFound Sample.world 1 _ true H1) as (w' & Hd & _ & H2).
  exists w'. split; assumption.
Defined.

(** X13.  With unique primary keys in the tables of the models and of the
    seats, the deletion of one aircraft leaves every other aircraft as it
    was: its row, its model, its seats, and what [findById] returns for it. *)
Theorem delete_leaves_other_aircraft
        (w w' : World) (id other : Z) (mitSitzplaetze : bool) :
  uniqueKeys (db w) ->
  FlugzeugWriteService.delete id w = (Ok true, w') ->
  other <> id ->
  DB.flugzeugeWithId (db w') other = DB.flugzeugeWithId (db w) other
  /\ DB.modelleOf (db w') other = DB.modelleOf (db w) other
  /\ DB.sitzplaetzeOf (db w') other = DB.sitzplaetzeOf (db w) other
  /\ fst (FlugzeugReadService.findById other mitSitzplaetze w')
     = fst (FlugzeugReadService.findById other mitSitzplaetze w).
Proof.
  intros Hu Hrun Hne.
  destruct (findFlugzeug (db w) id) as [row|] eqn:Hrow.
  2:{ rewrite delete_missing in Hrun by exact Hrow. discriminate Hrun. }
  destruct (DB.modelleOf (db w) id) as [|m ms] eqn:Hm.
  { unfold FlugzeugWriteService.delete in Hrun. unfold bind at 1 in Hrun.
    rewrite findById_missing in Hrun by (right; exact Hm). discriminate Hrun. }
  rewrite (delete_found w id row m ms Hrow Hm) in Hrun.
  injection Hrun as <-. cbn [db].
  assert (Hin : In m (DB.modelleOf (db w) id)) by (rewrite Hm; now left).
  destruct (afterDelete_frame (db w) id other m Hu Hin Hne) as (Hf & Hmo & Hs).
  split; [exact Hf|]. split; [exact Hmo|]. split; [exact Hs|].
  unfold FlugzeugReadService.findById, Repository.getOne, bind,
    Repository.getMany.
  rewrite !execute_buildId. cbn [db]. rewrite Hf, Hmo.
  assert (Hmap :
            map (SQL.hydrate (QueryBuilder.buildId other mitSitzplaetze)
                             (afterDelete (db w) id m))
                (flat_map (fun f => map (pair f) (map Some (DB.modelleOf (db w) other)))
                          (DB.flugzeugeWithId (db w) other))
            = map (SQL.hydrate (QueryBuilder.buildId other mitSitzplaetze) (db w))
                  (flat_map (fun f => map (pair f)
                                          (map Some (DB.modelleOf (db w) other)))
                            (DB.flugzeugeWithId (db w) other))).
  { apply map_ext_in. intros [f om] Hr. apply in_flat_map in Hr.
    destruct Hr as (f' & Hf' & Hr). apply in_map_iff in Hr.
    destruct Hr as (x & E & _). injection E as -> _.
    apply filter_In in Hf'. destruct Hf' as [_ Hid]. apply Z.eqb_eq in Hid.
    unfold SQL.hydrate. cbn [fst snd]. rewrite Hid, Hs. reflexivity. }
  rewrite Hmap.
  match goal with |- context [hd_error ?l] => destruct l end; reflexivity.
Qed.

Lemma delete_leaves_other_aircraft_witness :
  uniqueKeys Sample.store
  /\ FlugzeugWriteService.delete 1 Sample.world
     = (Ok true, snd (FlugzeugWriteService.delete 1 Sample.world))
  /\ DB.sitzplaetzeOf (db (snd (FlugzeugWriteService.delete 1 Sample.world))) 2
     = DB.sitzplaetzeOf Sample.store 2.
Proof.
  assert (H1 : uniqueKeys (db Sample.world)).
  { split; cbn; repeat constructor; cbn; intuition discriminate. }
  assert (H2 : FlugzeugWriteService.delete 1 Sample.world
               = (Ok true, snd (FlugzeugWriteService.delete 1 Sample.world)))
    by reflexivity.
  split; [exact H1 | split; [exact H2 |]].
  apply (delete_leaves_other_aircraft Sample.world _ 1 2 true H1 H2).
  discriminate.
Defined.

(** X14.  A PUT request whose [If-Match] header is the current version in
    quotes, for a version from 0 to 999, and which asks for something new,
    goes through: the answer carries the next version in quotes as [ETag],
    and the aircraft is persisted with that version.  Up to version 998
    that [ETag] is accepted as the [If-Match] header of the next request;
    from version 999 the [ETag] is the number 1000 in quotes, which the next
    request is refused for with [VersionInvalidException]. *)
Theorem put_answers_with_next_ETag
        (w : World) (id : Z) (row : DB.FlugzeugRow)
        (flugzeugDTO : FlugzeugDtoOhneRef.t) (now : Timestamp) :
  persisted (db w) id row ->
  0 <= DB.f_version row <= 999 ->
  changesNothing row flugzeugDTO now = false ->
  exists (w' : World) (row' : DB.FlugzeugRow),
    FlugzeugWriteController.put
      flugzeugDTO id (Some (JS.quoted (JS.numberToString (DB.f_version row)))) now w
    = (Ok {| FlugzeugWriteController.status := None;
             FlugzeugWriteController.headers :=
               [("ETag", JS.quoted (JS.numberToString (DB.f_version row + 1)))];
             FlugzeugWriteController.body := None |},
       w')
    /\ persisted (db w') id row'
    /\ DB.f_version row' = DB.f_version row + 1
    /\ (DB.f_version row < 999 ->
        forall (flugzeugDTO' : FlugzeugDtoOhneRef.t) (now' : Timestamp),
        exists (etag : string) (w'' : World),
          FlugzeugWriteController.put
            flugzeugDTO' id
            (Some (JS.quoted (JS.numberToString (DB.f_version row + 1)))) now' w'
          = (Ok {| FlugzeugWriteController.status := None;
                   FlugzeugWriteController.headers := [("ETag", etag)];
                   FlugzeugWriteController.body := None |},
             w''))
    /\ (DB.f_version row = 999 ->
        forall (flugzeugDTO' : FlugzeugDtoOhneRef.t) (now' : Timestamp),
          FlugzeugWriteController.put
            flugzeugDTO' id
            (Some (JS.quoted (JS.numberToString (DB.f_version row + 1)))) now' w'
          = (Throw (VersionInvalidException
                      (JS.quoted (JS.numberToString (DB.f_version row + 1)))),
             w')).
Proof.
  intros Hp Hv Hch.
  destruct (quoted_version (DB.f_version row) Hv) as (Hd & Hl & Hdec).
  destruct (update_succeeds
              w id flugzeugDTO now
              (JS.numberToString (DB.f_version row)) EmptyString row
              Hd Hl Hp ltac:(lia))
    as (w' & row' & Hrun & Hp' & Hv' & _).
  rewrite string_app_nil_r in Hrun.
  unfold versionAfter in Hrun, Hv'. rewrite Hch in Hrun, Hv'.
  exists w', row'. split; [|split; [exact Hp' | split; [exact Hv' | split]]].
  - unfold FlugzeugWriteController.put, bind. rewrite Hrun. reflexivity.
  - intros Hlt flugzeugDTO' now'.
    destruct (quoted_version (DB.f_version row + 1) ltac:(lia))
      as (Hd1 & Hl1 & Hdec1).
    destruct (update_succeeds
                w' id flugzeugDTO' now'
                (JS.numberToString (DB.f_version row + 1)) EmptyString row'
                Hd1 Hl1 Hp' ltac:(lia))
      as (w'' & row'' & Hrun' & _).
    rewrite string_app_nil_r in Hrun'.
    eexists _, w''.
    unfold FlugzeugWriteController.put, bind. rewrite Hrun'. reflexivity.
  - intros Hmax flugzeugDTO' now'. rewrite Hmax.
    unfold FlugzeugWriteController.put, bind, FlugzeugWriteService.update,
      FlugzeugWriteService.validateUpdate.
    change (JS.test FlugzeugWriteService.VERSION_PATTERN
                    (JS.quoted (JS.numberToString (999 + 1))))
      with false.
    reflexivity.
Qed.

Lemma put_answers_with_next_ETag_witness :
  persisted Sample.store 2 (DB.mkFlugzeugRow 2 5 25000 None None 20 20)
  /\ 0 <= 5 <= 999
  /\ changesNothing (DB.mkFlugzeugRow 2 5 25000 None None 20 20) Sample.patch 99
     = false
  /\ fst (FlugzeugWriteController.put
            Sample.patch 2 (Some (JS.quoted "5")) 99 Sample.world)
     = Ok {| FlugzeugWriteController.status := None;
             FlugzeugWriteController.headers := [("ETag", JS.quoted "6")];
             FlugzeugWriteController.body := None |}.
Proof.
  assert (H1 : persisted (db Sample.world) 2
                 (DB.mkFlugzeugRow 2 5 25000 None None 20 20))
    by (split; [reflexivity | discriminate]).
  assert (H2 : 0 <= DB.f_version (DB.mkFlugzeugRow 2 5 25000 None None 20 20)
               <= 999) by (cbn; lia).
  assert (H3 : changesNothing (DB.mkFlugzeugRow 2 5 25000 None None 20 20)
                              Sample.patch 99 = false) by reflexivity.
  split; [exact H1 | split; [lia | split; [exact H3|]]].
  destruct (put_answers_with_next_ETag Sample.world 2 _ Sample.patch 99 H1 H2 H3)
    as (w' & row' & Hrun & _).
  exact (f_equal fst Hrun).
Defined.

(** X15.  A PUT request changes the store only when it is answered with an
    [ETag]: whenever the update fails, every table stays as it was; and
    without the header [If-Match] the answer is the status 428 and no
    statement is sent at all. *)
Theorem put_changes_store_only_with_ETag
        (flugzeugDTO : FlugzeugDtoOhneRef.t) (id : Z) (version : option string)
        (now : Timestamp) (w : World) :
  ((exists etag,
       fst (FlugzeugWriteController.put flugzeugDTO id version now w)
       = Ok {| FlugzeugWriteController.status := None;
               FlugzeugWriteController.headers := [("ETag", etag)];
               FlugzeugWriteController.body := None |})
   \/ db (snd (FlugzeugWriteController.put flugzeugDTO id version now w)) = db w)
  /\ FlugzeugWriteController.put flugzeugDTO id None now w
     = (Ok {| FlugzeugWriteController.status := Some 428;
              FlugzeugWriteController.headers :=
                [("Content-Type", "application/json")];
              FlugzeugWriteController.body :=
                Some ("Header " ++ JS.quoted "If-Match" ++ " fehlt") |},
        w).
Proof.
  split; [|reflexivity].
  destruct version as [version|]; [|right; reflexivity].
  unfold FlugzeugWriteController.put, bind.
  destruct (FlugzeugWriteService.update
              (Some id) (flugzeugDtoOhneRefToFlugzeug flugzeugDTO now) version w)
    as [[v | e] w'] eqn:Hrun.
  - left. eexists. reflexivity.
  - right. apply update_Throw_db in Hrun. exact Hrun.
Qed.

(** X16.  When a POST request on a store that keeps referential integrity
    goes through, the answer names, as its location, an identifier that was
    not in use, and one mail has been sent, which names the same identifier
    and the model.  [findById] with that identifier then returns the
    aircraft of the request: the given price, flag and year, the two dates
    of the request, the given model name and the given seat classes. *)
Theorem post_then_findById
        (w w' : World) (flugzeugDTO : FlugzeugDTO.t) (baseUri : string)
        (erzeugt aktualisiert : Timestamp)
        (response : FlugzeugWriteController.Response) (mails : list Mail.t) :
  referentialIntegrity (db w) ->
  FlugzeugWriteController.post flugzeugDTO baseUri erzeugt aktualisiert w
  = (Ok response, w', mails) ->
  exists (id : Z) (flugzeug : Flugzeug.t) (modell : Modell.t)
         (sitzplaetze : list Sitzplatz.t),
    response
    = {| FlugzeugWriteController.status := None;
         FlugzeugWriteController.headers :=
           [("Location", baseUri ++ "/" ++ JS.numberToString id)];
         FlugzeugWriteController.body := None |}
    /\ mails
       = [ {| Mail.subject := "Neues Flugzeug " ++ JS.numberToString id;
              Mail.body :=
                "Das Flugzeug mit dem Modell <strong>"
                ++ ModellDTO.modell (FlugzeugDTO.modell flugzeugDTO)
                ++ "</strong> ist angelegt" |} ]
    /\ findFlugzeug (db w) id = None
    /\ fst (FlugzeugReadService.findById id true w') = Ok flugzeug
    /\ Flugzeug.id flugzeug = Some id
    /\ Flugzeug.preis flugzeug = Some (FlugzeugDTO.preis flugzeugDTO)
    /\ Flugzeug.einsatzbereit flugzeug = FlugzeugDTO.einsatzbereit flugzeugDTO
    /\ Flugzeug.baujahr flugzeug = FlugzeugDTO.baujahr flugzeugDTO
    /\ Flugzeug.erzeugt flugzeug = Some erzeugt
    /\ Flugzeug.aktualisiert flugzeug = Some aktualisiert
    /\ Flugzeug.modell flugzeug = Some modell
    /\ Modell.modell modell
       = Some (ModellDTO.modell (FlugzeugDTO.modell flugzeugDTO))
    /\ Flugzeug.sitzplaetze flugzeug = Some sitzplaetze
    /\ map Sitzplatz.sitzplatzklasse sitzplaetze
       = map Some (klassen flugzeugDTO).
Proof.
  intros HRI Hpost.
  unfold FlugzeugWriteController.post, FlugzeugWriteService.create in Hpost.
  set (e := FlugzeugWriteController.flugzeugDtoToFlugzeug
              flugzeugDTO erzeugt aktualisiert) in *.
  destruct (Repository.save e w) as [[u | x] w1] eqn:Hsave;
    [|discriminate Hpost].
  destruct (save_new e u w w1 eq_refl Hsave)
    as (p & Hprice & Hnot & Hid & Hmodell & _ & Hf & Hm & Hs).
  injection Hprice as <-.
  set (fid := DB.flugzeug_id_seq (db w) + 1) in *.
  rewrite Hid in Hpost. cbn [JS.interpolate] in Hpost.
  injection Hpost as <- <- <-.
  cbn [e FlugzeugWriteController.flugzeugDtoToFlugzeug Flugzeug.modell
       Flugzeug.sitzplaetze Flugzeug.einsatzbereit Flugzeug.baujahr
       Flugzeug.erzeugt Flugzeug.aktualisiert Modell.modell
       Repository.orKeep] in Hf, Hm, Hs.
  set (seats :=
         match option_map
                 (map (fun sitzplatzDTO =>
                         {| Sitzplatz.id := None;
                            Sitzplatz.sitzplatzklasse :=
                              Some (SitzplatzDTO.sitzplatzklasse sitzplatzDTO) |}))
                 (FlugzeugDTO.sitzplaetze flugzeugDTO)
         with
         | Some l =>
             Repository.insertSitzplaetze fid (DB.sitzplatz_id_seq (db w) + 1) l
         | None => []
         end) in *.
  assert (Hseats : (forall s, In s seats -> DB.s_flugzeug_id s = Some fid)
                   /\ map DB.s_sitzplatzklasse seats = klassen flugzeugDTO).
  { unfold seats, klassen.
    destruct (FlugzeugDTO.sitzplaetze flugzeugDTO) as [l|]; cbn [option_map].
    - destruct (insertSitzplaetze_spec
                  fid
                  (map (fun sitzplatzDTO =>
                          {| Sitzplatz.id := None;
                             Sitzplatz.sitzplatzklasse :=
                               Some (SitzplatzDTO.sitzplatzklasse sitzplatzDTO) |})
                       l)
                  (DB.sitzplatz_id_seq (db w) + 1))
        as [H1 H2].
      split; [exact H2|]. rewrite H1, map_map. reflexivity.
    - split; [intros s [] | reflexivity]. }
  destruct Hseats as [Hrefs Hkl].
  match type of Hf with
  | _ = (_ ++ [?r])%list => set (row := r) in *
  end.
  match type of Hm with
  | _ = (_ ++ [?m])%list => set (mrow := m) in *
  end.
  assert (Hmrefs : forall m, In m [mrow] -> DB.m_flugzeug_id m = Some fid)
    by (intros m [<- | []]; reflexivity).
  destruct (rows_of_new (db w) (db w1) fid row [mrow] seats
                        HRI Hnot eq_refl Hmrefs Hrefs Hf Hm Hs)
    as (Hnone & Hfind & Hmodelle & Hsitze).
  pose proof (findById_found w1 fid true row mrow [] Hfind Hmodelle) as Hread.
  exists fid, (SQL.hydrate (QueryBuilder.buildId fid true) (db w1) (row, Some mrow)),
    (SQL.hydrateModell mrow), (map SQL.hydrateSitzplatz seats).
  split; [reflexivity|]. split.
  { unfold FlugzeugWriteService.sendmail. rewrite Hid, Hmodell. reflexivity. }
  split; [exact Hnone|].
  rewrite Hread.
  cbn [fst snd SQL.hydrate Flugzeug.id Flugzeug.version Flugzeug.preis
       Flugzeug.einsatzbereit Flugzeug.baujahr Flugzeug.erzeugt
       Flugzeug.aktualisiert Flugzeug.modell Flugzeug.sitzplaetze
       option_map].
  rewrite relationOf_sitzplaetze_buildId.
  change (DB.f_id row) with fid. rewrite Hsitze.
  repeat split.
  rewrite map_map. cbn [SQL.hydrateSitzplatz Sitzplatz.sitzplatzklasse].
  rewrite <- Hkl, map_map. reflexivity.
Qed.

Lemma post_then_findById_witness :
  referentialIntegrity Sample.store
  /\ exists (id : Z) (flugzeug : Flugzeug.t),
       fst (fst (FlugzeugWriteController.post
                   neuesFlugzeug "https://localhost:3000/rest" 5 6 Sample.world))
       = Ok {| FlugzeugWriteController.status := None;
               FlugzeugWriteController.headers :=
                 [("Location",
                   "https://localhost:3000/rest" ++ "/" ++ JS.numberToString id)];
               FlugzeugWriteController.body := None |}
       /\ fst (FlugzeugReadService.findById
                 id true
                 (snd (fst (FlugzeugWriteController.post
                              neuesFlugzeug "https://localhost:3000/rest" 5 6
                              Sample.world))))
          = Ok flugzeug
       /\ Flugzeug.preis flugzeug = Some 9999.
Proof.
  assert (H1 : referentialIntegrity (db Sample.world)).
  { split; intros x i Hin E; cbn in Hin;
      repeat (destruct Hin as [<- | Hin];
              [cbn in E; injection E as <-; cbn; tauto|]);
      destruct Hin. }
  split; [exact H1|].
  destruct (FlugzeugWriteController.post
              neuesFlugzeug "https://localhost:3000/rest" 5 6 Sample.world)
    as [[[response | x] w'] mails] eqn:Hrun; [|discriminate Hrun].
  destruct (post_then_findById
              Sample.world w' neuesFlugzeug "https://localhost:3000/rest" 5 6
              response mails H1 Hrun)
    as (id & f & mo & ss & Hresp & _ & _ & Hread & _ & Hp & _).
  exists id, f. cbn [fst snd].
  split; [rewrite Hresp; reflexivity | split; [exact Hread | exact Hp]].
Defined.



(** X18.  The query by identifier joins the model with an inner join: an
    aircraft that no model row refers to is not found.  [findById] and
    [delete] fail for it with [NotFoundException], and [update] fails with
    [NotFoundException] unless it refuses the token before; the store stays
    as it is. *)
Theorem aircraft_without_model_is_not_found
        (w : World) (id : Z) (mitSitzplaetze : bool)
        (patch : Flugzeug.t) (version : string) :
  DB.modelleOf (db w) id = [] ->
  fst (FlugzeugReadService.findById id mitSitzplaetze w)
  = Throw (NotFoundException (KeinFlugzeugMitId (Some id)))
  /\ FlugzeugWriteService.delete id w
     = (Throw (NotFoundException (KeinFlugzeugMitId (Some id))),
        logged (Select (QueryBuilder.buildId id true)) w)
  /\ (fst (FlugzeugWriteService.update (Some id) patch version w)
      = Throw (NotFoundException (KeinFlugzeugMitId (Some id)))
      \/ fst (FlugzeugWriteService.update (Some id) patch version w)
         = Throw (VersionInvalidException version)).
Proof.
  intros Hm. split; [|split].
  - rewrite findById_missing by (right; exact Hm). reflexivity.
  - unfold FlugzeugWriteService.delete. unfold bind at 1.
    rewrite findById_missing by (right; exact Hm). reflexivity.
  - unfold FlugzeugWriteService.update, FlugzeugWriteService.validateUpdate.
    destruct (JS.test FlugzeugWriteService.VERSION_PATTERN version);
      cbn [negb]; [left | right; reflexivity].
    unfold bind at 1 2.
    rewrite findById_missing by (right; exact Hm). reflexivity.
Qed.

Lemma aircraft_without_model_is_not_found_witness :
  findFlugzeug modellessStore 4
  = Some (DB.mkFlugzeugRow 4 2 100 (Some true) None 40 41)
  /\ DB.modelleOf modellessStore 4 = []
  /\ fst (FlugzeugReadService.findById 4 true (mkWorld modellessStore []))
     = Throw (NotFoundException (KeinFlugzeugMitId (Some 4))).
Proof.
  split; [reflexivity|].
  assert (H : DB.modelleOf (db (mkWorld modellessStore [])) 4 = [])
    by reflexivity.
  split; [exact H|].
  exact (proj1 (aircraft_without_model_is_not_found
                  (mkWorld modellessStore []) 4 true
                  (flugzeugDtoOhneRefToFlugzeug Sample.patch 99)
                  (JS.quoted "2") H)).
Defined.

(** X19.  The token of the current version, from 0 to 999, works once: an
    update with it and the patch of a PUT request that asks for something
    new goes through and returns the next version, and a second update with
    the same token fails with [VersionOutdatedException].  When the request
    asks for nothing new, the update returns the version as it is, the
    store stays as it was, and the same token is accepted again. *)
Theorem token_of_current_version_works_once
        (w : World) (id : Z) (row : DB.FlugzeugRow)
        (flugzeugDTO : FlugzeugDtoOhneRef.t) (now : Timestamp)
        (patch' : Flugzeug.t) :
  persisted (db w) id row ->
  0 <= DB.f_version row <= 999 ->
  exists w' : World,
    FlugzeugWriteService.update
      (Some id) (flugzeugDtoOhneRefToFlugzeug flugzeugDTO now)
      (JS.quoted (JS.numberToString (DB.f_version row))) w
    = (Ok (Some (versionAfter row flugzeugDTO now)), w')
    /\ (changesNothing row flugzeugDTO now = false ->
        versionAfter row flugzeugDTO now = DB.f_version row + 1
        /\ fst (FlugzeugWriteService.update
                  (Some id) patch'
                  (JS.quoted (JS.numberToString (DB.f_version row))) w')
           = Throw (VersionOutdatedException (Some (DB.f_version row))))
    /\ (changesNothing row flugzeugDTO now = true ->
        versionAfter row flugzeugDTO now = DB.f_version row
        /\ db w' = db w
        /\ fst (FlugzeugWriteService.update
                  (Some id) (flugzeugDtoOhneRefToFlugzeug flugzeugDTO now)
                  (JS.quoted (JS.numberToString (DB.f_version row))) w')
           = Ok (Some (DB.f_version row))).
Proof.
  intros Hp Hv.
  destruct (quoted_version (DB.f_version row) Hv) as (Hd & Hl & Hdec).
  destruct (update_succeeds
              w id flugzeugDTO now
              (JS.numberToString (DB.f_version row)) EmptyString row
              Hd Hl Hp ltac:(lia))
    as (w' & row' & Hrun & Hp' & Hv' & Hsame).
  rewrite string_app_nil_r in Hrun.
  exists w'. split; [exact Hrun|]. split.
  - intros Hch. unfold versionAfter in Hv' |- *. rewrite Hch in Hv' |- *.
    split; [reflexivity|].
    destruct (validateUpdate_accepted
                w' id patch' (JS.numberToString (DB.f_version row)) EmptyString
                row' Hd Hl Hp')
      as (m & Hval).
    rewrite string_app_nil_r in Hval.
    unfold FlugzeugWriteService.update. unfold bind at 1. rewrite Hval.
    rewrite Hdec, Hv'.
    replace (DB.f_version row <? DB.f_version row + 1) with true
      by (symmetry; apply Z.ltb_lt; lia).
    reflexivity.
  - intros Hch. specialize (Hsame Hch).
    assert (Hva : versionAfter row flugzeugDTO now = DB.f_version row)
      by (unfold versionAfter; rewrite Hch; reflexivity).
    split; [exact Hva|]. split; [exact Hsame|].
    assert (Hp2 : persisted (db w') id row) by (rewrite Hsame; exact Hp).
    destruct (update_succeeds
                w' id flugzeugDTO now
                (JS.numberToString (DB.f_version row)) EmptyString row
                Hd Hl Hp2 ltac:(lia))
      as (w'' & row'' & Hrun' & _).
    rewrite string_app_nil_r in Hrun'. rewrite Hrun', Hva. reflexivity.
Qed.

Lemma token_of_current_version_works_once_witness :
  persisted Sample.store 2 (DB.mkFlugzeugRow 2 5 25000 None None 20 20)
  /\ exists w' : World,
       FlugzeugWriteService.update
         (Some 2) (flugzeugDtoOhneRefToFlugzeug Sample.patch 99)
         (JS.quoted "5") Sample.world
       = (Ok (Some 6), w')
       /\ fst (FlugzeugWriteService.update
                 (Some 2) (flugzeugDtoOhneRefToFlugzeug Sample.patch 100)
                 (JS.quoted "5") w')
          = Throw (VersionOutdatedException (Some 5)).
Proof.
  assert (H1 : persisted (db Sample.world) 2
                 (DB.mkFlugzeugRow 2 5 25000 None None 20 20))
    by (split; [reflexivity | discriminate]).
  assert (H2 : 0 <= DB.f_version (DB.mkFlugzeugRow 2 5 25000 None None 20 20)
               <= 999) by (cbn; lia).
  split; [exact H1|].
  destruct (token_of_current_version_works_once
              Sample.world 2 _ Sample.patch 99
              (flugzeugDtoOhneRefToFlugzeug Sample.patch 100) H1 H2)
    as (w' & Hrun & Hnew & _).
  exists w'. split; [exact Hrun|]. exact (proj2 (Hnew eq_refl)).
Defined.
